(** * Minesweeper cog: a shallow embedding of
      [bot/seasons/evergreen/minesweeper.py] and the properties of its
      game-state machine.

    Python objects that are mutated in place and can be reached through
    more than one name (the two grids of a [Game]) live in a heap of grid
    objects addressed by location; everything else is a value.  Code that
    can raise runs in a state-and-exception monad whose exceptional
    outcome keeps the state reached so far, as a Python exception keeps
    the mutations already made. *)

From Stdlib Require Import ZArith QArith String Ascii Lia.
From stdpp Require Import base list gmap.

Local Open Scope Z_scope.
Local Close Scope Q_scope.

(** ** Exceptions and the state-and-exception monad *)

Inductive exn : Set :=
| IndexError
| KeyError
| ValueError
| ArgumentParsingError.

Inductive outcome (S A : Type) : Type :=
| Ok (a : A) (s : S)
| Raise (e : exn) (s : S)
| OutOfFuel.
Arguments Ok {S A} a s.
Arguments Raise {S A} e s.
Arguments OutOfFuel {S A}.

Definition M (S A : Type) : Type := S -> outcome S A.

Definition ret {S A} (a : A) : M S A := fun s => Ok a s.

Definition bind {S A B} (m : M S A) (k : A -> M S B) : M S B :=
  fun s =>
    match m s with
    | Ok a s' => k a s'
    | Raise e s' => Raise e s'
    | OutOfFuel => OutOfFuel
    end.

Definition raise {S A} (e : exn) : M S A := fun s => Raise e s.

Definition get_state {S} : M S S := fun s => Ok s s.

Definition modify {S} (f : S -> S) : M S unit := fun s => Ok tt (f s).

(** An index or key lookup that raises [e] when it has no result. *)
Definition or_raise {S A} (e : exn) (o : option A) : M S A :=
  match o with
  | Some a => ret a
  | None => raise e
  end.

Declare Scope py_scope.
Delimit Scope py_scope with py.
Notation "'let!' x ':=' m 'in' k" := (bind m (fun x => k))
  (at level 10, x pattern, m at level 100, k at level 200) : py_scope.
Notation "m ';;;' k" := (bind m (fun _ => k))
  (at level 100, k at level 200, right associativity) : py_scope.
Local Open Scope py_scope.

(** [for p in l: body p] *)
Fixpoint for_each {S A} (l : list A) (body : A -> M S unit) : M S unit :=
  match l with
  | [] => ret tt
  | a :: l' => body a ;;; for_each l' body
  end.

(** [[m for _ in range(n)]] *)
Fixpoint repeatM {S A} (n : nat) (m : M S A) : M S (list A) :=
  match n with
  | O => ret []
  | S n' => let! a := m in let! l := repeatM n' m in ret (a :: l)
  end.

(** [any(test p for p in l)], with the short circuit of [any] over a
    generator: the elements after the first true one are not evaluated. *)
Fixpoint anyM {S A} (l : list A) (test : A -> M S bool) : M S bool :=
  match l with
  | [] => ret false
  | a :: l' => let! b := test a in if b then ret true else anyM l' test
  end.

(** ** Python sequence indexing *)

(** Index [i] of a list of length [len l]: negative indices count from the
    end, anything outside [-len, len) is an [IndexError] ([None]). *)
Definition py_index {A} (l : list A) (i : Z) : option nat :=
  let n := Z.of_nat (length l) in
  if (0 <=? i) && (i <? n) then Some (Z.to_nat i)
  else if (- n <=? i) && (i <? 0) then Some (Z.to_nat (n + i))
  else None.

Definition getitem {A} (l : list A) (i : Z) : option A :=
  k ← py_index l i; l !! k.

Definition setitem {A} (l : list A) (i : Z) (v : A) : option (list A) :=
  k ← py_index l i; Some (<[k := v]> l).

(** ** Cells and grids *)

(** [GameBoard = List[List[Union[str, int]]]]: the four strings the module
    stores in a grid, and the integers. *)
Inductive cell : Set :=
| Bomb                (* "bomb" *)
| NumberTag           (* "number", the placeholder of [generate_board] *)
| Hidden              (* "hidden" *)
| Flag                (* "flag" *)
| Num (n : Z).        (* a count of neighbouring bombs *)

Definition cell_eqb (a b : cell) : bool :=
  match a, b with
  | Bomb, Bomb | NumberTag, NumberTag | Hidden, Hidden | Flag, Flag => true
  | Num n, Num m => n =? m
  | _, _ => false
  end.

Abbreviation GameBoard := (list (list cell)).

(** [g[y][x]] *)
Definition grid_get (g : GameBoard) (x y : Z) : option cell :=
  row ← getitem g y; getitem row x.

(** [g[y][x] = v]: the row object [g[y]] is updated in place. *)
Definition grid_set (g : GameBoard) (x y : Z) (v : cell) : option GameBoard :=
  row ← getitem g y; row' ← setitem row x v; setitem g y row'.

(** ** CoordinateConverter *)

Definition ord (c : ascii) : Z := Z.of_N (N_of_ascii c).

(** [str.lower], [str.isdigit] and [int] on one character of an ASCII
    token. *)
Definition lower (c : ascii) : ascii :=
  if (65 <=? ord c) && (ord c <=? 90)
  then ascii_of_N (N_of_ascii c + 32) else c.

Definition isdigit (c : ascii) : bool := (48 <=? ord c) && (ord c <=? 57).

Definition int_of_char (c : ascii) : option Z :=
  if isdigit c then Some (ord c - 48) else None.

(** [sorted] on a list of characters (by code point). *)
Fixpoint insert_sorted (c : ascii) (l : list ascii) : list ascii :=
  match l with
  | [] => [c]
  | d :: l' => if ord c <=? ord d then c :: l else d :: insert_sorted c l'
  end.

Definition sorted (l : list ascii) : list ascii :=
  foldr insert_sorted [] l.

Definition convert (coordinate : string) : exn + (Z * Z) :=
  let len := Z.of_nat (String.length coordinate) in
  if negb ((2 <=? len) && (len <=? 3)) then inl ArgumentParsingError
  else
    (* digit, letter = sorted(coordinate.lower()) *)
    match sorted (map lower (list_ascii_of_string coordinate)) with
    | [digit; letter] =>
        if negb (isdigit letter) then inl ArgumentParsingError
        else
          let x := ord (lower letter) - 97 in
          match int_of_char digit with
          | None => inl ValueError
          | Some d =>
              let y := d - 1 in
              if negb ((0 <=? x) && (x <=? 9)) || negb ((0 <=? y) && (y <=? 9))
              then inl ArgumentParsingError
              else inr (x, y)
          end
    | _ => inl ValueError      (* too many values to unpack *)
    end.


(** ** The grid as a local mutable object *)

(** [g[y][x]] and [g[y][x] = v] on the grid held in the state. *)
Definition peek (x y : Z) : M GameBoard cell :=
  fun g => or_raise IndexError (grid_get g x y) g.

Definition poke (x y : Z) (v : cell) : M GameBoard unit :=
  fun g =>
    match grid_set g x y v with
    | Some g' => Ok tt g'
    | None => Raise IndexError g
    end.

(** ** get_neighbours *)

Definition get_neighbours (x y : Z) : list (Z * Z) :=
  x_ ← [x - 1; x; x + 1];
  y_ ← [y - 1; y; y + 1];
  if negb (x_ =? -1) && negb (x_ =? 10) && negb (y_ =? -1) && negb (y_ =? 10)
  then [(x_, y_)] else [].

(** ** The world: store of games, heap of grids, random source, messages *)

Definition loc : Set := nat.

(** The [Game] dataclass.  [board] and [revealed] are references to grid
    objects; the two message handles are represented by the messages
    written to the [outbox]. *)
Record Game : Set := mkGame {
  board : loc;
  revealed : loc;
  activated_on_server : bool
}.

(** What the cog says.  [BoardView g] stands for the text
    [format_for_discord(g)]. *)
Inductive message : Type :=
| AlreadyRunning
| IsPlaying
| HowToPlay
| BoardView (g : GameBoard)
| YouLost
| JustLost
| YouWon
| JustWon
| Canceled (g : GameBoard).

Inductive event : Type :=
| SendChannel (m : message)     (* ctx.send *)
| DeleteCommand                 (* ctx.message.delete *)
| SendDm (m : message)          (* ctx.author.send *)
| DeleteDm                      (* game.dm_msg.delete *)
| EditDm (m : message)          (* game.dm_msg.edit *)
| EditChat (m : message)        (* game.chat_msg.edit *)
| SendChat (m : message).       (* game.chat_msg.channel.send *)

Record World : Type := mkWorld {
  heap : gmap loc GameBoard;    (* the grid objects *)
  next_loc : loc;               (* the next fresh location *)
  games : gmap Z Game;          (* self.games *)
  draws : nat -> Q;             (* the values random() will return *)
  cursor : nat;                 (* how many of them were consumed *)
  outbox : list event           (* messages, oldest first *)
}.

Definition set_heap (f : gmap loc GameBoard -> gmap loc GameBoard) (w : World) : World :=
  mkWorld (f (heap w)) (next_loc w) (games w) (draws w) (cursor w) (outbox w).

Definition set_games (f : gmap Z Game -> gmap Z Game) (w : World) : World :=
  mkWorld (heap w) (next_loc w) (f (games w)) (draws w) (cursor w) (outbox w).

(** The invocation context: who sent the command, and whether from a
    guild channel. *)
Record Ctx : Set := mkCtx {
  author : Z;
  guild : bool
}.

(** [random()] *)
Definition random : M World Q :=
  fun w => Ok (draws w (cursor w))
              (mkWorld (heap w) (next_loc w) (games w) (draws w) (S (cursor w)) (outbox w)).

Definition emit (e : event) : M World unit :=
  fun w => Ok tt (mkWorld (heap w) (next_loc w) (games w) (draws w) (cursor w)
                          (outbox w ++ [e])).

(** A new grid object. *)
Definition alloc (g : GameBoard) : M World loc :=
  fun w => Ok (next_loc w)
              (mkWorld (<[next_loc w := g]> (heap w)) (S (next_loc w)) (games w)
                       (draws w) (cursor w) (outbox w)).

(** The grid a reference points to. *)
Definition deref (l : loc) : M World GameBoard :=
  fun w => Ok (heap w !!! l) w.

(** [l[y][x]] and [l[y][x] = v] through a reference. *)
Definition read (l : loc) (x y : Z) : M World cell :=
  fun w => or_raise IndexError (grid_get (heap w !!! l) x y) w.

Definition write (l : loc) (x y : Z) (v : cell) : M World unit :=
  fun w =>
    match grid_set (heap w !!! l) x y v with
    | Some g' => Ok tt (set_heap (insert l g') w)
    | None => Raise IndexError w
    end.

(** Runs code that works on a local grid object; an exception in it
    propagates. *)
Definition with_local {A} (g : GameBoard) (m : M GameBoard A) : M World GameBoard :=
  fun w =>
    match m g with
    | Ok _ g' => Ok g' w
    | Raise e _ => Raise e w
    | OutOfFuel => OutOfFuel
    end.

(** [self.games[ctx.author.id]] *)
Definition the_game (ctx : Ctx) : M World Game :=
  fun w => or_raise KeyError (games w !! author ctx) w.

(** [del self.games[ctx.author.id]] *)
Definition del_game (ctx : Ctx) : M World unit :=
  the_game ctx ;;; modify (set_games (delete (author ctx))).

(** ** generate_board *)

(** The inner loop: [bombs] counts the neighbours that hold "bomb". *)
Fixpoint count_bombs (ns : list (Z * Z)) (bombs : Z) : M GameBoard Z :=
  match ns with
  | [] => ret bombs
  | (x_, y_) :: ns' =>
      let! c := peek x_ y_ in
      count_bombs ns' (if cell_eqb c Bomb then bombs + 1 else bombs)
  end.

(** The body of the two [enumerate] loops at column [x] of row [y]. *)
Definition number_cell (y x : nat) : M GameBoard unit :=
  let! c := peek (Z.of_nat x) (Z.of_nat y) in
  if cell_eqb c NumberTag then
    let! bombs := count_bombs (get_neighbours (Z.of_nat x) (Z.of_nat y)) 0 in
    poke (Z.of_nat x) (Z.of_nat y) (Num bombs)
  else ret tt.

Definition number_cells : M GameBoard unit :=
  let! b := get_state in
  for_each (seq 0 (length b)) (fun y =>
    for_each (seq 0 (length (b !!! y))) (number_cell y)).

Definition generate_board (bomb_chance : Q) : M World GameBoard :=
  let! b := repeatM 10 (repeatM 10 (
              let! r := random in
              ret (if Qle_bool r bomb_chance then Bomb else NumberTag))) in
  with_local b number_cells.

(** ** The commands of the cog *)

Definition hidden_board : GameBoard := replicate 10 (replicate 10 Hidden).

Definition start_command (ctx : Ctx) (bomb_chance : Q) : M World unit :=
  let! w := get_state in
  match games w !! author ctx with
  | Some _ =>                                  (* already playing *)
      emit (SendChannel AlreadyRunning) ;;;
      emit DeleteCommand
  | None =>
      let! b := generate_board bomb_chance in
      let! board_ref := alloc b in
      let! revealed_ref := alloc hidden_board in
      (if guild ctx then
         emit (SendChannel IsPlaying) ;;;
         emit (SendChannel (BoardView hidden_board))
       else ret tt) ;;;
      emit (SendDm HowToPlay) ;;;
      emit (SendDm (BoardView hidden_board)) ;;;
      modify (set_games (insert (author ctx)
                (mkGame board_ref revealed_ref (guild ctx))))
  end.

Definition update_boards (ctx : Ctx) : M World unit :=
  let! game := the_game ctx in
  emit DeleteDm ;;;
  let! shown := deref (revealed game) in
  emit (SendDm (BoardView shown)) ;;;
  if activated_on_server game then emit (EditChat (BoardView shown)) else ret tt.

Definition flag_command (ctx : Ctx) (coordinates : list (Z * Z)) : M World unit :=
  let! game := the_game ctx in
  let board := revealed game in
  for_each coordinates (fun '(x, y) =>
    let! c := read board x y in
    if cell_eqb c Hidden then write board x y Flag else ret tt) ;;;
  update_boards ctx.

(** [game.revealed = game.board]: from here on the record's two fields
    name the same grid object. *)
Definition disclose (ctx : Ctx) : M World Game :=
  let! game := the_game ctx in
  modify (set_games (insert (author ctx)
            (mkGame (board game) (board game) (activated_on_server game)))) ;;;
  ret game.

Definition lost (ctx : Ctx) : M World unit :=
  let! game := disclose ctx in
  emit (SendDm YouLost) ;;;
  if activated_on_server game then emit (SendChat JustLost) else ret tt.

Definition won (ctx : Ctx) : M World unit :=
  let! game := disclose ctx in
  emit (SendDm YouWon) ;;;
  if activated_on_server game then emit (SendChat JustWon) else ret tt.

(** One neighbour of the loop of [reveal_zeros]; [self_call] is the
    recursive call. *)
Definition reveal_neighbour (self_call : Z -> Z -> M World unit)
    (revealed board : loc) (p : Z * Z) : M World unit :=
  let '(x_, y_) := p in
  let! c := read revealed x_ y_ in
  if negb (cell_eqb c Hidden) then ret tt       (* continue *)
  else
    let! v := read board x_ y_ in
    write revealed x_ y_ v ;;;
    let! v' := read board x_ y_ in
    if cell_eqb v' (Num 0) then self_call x_ y_ else ret tt.

(** The recursion of [reveal_zeros] is not structural: [fuel] bounds its
    depth, and [OutOfFuel] is the outcome when the bound is hit. *)
Fixpoint reveal_zeros (fuel : nat) (revealed board : loc) (x y : Z) : M World unit :=
  match fuel with
  | O => fun _ => OutOfFuel
  | S fuel' =>
      for_each (get_neighbours x y)
        (reveal_neighbour (reveal_zeros fuel' revealed board) revealed board)
  end.

(** The cells in the order of the generator of [check_if_won]:
    [for x in range(10) for y in range(10)]. *)
Definition all_cells : list (Z * Z) :=
  x ← Z.of_nat <$> seq 0 10; y ← Z.of_nat <$> seq 0 10; [(x, y)].

Definition check_if_won (ctx : Ctx) (revealed board : loc) : M World bool :=
  let! pending := anyM all_cells (fun '(x, y) =>
      let! r := read revealed x y in
      if cell_eqb r Hidden || cell_eqb r Flag then
        let! b := read board x y in
        ret (negb (cell_eqb b Bomb))
      else ret false) in
  if pending then ret false
  else won ctx ;;; ret true.

Definition reveal_one (fuel : nat) (ctx : Ctx) (revealed board : loc) (x y : Z)
  : M World bool :=
  let! v := read board x y in
  write revealed x y v ;;;
  let! b := read board x y in
  if cell_eqb b Bomb then
    lost ctx ;;; ret true
  else
    (if cell_eqb b (Num 0) then reveal_zeros fuel revealed board x y else ret tt) ;;;
    check_if_won ctx revealed board.

(** The [for ... else] loop of [reveal_command]. *)
Fixpoint reveal_loop (fuel : nat) (ctx : Ctx) (revealed board : loc)
    (coordinates : list (Z * Z)) : M World unit :=
  match coordinates with
  | [] => update_boards ctx                     (* else: no break *)
  | (x, y) :: rest =>
      let! ended := reveal_one fuel ctx revealed board x y in
      if ended then
        update_boards ctx ;;;
        del_game ctx                            (* break *)
      else reveal_loop fuel ctx revealed board rest
  end.

Definition reveal_command (fuel : nat) (ctx : Ctx) (coordinates : list (Z * Z))
  : M World unit :=
  let! game := the_game ctx in
  reveal_loop fuel ctx (revealed game) (board game) coordinates.

Definition end_command (ctx : Ctx) : M World unit :=
  let! game := disclose ctx in
  update_boards ctx ;;;
  let! shown := deref (board game) in
  emit (EditDm (Canceled shown)) ;;;
  (if activated_on_server game then emit (EditChat (Canceled shown)) else ret tt) ;;;
  del_game ctx.

(** ** Outcomes of a run *)

(** Outcomes: what holds of the value and state a run ends in, normally
    ([Q]) or by an exception ([E]). *)
Definition post {S A} (o : outcome S A) (Q : A -> S -> Prop) (E : S -> Prop) : Prop :=
  match o with
  | Ok a s => Q a s
  | Raise _ s => E s
  | OutOfFuel => True
  end.

(** A run that ended, normally or by an exception. *)
Definition finished {S A} (o : outcome S A) : Prop :=
  match o with
  | OutOfFuel => False
  | _ => True
  end.

(** A relation between the state a run starts in and every state it can
    end in. *)
Definition keeps {S A} (R : S -> S -> Prop) (m : M S A) : Prop :=
  forall s, post (m s) (fun _ s' => R s s') (R s).

(** The world a run ends in ([w0] when it ran out of fuel). *)
Definition final_world {A} (o : outcome World A) (w0 : World) : World :=
  match o with
  | Ok _ w | Raise _ w => w
  | OutOfFuel => w0
  end.

(** ** Grids: cells, shapes and counts *)

(** The cell at [p = (x, y)]; the default is never met on a 10x10 grid. *)
Definition cell_at (g : GameBoard) (p : Z * Z) : cell :=
  default NumberTag (grid_get g p.1 p.2).

Definition set_cell (g : GameBoard) (p : Z * Z) (v : cell) : GameBoard :=
  default g (grid_set g p.1 p.2 v).

Definition in_range (p : Z * Z) : Prop := 0 <= p.1 <= 9 /\ 0 <= p.2 <= 9.

Definition is_grid10 (g : GameBoard) : bool :=
  (length g =? 10)%nat && forallb (fun row => (length row =? 10)%nat) g.

(** A cell value of a generated board: a bomb or a count. *)
Definition is_value (c : cell) : bool :=
  match c with
  | Bomb | Num _ => true
  | _ => false
  end.

Definition is_board (b : GameBoard) : bool :=
  is_grid10 b && forallb (forallb is_value) b.

(** A freshly drawn cell. *)
Definition is_draw (c : cell) : bool :=
  match c with
  | Bomb | NumberTag => true
  | _ => false
  end.

(** Display state Revealed: neither "hidden" nor "flag". *)
Definition shown (c : cell) : bool :=
  negb (cell_eqb c Hidden || cell_eqb c Flag).

Definition hidden_in_row (row : list cell) : nat :=
  length (List.filter (fun c => cell_eqb c Hidden) row).

Definition hidden_count (g : GameBoard) : nat :=
  sum_list (map hidden_in_row g).

Definition neighbour (p q : Z * Z) : Prop := q ∈ get_neighbours p.1 p.2.

(** ** What [generate_board] computes *)

(** The count of bombs among the up to eight neighbours of [(x, y)] that
    lie on the board. *)
Definition offsets8 : list (Z * Z) :=
  [(-1, -1); (-1, 0); (-1, 1); (0, -1); (0, 1); (1, -1); (1, 0); (1, 1)].

Definition on_board (p : Z * Z) : bool :=
  (0 <=? p.1) && (p.1 <? 10) && (0 <=? p.2) && (p.2 <? 10).

Definition bomb_neighbours (b : GameBoard) (x y : Z) : Z :=
  Z.of_nat (length (List.filter
    (fun d => on_board (x + d.1, y + d.2) &&
              cell_eqb (cell_at b (x + d.1, y + d.2)) Bomb)
    offsets8)).

(** What the loops of [generate_board] compute at one cell: the bombs among
    the cells [get_neighbours] yields, and the value the cell ends with. *)
Definition is_bomb_at (g : GameBoard) (q : Z * Z) : bool :=
  cell_eqb (cell_at g q) Bomb.

Definition bombs_around (g : GameBoard) (p : Z * Z) : Z :=
  Z.of_nat (length (List.filter (is_bomb_at g) (get_neighbours p.1 p.2))).

Definition numbered (g : GameBoard) (p : Z * Z) : cell :=
  if cell_eqb (cell_at g p) NumberTag then Num (bombs_around g p) else cell_at g p.

(** The cell of the [x]-th iteration of the [y]-th row. *)
Definition cell_of (yx : nat * nat) : Z * Z := (Z.of_nat yx.2, Z.of_nat yx.1).

(** The 3x3 block around [(x, y)], in the order of the two loops of
    [get_neighbours], and the test that keeps a cell of it. *)
Definition block3 (x y : Z) : list (Z * Z) :=
  x_ ← [x - 1; x; x + 1]; y_ ← [y - 1; y; y + 1]; [(x_, y_)].

Definition off_edge (q : Z * Z) : bool :=
  negb (q.1 =? -1) && negb (q.1 =? 10) && negb (q.2 =? -1) && negb (q.2 =? 10).

(** The cells drawn when no draw makes a bomb. *)
Definition tag_board : GameBoard := replicate 10 (replicate 10 NumberTag).

(** ** [reveal_zeros] and [reveal_one] on grid values

    The same code, for a [revealed] grid held in the state and a [board]
    that is another object, given by its value. *)

(** One neighbour of the loop, and the recursion on [fuel], as in
    [reveal_neighbour] and [reveal_zeros]. *)
Definition fill_neighbour (self_call : Z -> Z -> M GameBoard unit)
    (board : GameBoard) (p : Z * Z) : M GameBoard unit :=
  let '(x_, y_) := p in
  let! c := peek x_ y_ in
  if negb (cell_eqb c Hidden) then ret tt
  else
    let! v := or_raise IndexError (grid_get board x_ y_) in
    poke x_ y_ v ;;;
    let! v' := or_raise IndexError (grid_get board x_ y_) in
    if cell_eqb v' (Num 0) then self_call x_ y_ else ret tt.

Fixpoint fill (fuel : nat) (board : GameBoard) (x y : Z) : M GameBoard unit :=
  match fuel with
  | O => fun _ => OutOfFuel
  | S fuel' =>
      for_each (get_neighbours x y) (fill_neighbour (fill fuel' board) board)
  end.

(** What [reveal_one] does to the grid behind [revealed], on grid values:
    the cell receives its value, and a value 0 starts the fill. *)
Definition reveal_grid (fuel : nat) (b : GameBoard) (x y : Z) : M GameBoard unit :=
  let! v := or_raise IndexError (grid_get b x y) in
  poke x y v ;;;
  if cell_eqb v (Num 0) then fill fuel b x y else ret tt.

(** An outcome on the grid behind [l], as an outcome on the world. *)
Definition at_loc {A} (l : loc) (w : World) (o : outcome GameBoard A) : outcome World A :=
  match o with
  | Ok a g => Ok a (set_heap (insert l g) w)
  | Raise e g => Raise e (set_heap (insert l g) w)
  | OutOfFuel => OutOfFuel
  end.

(** ** What the fill reaches *)

(** The cells the fill started at [s] recurses into, on the grid [r] it
    starts from: [s], and every Hidden cell of value 0 next to one of
    them. *)
Inductive expands (r b : GameBoard) (s : Z * Z) : Z * Z -> Prop :=
| expands_start : expands r b s s
| expands_next p q :
    expands r b s p -> neighbour p q ->
    cell_at r q = Hidden -> cell_at b q = Num 0 ->
    expands r b s q.

(** The cells the fill started at [s] looks at: the neighbours of the
    cells it recurses into. *)
Definition reached (r b : GameBoard) (s q : Z * Z) : Prop :=
  exists p, expands r b s p /\ neighbour p q.

(** The cells the loop of [reveal_zeros] over the list [l] can change: the
    cells of [l], and what the fills started at cells of [l] reach. *)
Definition seeded (r b : GameBoard) (l : list (Z * Z)) (q : Z * Z) : Prop :=
  q ∈ l \/
  exists s, s ∈ l /\ cell_at r s = Hidden /\ cell_at b s = Num 0 /\ reached r b s q.

(** [r'] is [r] with some Hidden cells replaced by their value on [b]. *)
Definition uncovers (b r r' : GameBoard) : Prop :=
  forall q, in_range q ->
    cell_at r' q = cell_at r q \/
    (cell_at r q = Hidden /\ cell_at r' q = cell_at b q).

(** Every cell of value 0 that is Hidden in [r] and no longer in [r'] has
    no Hidden neighbour in [r']. *)
Definition opened (b r r' : GameBoard) : Prop :=
  forall q, in_range q ->
    cell_at r q = Hidden -> cell_at r' q <> Hidden -> cell_at b q = Num 0 ->
    forall n, neighbour q n -> cell_at r' n <> Hidden.

(** What a run of the fill from [p] on [r] establishes of its result [r'],
    and what the loop over the cells [l] does. *)
Definition fill_post (b r : GameBoard) (p : Z * Z) (r' : GameBoard) : Prop :=
  is_grid10 r' = true /\ uncovers b r r' /\
  (forall q, in_range q -> cell_at r' q <> cell_at r q -> reached r b p q) /\
  (forall q, neighbour p q -> cell_at r' q <> Hidden) /\
  opened b r r'.

Definition loop_post (b r : GameBoard) (l : list (Z * Z)) (r' : GameBoard) : Prop :=
  is_grid10 r' = true /\ uncovers b r r' /\
  (forall q, in_range q -> cell_at r' q <> cell_at r q -> seeded r b l q) /\
  (forall q, q ∈ l -> cell_at r' q <> Hidden) /\
  opened b r r'.

(** A chain of cells of value 0 from [s], none of them flagged. *)
Inductive zero_chain (r b : GameBoard) (s : Z * Z) : Z * Z -> Prop :=
| zero_chain_start : zero_chain r b s s
| zero_chain_next p q :
    zero_chain r b s p -> neighbour p q ->
    cell_at b q = Num 0 -> cell_at r q <> Flag ->
    zero_chain r b s q.

(** The cells the fill would reveal if only flags stopped it: the
    neighbours of the cells of a [zero_chain]. *)
Definition chain_reached (r b : GameBoard) (s q : Z * Z) : Prop :=
  exists p, zero_chain r b s p /\ neighbour p q.

(** Every revealed cell shows its value on the board. *)
Definition faithful (r b : GameBoard) : Prop :=
  forall p, in_range p -> shown (cell_at r p) = true -> cell_at r p = cell_at b p.

(** No revealed cell of value 0 has a Hidden neighbour: what every fill
    leaves behind. *)
Definition zeros_opened (r b : GameBoard) : Prop :=
  forall p q, in_range p -> cell_at r p = Num 0 -> cell_at b p = Num 0 ->
    neighbour p q -> cell_at r q <> Hidden.

(** ** Display states and the win test *)

(** Every cell that is not a bomb is revealed. *)
Definition all_safe_shown (r b : GameBoard) : Prop :=
  forall p, in_range p -> cell_at b p <> Bomb -> shown (cell_at r p) = true.

(** The test of the generator of [check_if_won] at one cell. *)
Definition pending (r b : GameBoard) (q : Z * Z) : bool :=
  (cell_eqb (cell_at r q) Hidden || cell_eqb (cell_at r q) Flag)
  && negb (cell_eqb (cell_at b q) Bomb).

(** How a reveal of the cells [named] may change a cell from [c] to [c']
    when its board value is [v]: not at all, from Hidden to its value, or
    to its value because it was named. *)
Definition reveal_change (named : list (Z * Z)) (q : Z * Z) (v c c' : cell) : Prop :=
  c' = c \/ (c = Hidden /\ c' = v) \/ (q ∈ named /\ c' = v).

(** How a flag command on the cells [named] may change a cell. *)
Definition flag_change (named : list (Z * Z)) (q : Z * Z) (c c' : cell) : Prop :=
  c' = c \/ (c = Hidden /\ c' = Flag /\ q ∈ named).

(** ** Worlds with a game in play *)

(** The player of [ctx] has the game [g], whose [revealed] and [board] are
    two grid objects: a 10x10 grid [r] and a generated board [b]. *)
Definition playing (w : World) (ctx : Ctx) (g : Game) (r b : GameBoard) : Prop :=
  games w !! author ctx = Some g /\
  revealed g <> board g /\
  heap w !! revealed g = Some r /\
  heap w !! board g = Some b /\
  is_grid10 r = true /\
  is_board b = true.

Definition say (es : list event) (w : World) : World :=
  mkWorld (heap w) (next_loc w) (games w) (draws w) (cursor w) (outbox w ++ es).

Definition disclosed (ctx : Ctx) (g : Game) (w : World) : World :=
  set_games (insert (author ctx)
    (mkGame (board g) (board g) (activated_on_server g))) w.

(** The messages of [lost] and [won], and the worlds they leave. *)
Definition lost_messages (g : Game) : list event :=
  SendDm YouLost :: if activated_on_server g then [SendChat JustLost] else [].

Definition won_messages (g : Game) : list event :=
  SendDm YouWon :: if activated_on_server g then [SendChat JustWon] else [].

(** The messages of [update_boards] for a record [g] whose [revealed]
    grid is [shown]. *)
Definition board_messages (g : Game) (shown : GameBoard) : list event :=
  DeleteDm :: SendDm (BoardView shown) ::
  if activated_on_server g then [EditChat (BoardView shown)] else [].

(** The store after a step of [reveal_one]: the record of the player is
    disclosed when the step ended the game, and the store is as it was
    when it did not. *)
Definition ended_as (ctx : Ctx) (w : World) (ended : bool) (w' : World) : Prop :=
  if ended then
    exists g, games w !! author ctx = Some g /\
      games w' = <[author ctx := mkGame (board g) (board g) (activated_on_server g)]> (games w)
  else games w' = games w.

(** ** Commands, steps and what they leave unchanged *)

(** The four commands, and one step of the cog: a command that ran to its
    end or to an exception.  A run that hits the fuel bound is no step. *)
Inductive command : Type :=
| Start (ctx : Ctx) (bomb_chance : Q)
| FlagCells (ctx : Ctx) (coordinates : list (Z * Z))
| Reveal (ctx : Ctx) (coordinates : list (Z * Z))
| End (ctx : Ctx).

Definition run_command (fuel : nat) (c : command) : M World unit :=
  match c with
  | Start ctx bomb_chance => start_command ctx bomb_chance
  | FlagCells ctx coordinates => flag_command ctx coordinates
  | Reveal ctx coordinates => reveal_command fuel ctx coordinates
  | End ctx => end_command ctx
  end.

Definition step (w w' : World) : Prop :=
  exists fuel c,
    run_command fuel c w = Ok tt w' \/ exists e, run_command fuel c w = Raise e w'.

(** The cog as [__init__] leaves it, with the random source [d]. *)
Definition initial (d : nat -> Q) : World := mkWorld ∅ 0%nat ∅ d 0%nat [].

Definition reachable (w : World) : Prop := exists d, rtc step (initial d) w.

(** The world changed at most in the grid behind [l], in the store of
    games and in the outbox; [only_grid]: not in the store of games. *)
Definition frame (l : loc) (w w' : World) : Prop :=
  next_loc w' = next_loc w /\ draws w' = draws w /\ cursor w' = cursor w /\
  forall l', l' <> l -> heap w' !! l' = heap w !! l'.

Definition only_grid (l : loc) (w w' : World) : Prop :=
  frame l w w' /\ games w' = games w.

(** The world changed at most in the random cursor. *)
Definition only_cursor (w w' : World) : Prop :=
  heap w' = heap w /\ next_loc w' = next_loc w /\ games w' = games w /\
  draws w' = draws w /\ outbox w' = outbox w.

(** No record's [revealed] is the [board] of a record, and every grid of a
    record is allocated. *)
Definition separated (w : World) : Prop :=
  forall i g, games w !! i = Some g ->
    (board g < next_loc w)%nat /\ (revealed g < next_loc w)%nat /\
    forall j g', games w !! j = Some g' -> revealed g' <> board g.

(** What one command does to the store and the heap: it allocates at most
    the two grids of one new record, it leaves every other record as it
    was or removes it, and it writes to no allocated grid that is not the
    [revealed] grid of a record. *)
Definition step_ok (w w' : World) : Prop :=
  (next_loc w <= next_loc w')%nat /\
  (forall i g', games w' !! i = Some g' ->
     games w !! i = Some g' \/
     (board g' = next_loc w /\ revealed g' = S (next_loc w) /\
      next_loc w' = S (S (next_loc w)))) /\
  (forall l, (l < next_loc w)%nat ->
     (forall i g, games w !! i = Some g -> revealed g <> l) ->
     heap w' !! l = heap w !! l).

(** The grid at [l] is allocated and is the [revealed] grid of no record. *)
Definition unshared (l : loc) (w : World) : Prop :=
  (l < next_loc w)%nat /\ forall i g, games w !! i = Some g -> revealed g <> l.

(** ** Example worlds *)

Definition player : Ctx := mkCtx 7 false.

(** A world in which [player] has a game with board [b] and revealed grid
    [r], as [start_command] lays it out: the board at location 0, the
    revealed grid at location 1. *)
Definition world_of (b r : GameBoard) (d : nat -> Q) : World :=
  mkWorld (<[1%nat := r]> (<[0%nat := b]> ∅)) 2%nat
          (<[7 := mkGame 0%nat 1%nat false]> ∅) d 0%nat [].

Definition bomb_board : GameBoard := replicate 10 (replicate 10 Bomb).

Definition zero_board : GameBoard := replicate 10 (replicate 10 (Num 0)).

(** Column 1 revealed, every other cell Hidden. *)
Definition walled_grid : GameBoard :=
  replicate 10 (Hidden :: Num 0 :: replicate 8 Hidden).

(** One bomb, at (1, 0). *)
Definition one_bomb_board : GameBoard :=
  [Num 1; Bomb; Num 1; Num 0; Num 0; Num 0; Num 0; Num 0; Num 0; Num 0] ::
  [Num 1; Num 1; Num 1; Num 0; Num 0; Num 0; Num 0; Num 0; Num 0; Num 0] ::
  replicate 8 (replicate 10 (Num 0)).

Definition one_bomb_draws : nat -> Q :=
  fun n => if Nat.eqb n 1 then 0%Q else 1%Q.

(** The world after [player] started a game with bomb chance 1/5 and the
    draws [one_bomb_draws]: the board is [one_bomb_board]. *)
Definition started : World :=
  final_world (start_command player (1 # 5) (initial one_bomb_draws))
              (initial one_bomb_draws).

(** Draws of which only the first is 0. *)
Definition zero_first_draws : nat -> Q :=
  fun n => if Nat.eqb n 0 then 0%Q else (1 # 2)%Q.

(** The board these draws give with bomb chance 0: a bomb at (0, 0). *)
Definition corner_bomb_board : GameBoard :=
  [Bomb; Num 1; Num 0; Num 0; Num 0; Num 0; Num 0; Num 0; Num 0; Num 0] ::
  [Num 1; Num 1; Num 0; Num 0; Num 0; Num 0; Num 0; Num 0; Num 0; Num 0] ::
  replicate 8 (replicate 10 (Num 0)).

(** ** Tokens of ASCII characters *)

(** A token of ASCII characters: the tokens on which [lower], [isdigit]
    and [int_of_char] are [str.lower], [str.isdigit] and [int]. *)
Definition ascii_token (coordinate : string) : Prop :=
  Forall (fun c => ord c < 128) (list_ascii_of_string coordinate).

(** ** MESSAGE_MAPPING and format_for_discord *)

(** [MESSAGE_MAPPING[key]] for a key that is a cell value or an integer:
    the keys of the dictionary are the integers 0 to 10 and the strings
    "bomb", "hidden" and "flag"; [None] is the [KeyError] of any other
    key. *)
Definition MESSAGE_MAPPING (key : cell) : option string :=
  match key with
  | Num 0 => Some ":stop_button:"%string
  | Num 1 => Some ":one:"%string
  | Num 2 => Some ":two:"%string
  | Num 3 => Some ":three:"%string
  | Num 4 => Some ":four:"%string
  | Num 5 => Some ":five:"%string
  | Num 6 => Some ":six:"%string
  | Num 7 => Some ":seven:"%string
  | Num 8 => Some ":eight:"%string
  | Num 9 => Some ":nine:"%string
  | Num 10 => Some ":keycap_ten:"%string
  | Bomb => Some ":bomb:"%string
  | Hidden => Some ":grey_question:"%string
  | Flag => Some ":triangular_flag_on_post:"%string
  | _ => None
  end.

(** The items of the dictionary, in its order. *)
Definition MESSAGE_ITEMS : list (cell * string) :=
  [(Num 0, ":stop_button:"); (Num 1, ":one:"); (Num 2, ":two:"); (Num 3, ":three:");
   (Num 4, ":four:"); (Num 5, ":five:"); (Num 6, ":six:"); (Num 7, ":seven:");
   (Num 8, ":eight:"); (Num 9, ":nine:"); (Num 10, ":keycap_ten:");
   (Bomb, ":bomb:"); (Hidden, ":grey_question:");
   (Flag, ":triangular_flag_on_post:")]%string.

(** The line feed of ["\n"]. *)
Definition newline : string := String (ascii_of_nat 10) EmptyString.

(** The first value of [discord_msg]: the line of column letters and an
    empty line. *)
Definition column_letters : string :=
  (":stop_button:    :regional_indicator_a::regional_indicator_b::regional_indicator_c:"
   ++ ":regional_indicator_d::regional_indicator_e::regional_indicator_f::regional_indicator_g:"
   ++ ":regional_indicator_h::regional_indicator_i::regional_indicator_j:"
   ++ newline ++ newline)%string.

(** The body of the loop over [enumerate(board)]: [new_row]. *)
Definition format_row (row_number : nat) (row : list cell) : option string :=
  label ← MESSAGE_MAPPING (Num (Z.of_nat row_number + 1));
  cells ← mapM MESSAGE_MAPPING row;
  Some (label ++ "    " ++ String.concat "" cells)%string.

(** The loop, from the row of index [row_number] on: [rows]. *)
Fixpoint format_rows (row_number : nat) (board : GameBoard) : option (list string) :=
  match board with
  | [] => Some []
  | row :: rest =>
      new_row ← format_row row_number row;
      rows ← format_rows (S row_number) rest;
      Some (new_row :: rows)
  end.

Definition format_for_discord (board : GameBoard) : exn + string :=
  match format_rows 0 board with
  | Some rows => inr (column_letters ++ String.concat newline rows)%string
  | None => inl KeyError
  end.

(** The grid an event shows: the argument of the [format_for_discord] its
    text is made with. *)
Definition grid_of (m : message) : option GameBoard :=
  match m with
  | BoardView g | Canceled g => Some g
  | _ => None
  end.

Definition view_of (e : event) : option GameBoard :=
  match e with
  | SendChannel m | SendDm m | EditDm m | EditChat m | SendChat m => grid_of m
  | DeleteCommand | DeleteDm => None
  end.

(** ** The world after [generate_board] and [start_command] *)

(** [n] more values of [random()] consumed. *)
Definition drawn (n : nat) (w : World) : World :=
  mkWorld (heap w) (next_loc w) (games w) (draws w) (cursor w + n)%nat (outbox w).

(** The cell drawn for column [x] of row [y] by a [generate_board] that
    starts in [w]: the comprehension draws row after row, and within a row
    cell after cell. *)
Definition drawn_cell (bomb_chance : Q) (w : World) (y x : nat) : cell :=
  if Qle_bool (draws w (cursor w + 10 * y + x)%nat) bomb_chance then Bomb else NumberTag.

Definition drawn_board (bomb_chance : Q) (w : World) : GameBoard :=
  (fun y => drawn_cell bomb_chance w y <$> seq 0 10) <$> seq 0 10.

(** What [start_command] says to a player who has no game. *)
Definition start_messages (ctx : Ctx) : list event :=
  (if guild ctx
   then [SendChannel IsPlaying; SendChannel (BoardView hidden_board)] else []) ++
  [SendDm HowToPlay; SendDm (BoardView hidden_board)].

(** The world [start_command] leaves for such a player when the board
    generated is [b]. *)
Definition with_new_game (ctx : Ctx) (b : GameBoard) (w : World) : World :=
  mkWorld (<[S (next_loc w) := hidden_board]> (<[next_loc w := b]> (heap w)))
          (S (S (next_loc w)))
          (<[author ctx := mkGame (next_loc w) (S (next_loc w)) (guild ctx)]> (games w))
          (draws w) (cursor w + 100)%nat
          (outbox w ++ start_messages ctx).

(** What [end_command] says for a record [g] whose board is [b]. *)
Definition end_messages (g : Game) (b : GameBoard) : list event :=
  board_messages (mkGame (board g) (board g) (activated_on_server g)) b ++
  EditDm (Canceled b) ::
  if activated_on_server g then [EditChat (Canceled b)] else [].

(** ** Games in play *)

(** Every cell of [b] that is not a bomb holds the count of the bombs
    around it. *)
Definition counted (b : GameBoard) : Prop :=
  forall p, in_range p -> cell_at b p <> Bomb ->
    cell_at b p = Num (bomb_neighbours b p.1 p.2).

(** Every cell of the display [r] is Hidden, a flag, or the value the
    board [b] has there, and that value is no bomb. *)
Definition no_bomb_shown (r b : GameBoard) : Prop :=
  forall p, in_range p ->
    cell_at r p = Hidden \/ cell_at r p = Flag \/
    (cell_at r p = cell_at b p /\ cell_at b p <> Bomb).

(** The record [g] of a game that goes on. *)
Definition game_ok (w : World) (g : Game) : Prop :=
  exists r b,
    revealed g <> board g /\
    heap w !! revealed g = Some r /\ heap w !! board g = Some b /\
    is_grid10 r = true /\ is_board b = true /\
    counted b /\ no_bomb_shown r b.

(** No two records share a [revealed] grid. *)
Definition own_grids (w : World) : Prop :=
  forall i j g g', games w !! i = Some g -> games w !! j = Some g' ->
    revealed g = revealed g' -> i = j.

(** A key [MESSAGE_MAPPING] does not have, among the values of a cell. *)
Definition no_emoji (c : cell) : Prop :=
  c = NumberTag \/ exists n, c = Num n /\ (n < 0 \/ 10 < n).

(** [format_for_discord] returns a text for the grid. *)
Definition renders (g : GameBoard) : Prop :=
  exists text, format_for_discord g = inr text.

(** Every grid the events show has a text. *)
Definition all_render (es : list event) : Prop :=
  forall e g, e ∈ es -> view_of e = Some g -> renders g.

Definition well_kept (w : World) : Prop :=
  (forall i g, games w !! i = Some g -> game_ok w g) /\ all_render (outbox w).

(** The player and the coordinates of a command. *)
Definition ctx_of (c : command) : Ctx :=
  match c with
  | Start ctx _ | FlagCells ctx _ | Reveal ctx _ | End ctx => ctx
  end.

Definition coordinates_of (c : command) : list (Z * Z) :=
  match c with
  | FlagCells _ coordinates | Reveal _ coordinates => coordinates
  | Start _ _ | End _ => []
  end.

(** A step of a game played with coordinates on the board, the only ones
    the range test of [CoordinateConverter] lets through, and a recursion
    bound above the 100 cells of a grid. *)
Definition play (w w' : World) : Prop :=
  exists fuel c,
    (100 < fuel)%nat /\
    (forall q, q ∈ coordinates_of c -> in_range q) /\
    (run_command fuel c w = Ok tt w' \/ exists e, run_command fuel c w = Raise e w').

Definition in_play (w : World) : Prop := exists d, rtc play (initial d) w.

(** What a command of the player [ctx] can do to the store, and the grids
    it leaves as they were: the allocated ones other than the [revealed]
    grid of the player's record. *)
Definition store_change (ctx : Ctx) (w w' : World) : Prop :=
  games w' = games w \/
  games w' = delete (author ctx) (games w) \/
  (games w !! author ctx = None /\
   games w' = <[author ctx := mkGame (next_loc w) (S (next_loc w)) (guild ctx)]> (games w)).

Definition effect (ctx : Ctx) (w w' : World) : Prop :=
  store_change ctx w w' /\
  forall l, (l < next_loc w)%nat ->
    (forall g, games w !! author ctx = Some g -> revealed g <> l) ->
    heap w' !! l = heap w !! l.

(** * Proofs *)

(** ** Cells *)

Lemma cell_eqb_eq (a b : cell) : cell_eqb a b = true <-> a = b.
Proof.
  destruct a, b; simpl; split; intros H; try congruence; try discriminate.
  - apply Z.eqb_eq in H. by subst.
  - inversion H. apply Z.eqb_refl.
Qed.

Lemma cell_eqb_refl (a : cell) : cell_eqb a a = true.
Proof. by apply cell_eqb_eq. Qed.

Lemma cell_eqb_neq (a b : cell) : cell_eqb a b = false <-> a <> b.
Proof.
  rewrite <- cell_eqb_eq. destruct (cell_eqb a b); split; congruence.
Qed.

#[local] Instance cell_eq_dec : EqDecision cell.
Proof.
  intros a b. destruct (cell_eqb a b) eqn:E.
  - left. by apply cell_eqb_eq.
  - right. by apply cell_eqb_neq.
Defined.

Lemma is_value_not_hidden (c : cell) : is_value c = true -> c <> Hidden.
Proof. by destruct c. Qed.

Lemma is_value_shown (c : cell) : is_value c = true -> shown c = true.
Proof. by destruct c. Qed.

Lemma shown_not_hidden (c : cell) : shown c = true -> c <> Hidden.
Proof. by destruct c. Qed.

(** ** Python indexing *)

Lemma py_index_lt {A} (l : list A) (i : Z) (k : nat) :
  py_index l i = Some k -> (k < length l)%nat.
Proof.
  unfold py_index. intros H.
  destruct ((0 <=? i) && (i <? Z.of_nat (length l))) eqn:E1.
  - inversion H; subst. apply andb_true_iff in E1 as [?%Z.leb_le ?%Z.ltb_lt]. lia.
  - destruct ((- Z.of_nat (length l) <=? i) && (i <? 0)) eqn:E2; [|done].
    inversion H; subst. apply andb_true_iff in E2 as [?%Z.leb_le ?%Z.ltb_lt]. lia.
Qed.

Lemma py_index_nonneg {A} (l : list A) (i : Z) :
  0 <= i < Z.of_nat (length l) -> py_index l i = Some (Z.to_nat i).
Proof.
  intros [H1 H2]. unfold py_index.
  apply Z.leb_le in H1. apply Z.ltb_lt in H2. by rewrite H1, H2.
Qed.

Lemma py_index_length {A B} (l : list A) (l' : list B) (i : Z) :
  length l = length l' -> py_index l i = py_index l' i.
Proof. unfold py_index. by intros ->. Qed.

(** What a successful [g[y][x]] and [g[y][x] = v] amount to on the lists. *)
Lemma grid_get_Some (g : GameBoard) (x y : Z) (c : cell) :
  grid_get g x y = Some c <->
  exists i j row, py_index g y = Some i /\ g !! i = Some row /\
                  py_index row x = Some j /\ row !! j = Some c.
Proof.
  unfold grid_get, getitem. split.
  - intros H.
    destruct (py_index g y) as [i|] eqn:Ei; simpl in H; [|done].
    destruct (g !! i) as [row|] eqn:Er; simpl in H; [|done].
    destruct (py_index row x) as [j|] eqn:Ej; simpl in H; [|done].
    by exists i, j, row.
  - intros (i & j & row & -> & Hr & Hj & Hc). simpl. rewrite Hr. simpl.
    rewrite Hj. done.
Qed.

Lemma grid_set_Some (g g' : GameBoard) (x y : Z) (v : cell) :
  grid_set g x y v = Some g' <->
  exists i j row, py_index g y = Some i /\ g !! i = Some row /\
                  py_index row x = Some j /\ g' = <[i := <[j := v]> row]> g.
Proof.
  unfold grid_set, getitem, setitem. split.
  - intros H.
    destruct (py_index g y) as [i|] eqn:Ei; simpl in H; [|done].
    destruct (g !! i) as [row|] eqn:Er; simpl in H; [|done].
    destruct (py_index row x) as [j|] eqn:Ej; simpl in H; [|done].
    inversion H. by exists i, j, row.
  - intros (i & j & row & Hi & Hr & Hj & ->). rewrite Hi. simpl. rewrite Hr. simpl.
    rewrite Hj. simpl. done.
Qed.

(** A store succeeds exactly where the load does. *)
Lemma grid_set_is_Some (g : GameBoard) (x y : Z) (v : cell) :
  is_Some (grid_set g x y v) <-> is_Some (grid_get g x y).
Proof.
  split.
  - intros [g' (i & j & row & Hi & Hr & Hj & _)%grid_set_Some].
    destruct (lookup_lt_is_Some_2 row j (py_index_lt _ _ _ Hj)) as [c Hc].
    exists c. apply grid_get_Some. by exists i, j, row.
  - intros [c (i & j & row & Hi & Hr & Hj & _)%grid_get_Some].
    eexists. apply grid_set_Some. by exists i, j, row.
Qed.

(** ** Counting the hidden cells *)

Lemma hidden_in_row_insert (row : list cell) (j : nat) (c v : cell) :
  row !! j = Some c ->
  (hidden_in_row (<[j := v]> row) + (if cell_eqb c Hidden then 1 else 0)
   = hidden_in_row row + (if cell_eqb v Hidden then 1 else 0))%nat.
Proof.
  unfold hidden_in_row. revert j. induction row as [|d row IH]; intros [|j] H; simpl in *;
    try done.
  - inversion H; subst. destruct (cell_eqb c Hidden), (cell_eqb v Hidden); simpl; lia.
  - specialize (IH j H). destruct (cell_eqb d Hidden); simpl; lia.
Qed.

Lemma sum_list_map_insert {A} (f : A -> nat) (l : list A) (i : nat) (a a' : A) :
  l !! i = Some a ->
  (sum_list (map f (<[i := a']> l)) + f a = sum_list (map f l) + f a')%nat.
Proof.
  revert i. induction l as [|b l IH]; intros [|i] H; simpl in *; try done.
  - inversion H; subst. lia.
  - specialize (IH i H). lia.
Qed.

Lemma hidden_count_set (g g' : GameBoard) (x y : Z) (c v : cell) :
  grid_get g x y = Some c -> grid_set g x y v = Some g' ->
  (hidden_count g' + (if cell_eqb c Hidden then 1 else 0)
   = hidden_count g + (if cell_eqb v Hidden then 1 else 0))%nat.
Proof.
  intros (i & j & row & Hi & Hr & Hj & Hc)%grid_get_Some
         (i' & j' & row' & Hi' & Hr' & Hj' & ->)%grid_set_Some.
  assert (i' = i) as -> by congruence.
  assert (row' = row) as -> by congruence.
  assert (j' = j) as -> by congruence.
  unfold hidden_count.
  pose proof (sum_list_map_insert hidden_in_row g i row (<[j := v]> row) Hr).
  pose proof (hidden_in_row_insert row j c v Hc). lia.
Qed.

(** ** 10x10 grids *)

Lemma is_grid10_spec (g : GameBoard) :
  is_grid10 g = true <->
  length g = 10%nat /\ forall i row, g !! i = Some row -> length row = 10%nat.
Proof.
  unfold is_grid10. rewrite andb_true_iff, Nat.eqb_eq, forallb_forall.
  split; intros [H1 H2]; split; try done.
  - intros i row Hr. apply Nat.eqb_eq, H2.
    apply list_elem_of_In, list_elem_of_lookup. eauto.
  - intros row [i Hi]%list_elem_of_In%list_elem_of_lookup.
    apply Nat.eqb_eq. eauto.
Qed.

Lemma grid_get_in_range (g : GameBoard) (p : Z * Z) :
  is_grid10 g = true -> in_range p ->
  grid_get g p.1 p.2 = Some (cell_at g p).
Proof.
  intros [Hl Hrows]%is_grid10_spec [Hx Hy].
  destruct (lookup_lt_is_Some_2 g (Z.to_nat p.2)) as [row Hr]; [lia|].
  pose proof (Hrows _ _ Hr) as Hlr.
  destruct (lookup_lt_is_Some_2 row (Z.to_nat p.1)) as [c Hc]; [lia|].
  assert (grid_get g p.1 p.2 = Some c) as H.
  { apply grid_get_Some. exists (Z.to_nat p.2), (Z.to_nat p.1), row.
    repeat split; try done; apply py_index_nonneg; lia. }
  unfold cell_at. by rewrite H.
Qed.

Lemma grid_set_in_range (g : GameBoard) (p : Z * Z) (v : cell) :
  is_grid10 g = true -> in_range p ->
  grid_set g p.1 p.2 v = Some (set_cell g p v).
Proof.
  intros Hg Hp.
  destruct (proj2 (grid_set_is_Some g p.1 p.2 v)) as [g' Hg'].
  { rewrite (grid_get_in_range g p Hg Hp). eauto. }
  unfold set_cell. by rewrite Hg'.
Qed.

Lemma grid_get_xy (g : GameBoard) (x y : Z) :
  is_grid10 g = true -> in_range (x, y) ->
  grid_get g x y = Some (cell_at g (x, y)).
Proof. apply (grid_get_in_range g (x, y)). Qed.

Lemma grid_set_xy (g : GameBoard) (x y : Z) (v : cell) :
  is_grid10 g = true -> in_range (x, y) ->
  grid_set g x y v = Some (set_cell g (x, y) v).
Proof. apply (grid_set_in_range g (x, y)). Qed.

Lemma set_cell_grid10 (g : GameBoard) (p : Z * Z) (v : cell) :
  is_grid10 g = true -> is_grid10 (set_cell g p v) = true.
Proof.
  intros Hg. unfold set_cell.
  destruct (grid_set g p.1 p.2 v) as [g'|] eqn:E; simpl; [|done].
  apply grid_set_Some in E as (i & j & row & Hi & Hr & Hj & ->).
  apply is_grid10_spec in Hg as [Hl Hrows]. apply is_grid10_spec. split.
  - by rewrite length_insert.
  - intros k row' Hk. destruct (decide (i = k)) as [->|Hne].
    + rewrite list_lookup_insert_eq in Hk by (by eapply lookup_lt_Some).
      inversion Hk; subst. rewrite length_insert. eauto.
    + rewrite list_lookup_insert_ne in Hk by done. eauto.
Qed.

Lemma cell_at_set_cell (g : GameBoard) (p q : Z * Z) (v : cell) :
  is_grid10 g = true -> in_range p -> in_range q ->
  cell_at (set_cell g p v) q = if decide (p = q) then v else cell_at g q.
Proof.
  intros Hg Hp Hq.
  pose proof (grid_set_in_range g p v Hg Hp) as Hs.
  pose proof (grid_get_in_range g q Hg Hq) as Hgq.
  pose proof (grid_get_in_range _ q (set_cell_grid10 g p v Hg) Hq) as Hgq'.
  apply grid_set_Some in Hs as (i & j & row & Hi & Hr & Hj & Hs).
  apply is_grid10_spec in Hg as [Hl Hrows].
  destruct Hp as [Hpx Hpy], Hq as [Hqx Hqy].
  rewrite py_index_nonneg in Hi by lia. inversion Hi; subst i.
  rewrite py_index_nonneg in Hj by (rewrite (Hrows _ _ Hr); lia). inversion Hj; subst j.
  rewrite Hs in Hgq'.
  apply grid_get_Some in Hgq as (i & j & row1 & Hi1 & Hr1 & Hj1 & Hc1).
  apply grid_get_Some in Hgq' as (i' & j' & row2 & Hi2 & Hr2 & Hj2 & Hc2).
  rewrite py_index_nonneg in Hi1 by lia. inversion Hi1; subst i.
  rewrite py_index_nonneg in Hi2 by (rewrite length_insert; lia). inversion Hi2; subst i'.
  rewrite py_index_nonneg in Hj1 by (rewrite (Hrows _ _ Hr1); lia). inversion Hj1; subst j.
  destruct (decide (Z.to_nat p.2 = Z.to_nat q.2)) as [Ey|Ney].
  - rewrite Ey in Hr2, Hr. rewrite list_lookup_insert_eq in Hr2 by lia.
    inversion Hr2; subst row2. assert (row1 = row) as -> by congruence.
    rewrite py_index_nonneg in Hj2 by (rewrite length_insert, (Hrows _ _ Hr); lia).
    inversion Hj2; subst j'.
    destruct (decide (Z.to_nat p.1 = Z.to_nat q.1)) as [Ex|Nex].
    + rewrite Ex in Hc2. rewrite list_lookup_insert_eq in Hc2 by (rewrite (Hrows _ _ Hr); lia).
      rewrite decide_True by (destruct p, q; simpl in *; f_equal; lia). congruence.
    + rewrite list_lookup_insert_ne in Hc2 by done.
      rewrite decide_False by (intros ->; done). congruence.
  - rewrite list_lookup_insert_ne in Hr2 by done.
    assert (row2 = row1) as -> by congruence.
    rewrite py_index_nonneg in Hj2 by (rewrite (Hrows _ _ Hr1); lia).
    inversion Hj2; subst j'.
    rewrite decide_False by (intros ->; done). congruence.
Qed.

Lemma cell_at_set_cell_eq (g : GameBoard) (p : Z * Z) (v : cell) :
  is_grid10 g = true -> in_range p -> cell_at (set_cell g p v) p = v.
Proof. intros. rewrite cell_at_set_cell by done. by rewrite decide_True. Qed.

Lemma cell_at_set_cell_ne (g : GameBoard) (p q : Z * Z) (v : cell) :
  is_grid10 g = true -> in_range p -> in_range q -> p <> q ->
  cell_at (set_cell g p v) q = cell_at g q.
Proof. intros. rewrite cell_at_set_cell by done. by rewrite decide_False. Qed.

Lemma hidden_count_set_cell (g : GameBoard) (p : Z * Z) (v : cell) :
  is_grid10 g = true -> in_range p ->
  (hidden_count (set_cell g p v) + (if cell_eqb (cell_at g p) Hidden then 1 else 0)
   = hidden_count g + (if cell_eqb v Hidden then 1 else 0))%nat.
Proof.
  intros Hg Hp. eapply hidden_count_set.
  - by apply grid_get_in_range.
  - by apply grid_set_in_range.
Qed.

Lemma is_board_grid10 (b : GameBoard) : is_board b = true -> is_grid10 b = true.
Proof. unfold is_board. by intros [? _]%andb_true_iff. Qed.

Lemma is_board_value (b : GameBoard) (p : Z * Z) :
  is_board b = true -> in_range p -> is_value (cell_at b p) = true.
Proof.
  intros [Hg Hv]%andb_true_iff Hp.
  pose proof (grid_get_in_range b p Hg Hp) as H.
  apply grid_get_Some in H as (i & j & row & _ & Hr & _ & Hc).
  rewrite forallb_forall in Hv.
  assert (forallb is_value row = true) as Hrow.
  { apply Hv, list_elem_of_In, list_elem_of_lookup. eauto. }
  rewrite forallb_forall in Hrow.
  apply Hrow, list_elem_of_In, list_elem_of_lookup. eauto.
Qed.

(** ** Neighbours *)

Lemma get_neighbours_spec (x y : Z) (q : Z * Z) :
  q ∈ get_neighbours x y <->
  (q.1 = x - 1 \/ q.1 = x \/ q.1 = x + 1) /\
  (q.2 = y - 1 \/ q.2 = y \/ q.2 = y + 1) /\
  q.1 <> -1 /\ q.1 <> 10 /\ q.2 <> -1 /\ q.2 <> 10.
Proof.
  unfold get_neighbours. rewrite list_elem_of_bind. split.
  - intros (x_ & (y_ & Hq & Hy)%list_elem_of_bind & Hx).
    destruct (x_ =? -1) eqn:E1; simpl in Hq; [by apply elem_of_nil in Hq|].
    destruct (x_ =? 10) eqn:E2; simpl in Hq; [by apply elem_of_nil in Hq|].
    destruct (y_ =? -1) eqn:E3; simpl in Hq; [by apply elem_of_nil in Hq|].
    destruct (y_ =? 10) eqn:E4; simpl in Hq; [by apply elem_of_nil in Hq|].
    apply list_elem_of_singleton in Hq as ->. simpl.
    apply Z.eqb_neq in E1, E2, E3, E4.
    repeat (apply elem_of_cons in Hx as [Hx|Hx]); try (by apply elem_of_nil in Hx);
    repeat (apply elem_of_cons in Hy as [Hy|Hy]); try (by apply elem_of_nil in Hy);
    subst; lia.
  - intros (Hx & Hy & N1 & N2 & N3 & N4). exists q.1. split.
    + apply list_elem_of_bind. exists q.2. split.
      * apply Z.eqb_neq in N1, N2, N3, N4. rewrite N1, N2, N3, N4. simpl.
        destruct q. apply list_elem_of_singleton. done.
      * rewrite !elem_of_cons. tauto.
    + rewrite !elem_of_cons. tauto.
Qed.

Lemma neighbour_in_range (p q : Z * Z) : in_range p -> neighbour p q -> in_range q.
Proof.
  unfold neighbour. rewrite get_neighbours_spec. unfold in_range. lia.
Qed.

(** ** The coordinate converter *)

Lemma lower_digit (c : ascii) : isdigit c = true -> lower c = c.
Proof.
  unfold isdigit, lower. intros [H1%Z.leb_le H2%Z.leb_le]%andb_true_iff.
  destruct (65 <=? ord c) eqn:E; simpl; [|done].
  apply Z.leb_le in E. lia.
Qed.

(** No token converts: the test [letter.isdigit()] lets through only a
    pair whose greater character is a digit, and a digit is no column. *)
Lemma convert_never_returns (s : string) (p : Z * Z) : convert s <> inr p.
Proof.
  unfold convert.
  destruct (negb _); [done|].
  destruct (sorted _) as [|digit [|letter [|? ?]]]; try done.
  destruct (isdigit letter) eqn:Hd; simpl; [|done].
  rewrite (lower_digit _ Hd).
  destruct (int_of_char digit) as [d|]; [|done].
  unfold isdigit in Hd. apply andb_true_iff in Hd as [_ Hd%Z.leb_le].
  assert ((0 <=? ord letter - 97) = false) as -> by (apply Z.leb_gt; lia).
  done.
Qed.

(** C1 (code defect).  The tokens the converter is meant to accept are
    rejected: "a1", "1a" and "A1" raise ArgumentParsingError because the
    digit test is applied to the letter, and the three-character tokens
    "j10" and "10j" raise ValueError when three sorted characters are
    unpacked into two names. *)
Theorem convert_rejects_valid_tokens :
  convert "a1" = inl ArgumentParsingError /\
  convert "1a" = inl ArgumentParsingError /\
  convert "A1" = inl ArgumentParsingError /\
  convert "j10" = inl ValueError /\
  convert "10j" = inl ValueError.
Proof. repeat split; reflexivity. Qed.

(** ** Running monadic code *)

Lemma bind_Ok {S A B} (m : M S A) (k : A -> M S B) (s s' : S) (a : A) :
  m s = Ok a s' -> bind m k s = k a s'.
Proof. unfold bind. by intros ->. Qed.

Lemma bind_Raise {S A B} (m : M S A) (k : A -> M S B) (s s' : S) (e : exn) :
  m s = Raise e s' -> bind m k s = Raise e s'.
Proof. unfold bind. by intros ->. Qed.

Lemma bind_OutOfFuel {S A B} (m : M S A) (k : A -> M S B) (s : S) :
  m s = OutOfFuel -> bind m k s = OutOfFuel.
Proof. unfold bind. by intros ->. Qed.

Lemma for_each_cons {S A} (a : A) (l : list A) (f : A -> M S unit) (s : S) :
  for_each (a :: l) f s =
  match f a s with
  | Ok _ s' => for_each l f s'
  | Raise e s' => Raise e s'
  | OutOfFuel => OutOfFuel
  end.
Proof. reflexivity. Qed.

Lemma for_each_app {S A} (l1 l2 : list A) (f : A -> M S unit) (s : S) :
  for_each (l1 ++ l2) f s = (for_each l1 f ;;; for_each l2 f) s.
Proof.
  revert s. induction l1 as [|a l1 IH]; intros s; simpl; [done|].
  unfold bind. destruct (f a s) as [[] s'| |]; [apply IH|done|done].
Qed.

Lemma for_each_ext {S A} (l : list A) (f g : A -> M S unit) (s : S) :
  (forall a s, a ∈ l -> f a s = g a s) -> for_each l f s = for_each l g s.
Proof.
  revert s. induction l as [|a l IH]; intros s H; simpl; [done|].
  unfold bind. rewrite (H a s) by apply list_elem_of_here.
  destruct (g a s) as [[] s'| |]; try done.
  apply IH. intros b t Hb. apply H. by apply list_elem_of_further.
Qed.

(** Two nested loops are one loop over the pairs. *)
Lemma for_each_nested {S A B} (ys : list A) (xs : list B)
    (f : A -> B -> M S unit) (s : S) :
  for_each ys (fun y => for_each xs (f y)) s
  = for_each (y ← ys; x ← xs; [(y, x)]) (fun yx => f yx.1 yx.2) s.
Proof.
  revert s. induction ys as [|y ys IH]; intros s; [done|].
  change (for_each (y :: ys) (fun y => for_each xs (f y)) s)
    with ((for_each xs (f y) ;;; for_each ys (fun y => for_each xs (f y))) s).
  change ((y :: ys) ≫= (fun y => xs ≫= (fun x => [(y, x)])))
    with ((xs ≫= (fun x => [(y, x)])) ++ (ys ≫= (fun y => xs ≫= (fun x => [(y, x)])))).
  rewrite for_each_app. unfold bind.
  assert (forall t, for_each xs (f y) t
                    = for_each (xs ≫= (fun x => [(y, x)])) (fun yx => f yx.1 yx.2) t) as Hin.
  { clear. induction xs as [|x xs IHx]; intros t; [done|].
    simpl. unfold bind. destruct (f y x t) as [[] t'| |]; try done. }
  rewrite Hin. destruct (for_each _ _ s) as [[] s'| |]; try done.
Qed.

Lemma peek_in_range (g : GameBoard) (p : Z * Z) :
  is_grid10 g = true -> in_range p -> peek p.1 p.2 g = Ok (cell_at g p) g.
Proof. intros Hg Hp. unfold peek. by rewrite grid_get_in_range. Qed.

Lemma poke_in_range (g : GameBoard) (p : Z * Z) (v : cell) :
  is_grid10 g = true -> in_range p -> poke p.1 p.2 v g = Ok tt (set_cell g p v).
Proof. intros Hg Hp. unfold poke. by rewrite grid_set_in_range. Qed.

(** ** generate_board *)

Lemma count_bombs_in_range (g : GameBoard) (ns : list (Z * Z)) (acc : Z) :
  is_grid10 g = true -> (forall q, q ∈ ns -> in_range q) ->
  count_bombs ns acc g
  = Ok (acc + Z.of_nat (length (List.filter (is_bomb_at g) ns))) g.
Proof.
  intros Hg. revert acc. induction ns as [|[x_ y_] ns IH]; intros acc Hns; simpl.
  - unfold ret. f_equal. lia.
  - rewrite (bind_Ok _ _ _ _ _ (peek_in_range g (x_, y_) Hg (Hns _ (list_elem_of_here _ _)))).
    rewrite IH by (intros q Hq; apply Hns; by apply list_elem_of_further).
    unfold is_bomb_at at 2. destruct (cell_eqb (cell_at g (x_, y_)) Bomb); simpl; f_equal; lia.
Qed.

Lemma cell_of_in_range (yx : nat * nat) :
  (yx.1 < 10)%nat -> (yx.2 < 10)%nat -> in_range (cell_of yx).
Proof. unfold in_range, cell_of. simpl. lia. Qed.

Lemma number_cell_in_range (g : GameBoard) (yx : nat * nat) :
  is_grid10 g = true -> (yx.1 < 10)%nat -> (yx.2 < 10)%nat ->
  number_cell yx.1 yx.2 g
  = Ok tt (if cell_eqb (cell_at g (cell_of yx)) NumberTag
           then set_cell g (cell_of yx) (Num (bombs_around g (cell_of yx)))
           else g).
Proof.
  intros Hg Hy Hx. pose proof (cell_of_in_range yx Hy Hx) as Hp.
  unfold number_cell.
  rewrite (bind_Ok _ _ _ _ _ (peek_in_range g (cell_of yx) Hg Hp)).
  destruct (cell_eqb (cell_at g (cell_of yx)) NumberTag); [|done].
  erewrite bind_Ok.
  2: { apply count_bombs_in_range; [done|].
       intros q Hq. by apply (neighbour_in_range (cell_of yx)). }
  rewrite (poke_in_range g (cell_of yx) _ Hg Hp). done.
Qed.

Lemma bombs_around_ext (g g' : GameBoard) (p : Z * Z) :
  in_range p -> (forall q, in_range q -> is_bomb_at g' q = is_bomb_at g q) ->
  bombs_around g' p = bombs_around g p.
Proof.
  intros Hp H. unfold bombs_around. do 2 f_equal.
  assert (forall q, q ∈ get_neighbours p.1 p.2 -> in_range q) as Hn.
  { intros q Hq. by apply (neighbour_in_range p). }
  induction (get_neighbours p.1 p.2) as [|q l IH]; simpl; [done|].
  rewrite (H q) by (apply Hn, list_elem_of_here).
  rewrite IH by (intros q' Hq'; by apply Hn, list_elem_of_further). done.
Qed.

Lemma numbered_not_tag (g : GameBoard) (p : Z * Z) :
  cell_eqb (numbered g p) NumberTag = false.
Proof.
  unfold numbered. destruct (cell_eqb (cell_at g p) NumberTag) eqn:E; done.
Qed.

Lemma numbered_bomb (g : GameBoard) (p : Z * Z) :
  cell_eqb (numbered g p) Bomb = is_bomb_at g p.
Proof.
  unfold numbered, is_bomb_at.
  destruct (cell_eqb (cell_at g p) NumberTag) eqn:E; [|done].
  apply cell_eqb_eq in E. by rewrite E.
Qed.

(** The loop over any list of cells: the cells it visits end as
    [numbered] says, on the grid the loop started from. *)
Lemma number_loop (l : list (nat * nat)) (g : GameBoard) :
  is_grid10 g = true ->
  (forall yx, yx ∈ l -> (yx.1 < 10)%nat /\ (yx.2 < 10)%nat) ->
  exists g',
    for_each l (fun yx => number_cell yx.1 yx.2) g = Ok tt g' /\
    is_grid10 g' = true /\
    forall q, in_range q ->
      cell_at g' q = if decide (q ∈ cell_of <$> l) then numbered g q else cell_at g q.
Proof.
  revert g. induction l as [|yx l IH]; intros g Hg Hl.
  - exists g. repeat split; done.
  - destruct (Hl yx (list_elem_of_here _ _)) as [Hy Hx].
    pose proof (cell_of_in_range yx Hy Hx) as Hp.
    set (g1 := if cell_eqb (cell_at g (cell_of yx)) NumberTag
               then set_cell g (cell_of yx) (Num (bombs_around g (cell_of yx)))
               else g).
    assert (is_grid10 g1 = true) as Hg1.
    { unfold g1. destruct (cell_eqb _ _); [by apply set_cell_grid10|done]. }
    assert (forall q, in_range q ->
              cell_at g1 q = if decide (cell_of yx = q) then numbered g q else cell_at g q)
      as Hcell.
    { intros q Hq. unfold g1, numbered.
      destruct (cell_eqb (cell_at g (cell_of yx)) NumberTag) eqn:E.
      - rewrite cell_at_set_cell by done.
        destruct (decide (cell_of yx = q)) as [<-|]; [by rewrite E|done].
      - destruct (decide (cell_of yx = q)) as [<-|]; [by rewrite E|done]. }
    assert (forall q, in_range q -> is_bomb_at g1 q = is_bomb_at g q) as Hbomb.
    { intros q Hq. unfold is_bomb_at at 1. rewrite Hcell by done.
      destruct (decide (cell_of yx = q)); [apply numbered_bomb|done]. }
    assert (forall q, in_range q -> numbered g1 q = numbered g q) as Hnum.
    { intros q Hq. unfold numbered at 1. rewrite Hcell by done.
      rewrite (bombs_around_ext g g1) by done.
      destruct (decide (cell_of yx = q)); [by rewrite numbered_not_tag|done]. }
    destruct (IH g1 Hg1) as (g' & Hrun & Hg' & Hfin).
    { intros yx' H'. apply Hl. by apply list_elem_of_further. }
    exists g'. split; [|split; [done|]].
    + simpl. rewrite (bind_Ok _ _ _ _ _ (number_cell_in_range g yx Hg Hy Hx)). exact Hrun.
    + intros q Hq. rewrite Hfin by done. rewrite fmap_cons.
      destruct (decide (q ∈ cell_of <$> l)) as [Hin|Hnin].
      * rewrite decide_True by (by apply list_elem_of_further). by apply Hnum.
      * rewrite Hcell by done. destruct (decide (cell_of yx = q)) as [<-|Hne].
        -- rewrite decide_True by apply list_elem_of_here. done.
        -- rewrite decide_False; [done|].
           intros [?|?]%elem_of_cons; congruence.
Qed.

Lemma number_cells_grid10 (g : GameBoard) :
  is_grid10 g = true ->
  exists g',
    number_cells g = Ok tt g' /\ is_grid10 g' = true /\
    forall q, in_range q -> cell_at g' q = numbered g q.
Proof.
  intros Hg. pose proof Hg as [Hl Hrows]%is_grid10_spec.
  destruct (number_loop (y ← seq 0 10; x ← seq 0 10; [(y, x)]) g Hg)
    as (g' & Hrun & Hg' & Hfin).
  { intros yx (y & (x & ->%list_elem_of_singleton & Hx%elem_of_seq)%list_elem_of_bind
                  & Hy%elem_of_seq)%list_elem_of_bind. simpl. lia. }
  exists g'. split; [|split; [done|]].
  - unfold number_cells, get_state. unfold bind at 1. rewrite Hl.
    rewrite <- Hrun, <- for_each_nested.
    apply for_each_ext. intros y s Hy%elem_of_seq.
    destruct (lookup_lt_is_Some_2 g y) as [row Hr]; [lia|].
    rewrite (list_lookup_total_correct _ _ _ Hr), (Hrows _ _ Hr). done.
  - intros q Hq. rewrite Hfin by done. rewrite decide_True; [done|].
    apply list_elem_of_fmap. exists (Z.to_nat q.2, Z.to_nat q.1). split.
    + unfold cell_of. simpl. destruct q, Hq. simpl in *. f_equal; lia.
    + destruct Hq. apply list_elem_of_bind. exists (Z.to_nat q.2). split.
      * apply list_elem_of_bind. exists (Z.to_nat q.1). split.
        -- apply list_elem_of_here.
        -- apply elem_of_seq. lia.
      * apply elem_of_seq. lia.
Qed.

(** The comprehension that draws the cells. *)
Lemma repeatM_total {S A} (P : A -> Prop) (m : M S A) (n : nat) :
  (forall s, exists a s', m s = Ok a s' /\ P a) ->
  forall s, exists l s', repeatM n m s = Ok l s' /\ length l = n /\ Forall P l.
Proof.
  intros Hm. induction n as [|n IH]; intros s; simpl.
  - by exists [], s.
  - destruct (Hm s) as (a & s1 & Ha & HP). destruct (IH s1) as (l & s2 & Hl & Hlen & HF).
    exists (a :: l), s2. rewrite (bind_Ok _ _ _ _ _ Ha), (bind_Ok _ _ _ _ _ Hl).
    repeat split; [simpl; by rewrite Hlen|by constructor].
Qed.

Lemma drawn_rows (bomb_chance : Q) (w : World) :
  exists b w',
    repeatM 10 (repeatM 10 (
        let! r := random in
        ret (if Qle_bool r bomb_chance then Bomb else NumberTag))) w = Ok b w' /\
    is_grid10 b = true /\
    forall p, in_range p -> is_draw (cell_at b p) = true.
Proof.
  destruct (repeatM_total (S := World)
              (fun row => length row = 10%nat /\ Forall (fun c => is_draw c = true) row)
              (repeatM 10 (let! r := random in
                           ret (if Qle_bool r bomb_chance then Bomb else NumberTag)))
              10) with (s := w) as (b & w' & Hb & Hlen & HF).
  { intros s. destruct (repeatM_total (S := World) (fun c => is_draw c = true)
              (let! r := random in
               ret (if Qle_bool r bomb_chance then Bomb else NumberTag)) 10) with (s := s)
      as (row & s' & Hrow & Hl & HFr).
    - intros t. eexists _, _. split; [reflexivity|]. by destruct (Qle_bool _ _).
    - exists row, s'. split; [exact Hrow|]. split; [exact Hl|exact HFr]. }
  exists b, w'. rewrite Forall_forall in HF.
  assert (is_grid10 b = true) as Hg.
  { apply is_grid10_spec. split; [done|]. intros i row Hr.
    apply HF, list_elem_of_lookup. eauto. }
  split; [exact Hb|]. split; [exact Hg|]. intros p Hp.
  pose proof (grid_get_in_range b p Hg Hp) as (i & j & row & _ & Hr & _ & Hc)%grid_get_Some.
  assert (row ∈ b) as Hin by (apply list_elem_of_lookup; eauto).
  destruct (HF row Hin) as [_ HFr]. rewrite Forall_forall in HFr.
  apply HFr, list_elem_of_lookup. eauto.
Qed.

(** ** The bombs around a cell *)

Lemma length_filter_cons {A} (P : A -> bool) (a : A) (l : list A) :
  length (List.filter P (a :: l))
  = ((if P a then 1 else 0) + length (List.filter P l))%nat.
Proof. simpl. by destruct (P a). Qed.

Lemma filter_filter_andb {A} (P Q : A -> bool) (l : list A) :
  List.filter Q (List.filter P l) = List.filter (fun a => P a && Q a) l.
Proof.
  induction l as [|a l IH]; simpl; [done|].
  destruct (P a); simpl; [|done]. destruct (Q a); by rewrite IH.
Qed.

Lemma length_filter_map {A B} (P : B -> bool) (h : A -> B) (l : list A) :
  length (List.filter (fun a => P (h a)) l) = length (List.filter P (map h l)).
Proof.
  induction l as [|a l IH]; simpl; [done|]. destruct (P (h a)); simpl; by rewrite IH.
Qed.

Lemma bind2_filter {A B} (P : A * B -> bool) (xs : list A) (ys : list B) :
  (x_ ← xs; y_ ← ys; if P (x_, y_) then [(x_, y_)] else [])
  = List.filter P (x_ ← xs; y_ ← ys; [(x_, y_)]).
Proof.
  induction xs as [|x xs IH]; [done|].
  change ((ys ≫= (fun y_ => if P (x, y_) then [(x, y_)] else []))
          ++ (xs ≫= (fun x_ => ys ≫= (fun y_ => if P (x_, y_) then [(x_, y_)] else [])))
          = List.filter P ((ys ≫= (fun y_ => [(x, y_)]))
                           ++ (xs ≫= (fun x_ => ys ≫= (fun y_ => [(x_, y_)]))))).
  rewrite List.filter_app, IH. f_equal.
  clear. induction ys as [|y ys IH]; [done|].
  change ((if P (x, y) then [(x, y)] else [])
          ++ (ys ≫= (fun y_ => if P (x, y_) then [(x, y_)] else []))
          = List.filter P ((x, y) :: (ys ≫= (fun y_ => [(x, y_)])))).
  rewrite IH. simpl. by destruct (P (x, y)).
Qed.

Lemma get_neighbours_block3 (x y : Z) :
  get_neighbours x y = List.filter off_edge (block3 x y).
Proof. apply (bind2_filter off_edge). Qed.

Lemma off_edge_on_board (x y : Z) (q : Z * Z) :
  in_range (x, y) -> q ∈ block3 x y -> off_edge q = on_board q.
Proof.
  unfold in_range, block3. simpl. intros [Hx Hy] Hq.
  assert (x - 1 <= q.1 <= x + 1 /\ y - 1 <= q.2 <= y + 1) as [Hq1 Hq2].
  { repeat (apply elem_of_cons in Hq as [->|Hq]); simpl; try lia.
    by apply elem_of_nil in Hq. }
  unfold off_edge, on_board.
  destruct (Z.eqb_spec q.1 (-1)), (Z.eqb_spec q.1 10), (Z.leb_spec 0 q.1),
    (Z.ltb_spec q.1 10); try lia; simpl; try done;
  destruct (Z.eqb_spec q.2 (-1)), (Z.eqb_spec q.2 10), (Z.leb_spec 0 q.2),
    (Z.ltb_spec q.2 10); try lia; simpl; done.
Qed.

Lemma bombs_around_neighbours (g : GameBoard) (p : Z * Z) :
  in_range p -> is_bomb_at g p = false ->
  bombs_around g p = bomb_neighbours g p.1 p.2.
Proof.
  destruct p as [x y]. intros Hp H0.
  unfold bombs_around, bomb_neighbours. simpl fst. simpl snd. f_equal.
  rewrite get_neighbours_block3.
  rewrite (List.filter_ext_in off_edge on_board).
  2: { intros q Hq. apply (off_edge_on_board x y); [done|]. by apply list_elem_of_In. }
  rewrite filter_filter_andb.
  change (fun d : Z * Z => on_board (x + d.1, y + d.2) &&
                           cell_eqb (cell_at g (x + d.1, y + d.2)) Bomb)
    with (fun d : Z * Z => (fun q => on_board q && is_bomb_at g q) (x + d.1, y + d.2)).
  rewrite (length_filter_map (fun q => on_board q && is_bomb_at g q)
             (fun d : Z * Z => (x + d.1, y + d.2))).
  unfold block3, offsets8. simpl mbind. simpl map.
  rewrite !Z.add_0_r. rewrite !length_filter_cons. rewrite H0, andb_false_r.
  simpl. reflexivity.
Qed.

Lemma cell_at_lookup (g : GameBoard) (i j : nat) (row : list cell) (c : cell) :
  g !! i = Some row -> row !! j = Some c ->
  cell_at g (Z.of_nat j, Z.of_nat i) = c.
Proof.
  intros Hr Hc. unfold cell_at. simpl.
  assert (grid_get g (Z.of_nat j) (Z.of_nat i) = Some c) as ->; [|done].
  apply grid_get_Some. exists i, j, row.
  apply lookup_lt_Some in Hr as Hi. apply lookup_lt_Some in Hc as Hj.
  split; [|split; [done|split; [|done]]].
  - rewrite py_index_nonneg by lia. by rewrite Nat2Z.id.
  - rewrite py_index_nonneg by lia. by rewrite Nat2Z.id.
Qed.

Lemma is_board_intro (b : GameBoard) :
  is_grid10 b = true ->
  (forall p, in_range p -> is_value (cell_at b p) = true) ->
  is_board b = true.
Proof.
  intros Hg Hv. unfold is_board. rewrite Hg. simpl.
  apply is_grid10_spec in Hg as [Hl Hrows].
  apply forallb_forall. intros row [i Hr]%list_elem_of_In%list_elem_of_lookup.
  apply forallb_forall. intros c [j Hc]%list_elem_of_In%list_elem_of_lookup.
  rewrite <- (cell_at_lookup b i j row c Hr Hc). apply Hv.
  apply lookup_lt_Some in Hr as Hi. apply lookup_lt_Some in Hc as Hj.
  rewrite (Hrows _ _ Hr) in Hj. unfold in_range. simpl. lia.
Qed.

(** What [generate_board] returns, in terms of the cells drawn. *)
Lemma generate_board_numbered (bomb_chance : Q) (w : World) :
  exists b0 b w',
    generate_board bomb_chance w = Ok b w' /\
    is_grid10 b0 = true /\ is_grid10 b = true /\
    (forall p, in_range p -> is_draw (cell_at b0 p) = true) /\
    (forall p, in_range p -> cell_at b p = numbered b0 p).
Proof.
  destruct (drawn_rows bomb_chance w) as (b0 & w' & Hrows & Hg0 & Hdraw).
  destruct (number_cells_grid10 b0 Hg0) as (b & Hnum & Hg & Hcells).
  exists b0, b, w'. split; [|repeat split; assumption].
  unfold generate_board. rewrite (bind_Ok _ _ _ _ _ Hrows).
  unfold with_local. by rewrite Hnum.
Qed.

(** C2.  Whatever the bomb probability and the draws, [generate_board]
    returns a 10x10 board of bombs and counts on which every cell that is
    not a bomb holds the number of bombs among its up to eight neighbours
    on the board, the cell itself not counted. *)
Theorem generate_board_counts (bomb_chance : Q) (w : World) :
  exists b w',
    generate_board bomb_chance w = Ok b w' /\
    is_board b = true /\
    forall x y, in_range (x, y) -> cell_at b (x, y) <> Bomb ->
      cell_at b (x, y) = Num (bomb_neighbours b x y).
Proof.
  destruct (generate_board_numbered bomb_chance w)
    as (b0 & b & w' & Hrun & Hg0 & Hg & Hdraw & Hcells).
  assert (forall q, in_range q -> is_bomb_at b q = is_bomb_at b0 q) as Hbomb.
  { intros q Hq. unfold is_bomb_at at 1. rewrite Hcells by done. apply numbered_bomb. }
  exists b, w'. split; [exact Hrun|]. clear Hrun. split.
  - apply is_board_intro; [exact Hg|]. intros p Hp. rewrite Hcells by done.
    unfold numbered. specialize (Hdraw p Hp).
    destruct (cell_at b0 p); try discriminate Hdraw; reflexivity.
  - intros x y Hp Hnb.
    assert (is_bomb_at b (x, y) = false) as Hnb' by (by apply cell_eqb_neq).
    pose proof (bombs_around_neighbours b (x, y) Hp Hnb') as Hcount. simpl in Hcount.
    rewrite <- Hcount.
    rewrite (bombs_around_ext b0 b) by done.
    rewrite Hcells by done. unfold numbered. specialize (Hdraw _ Hp).
    rewrite Hcells in Hnb by done. unfold numbered in Hnb.
    destruct (cell_at b0 (x, y)); try discriminate Hdraw; [by destruct Hnb|reflexivity].
Qed.

Lemma generate_board_counts_witness :
  exists b w',
    generate_board (1 # 5) (initial one_bomb_draws) = Ok b w' /\
    is_board b = true /\
    forall x y, in_range (x, y) -> cell_at b (x, y) <> Bomb ->
      cell_at b (x, y) = Num (bomb_neighbours b x y).
Proof. exact (generate_board_counts (1 # 5) (initial one_bomb_draws)). Defined.

(** ** The fill on grid values: fuel *)

Section FillFuel.
Variable b : GameBoard.

Lemma fill_neighbour_cases (self_call : Z -> Z -> M GameBoard unit)
    (x y : Z) (r : GameBoard) :
  fill_neighbour self_call b (x, y) r =
  match grid_get r x y with
  | None => Raise IndexError r
  | Some c =>
      if cell_eqb c Hidden then
        match grid_get b x y with
        | None => Raise IndexError r
        | Some v =>
            match grid_set r x y v with
            | None => Raise IndexError r
            | Some r1 => if cell_eqb v (Num 0) then self_call x y r1 else Ok tt r1
            end
        end
      else Ok tt r
  end.
Proof.
  unfold fill_neighbour, bind, peek, poke.
  destruct (grid_get r x y) as [c|]; simpl; [|done].
  destruct (cell_eqb c Hidden); simpl; [|done].
  destruct (grid_get b x y) as [v|]; simpl; [|done].
  destruct (grid_set r x y v) as [r1|]; simpl; [|done].
  by destruct (cell_eqb v (Num 0)).
Qed.

(** With more hidden cells than fuel the fill cannot run out: every
    recursive call comes after a Hidden cell received the value 0. *)
Lemma fill_loop_finishes (n : nat)
    (IH : forall r x y, (hidden_count r < n)%nat ->
            post (fill n b x y r)
                 (fun _ r' => (hidden_count r' <= hidden_count r)%nat) (fun _ => True)
            /\ finished (fill n b x y r))
    (l : list (Z * Z)) (r : GameBoard) :
  (hidden_count r <= n)%nat ->
  post (for_each l (fill_neighbour (fill n b) b) r)
       (fun _ r' => (hidden_count r' <= hidden_count r)%nat) (fun _ => True)
  /\ finished (for_each l (fill_neighbour (fill n b) b) r).
Proof.
  revert r. induction l as [|[x_ y_] l IHl]; intros r Hr; [split; simpl; (lia || exact I)|].
  assert (forall r1, (hidden_count r1 <= hidden_count r)%nat ->
            post (for_each l (fill_neighbour (fill n b) b) r1)
                 (fun _ r' => (hidden_count r' <= hidden_count r)%nat) (fun _ => True)
            /\ finished (for_each l (fill_neighbour (fill n b) b) r1)) as Hrest.
  { intros r1 H1. destruct (IHl r1) as [HP HF]; [lia|]. split; [|done].
    destruct (for_each l _ r1); simpl in *; try done. lia. }
  rewrite !for_each_cons, fill_neighbour_cases.
  destruct (grid_get r x_ y_) as [c|] eqn:Ec; [|by split].
  destruct (cell_eqb c Hidden) eqn:Eh; [|by apply Hrest].
  apply cell_eqb_eq in Eh as ->.
  destruct (grid_get b x_ y_) as [v|] eqn:Ev; [|by split].
  destruct (grid_set r x_ y_ v) as [r1|] eqn:Es; [|by split].
  pose proof (hidden_count_set r r1 x_ y_ Hidden v Ec Es) as Hcount. simpl in Hcount.
  destruct (cell_eqb v (Num 0)) eqn:E0.
  - apply cell_eqb_eq in E0 as ->. simpl in Hcount.
    destruct (IH r1 x_ y_) as [HP HF]; [lia|].
    destruct (fill n b x_ y_ r1) as [[] r2| |]; simpl in *; try done.
    apply Hrest. lia.
  - apply Hrest. destruct (cell_eqb v Hidden); lia.
Qed.

Lemma fill_finishes (fuel : nat) (r : GameBoard) (x y : Z) :
  (hidden_count r < fuel)%nat ->
  post (fill fuel b x y r)
       (fun _ r' => (hidden_count r' <= hidden_count r)%nat) (fun _ => True)
  /\ finished (fill fuel b x y r).
Proof.
  revert r x y. induction fuel as [|n IH]; intros r x y Hr; [lia|].
  simpl. apply fill_loop_finishes; [exact IH|lia].
Qed.

(** A run that finished is not changed by more fuel. *)
Lemma fill_loop_more_fuel (n : nat)
    (IH : forall r x y, finished (fill n b x y r) ->
            fill (S n) b x y r = fill n b x y r)
    (l : list (Z * Z)) (r : GameBoard) :
  finished (for_each l (fill_neighbour (fill n b) b) r) ->
  for_each l (fill_neighbour (fill (S n) b) b) r
  = for_each l (fill_neighbour (fill n b) b) r.
Proof.
  revert r. induction l as [|[x_ y_] l IHl]; intros r; [done|].
  rewrite !for_each_cons, !fill_neighbour_cases.
  destruct (grid_get r x_ y_) as [c|]; [|done].
  destruct (cell_eqb c Hidden); [|apply IHl].
  destruct (grid_get b x_ y_) as [v|]; [|done].
  destruct (grid_set r x_ y_ v) as [r1|]; [|done].
  destruct (cell_eqb v (Num 0)); [|apply IHl].
  intros Hfin. rewrite IH.
  - destruct (fill n b x_ y_ r1) as [[] r2| |]; try done. by apply IHl.
  - by destruct (fill n b x_ y_ r1).
Qed.

Lemma fill_more_fuel (n : nat) (r : GameBoard) (x y : Z) :
  finished (fill n b x y r) -> fill (S n) b x y r = fill n b x y r.
Proof.
  revert r x y. induction n as [|n IH]; intros r x y; [done|].
  intros Hfin. change (fill (S (S n)) b x y r)
    with (for_each (get_neighbours x y) (fill_neighbour (fill (S n) b) b) r).
  by apply fill_loop_more_fuel.
Qed.

Lemma fill_fuel_irrelevant (n m : nat) (r : GameBoard) (x y : Z) :
  (n <= m)%nat -> finished (fill n b x y r) -> fill m b x y r = fill n b x y r.
Proof.
  induction 1 as [|m Hle IH]; intros Hfin; [done|].
  rewrite fill_more_fuel; [by apply IH|]. by rewrite IH.
Qed.
End FillFuel.

Lemma hidden_in_row_le (row : list cell) : (hidden_in_row row <= length row)%nat.
Proof. unfold hidden_in_row. apply List.filter_length_le. Qed.

Lemma hidden_count_le_100 (g : GameBoard) :
  is_grid10 g = true -> (hidden_count g <= 100)%nat.
Proof.
  intros [Hl Hrows]%is_grid10_spec. unfold hidden_count.
  assert (forall rows : GameBoard, (forall row, row ∈ rows -> length row = 10%nat) ->
            (sum_list (map hidden_in_row rows) <= 10 * length rows)%nat) as H.
  { induction rows as [|row rows IH]; intros Hr; simpl; [lia|].
    pose proof (hidden_in_row_le row).
    rewrite (Hr row) in H by apply list_elem_of_here.
    specialize (IH (fun row' H' => Hr row' (list_elem_of_further _ _ _ H'))). lia. }
  specialize (H g). rewrite Hl in H. apply H.
  intros row [i Hi]%list_elem_of_lookup. eauto.
Qed.

(** ** The fill on 10x10 grids: what it changes *)

Lemma uncovers_refl (b r : GameBoard) : uncovers b r r.
Proof. intros q _. by left. Qed.

Lemma uncovers_trans (b r1 r2 r3 : GameBoard) :
  uncovers b r1 r2 -> uncovers b r2 r3 -> uncovers b r1 r3.
Proof.
  intros H12 H23 q Hq. destruct (H12 q Hq) as [E1|[E1 E1']], (H23 q Hq) as [E2|[E2 E2']].
  - left. congruence.
  - right. split; congruence.
  - right. split; congruence.
  - right. split; congruence.
Qed.

Lemma uncovers_kept (b r r' : GameBoard) (q : Z * Z) :
  uncovers b r r' -> in_range q -> cell_at r q <> Hidden -> cell_at r' q = cell_at r q.
Proof. intros H Hq Hn. destruct (H q Hq) as [E|[E _]]; [done|by destruct Hn]. Qed.

Lemma uncovers_hidden (b r r' : GameBoard) (q : Z * Z) :
  uncovers b r r' -> in_range q -> cell_at r' q = Hidden -> cell_at r q = Hidden.
Proof. intros H Hq Hh. destruct (H q Hq) as [E|[E _]]; congruence. Qed.

Lemma uncovers_set_cell (b r : GameBoard) (p : Z * Z) :
  is_grid10 r = true -> in_range p -> cell_at r p = Hidden ->
  uncovers b r (set_cell r p (cell_at b p)).
Proof.
  intros Hr Hp Hh q Hq. rewrite cell_at_set_cell by done.
  destruct (decide (p = q)) as [<-|]; [by right|by left].
Qed.

Lemma expands_in_range (r b : GameBoard) (s e : Z * Z) :
  in_range s -> expands r b s e -> in_range e.
Proof.
  intros Hs. induction 1 as [|p q _ IH Hn _ _]; [done|].
  by apply (neighbour_in_range p).
Qed.

Lemma expands_mono (r r1 b : GameBoard) (s e : Z * Z) :
  (forall q, in_range q -> cell_at r1 q = Hidden -> cell_at r q = Hidden) ->
  in_range s -> expands r1 b s e -> expands r b s e.
Proof.
  intros Hm Hs. induction 1 as [|p q Hp IH Hn Hh H0]; [constructor|].
  apply (expands_next r b s p q); try done.
  apply Hm; [|done]. apply (neighbour_in_range p); [|done].
  by apply (expands_in_range r1 b s).
Qed.

Lemma expands_trans (r b : GameBoard) (p s e : Z * Z) :
  expands r b p s -> expands r b s e -> expands r b p e.
Proof.
  intros Hps. induction 1 as [|e q _ IH Hn Hh H0]; [done|].
  by apply (expands_next r b p e q).
Qed.

Lemma reached_mono (r r1 b : GameBoard) (s q : Z * Z) :
  (forall q, in_range q -> cell_at r1 q = Hidden -> cell_at r q = Hidden) ->
  in_range s -> reached r1 b s q -> reached r b s q.
Proof.
  intros Hm Hs (e & He & Hn). exists e. split; [|done]. by apply (expands_mono r r1).
Qed.

Lemma seeded_mono (r r1 b : GameBoard) (l l' : list (Z * Z)) (q : Z * Z) :
  (forall q, in_range q -> cell_at r1 q = Hidden -> cell_at r q = Hidden) ->
  (forall s, s ∈ l -> s ∈ l') -> (forall s, s ∈ l -> in_range s) ->
  seeded r1 b l q -> seeded r b l' q.
Proof.
  intros Hm Hsub Hl [Hq|(s & Hs & Hh & H0 & Hr)].
  - left. by apply Hsub.
  - right. exists s. repeat split; [by apply Hsub|by apply Hm; [apply Hl|]|done|].
    apply (reached_mono r r1); [done|by apply Hl|done].
Qed.

Lemma seeded_neighbours (r b : GameBoard) (p q : Z * Z) :
  seeded r b (get_neighbours p.1 p.2) q -> reached r b p q.
Proof.
  intros [Hq|(s & Hs & Hh & H0 & e & He & Hn)].
  - exists p. split; [constructor|done].
  - exists e. split; [|done].
    apply (expands_trans r b p s e); [|done].
    apply (expands_next r b p p s); [constructor|done..].
Qed.

Lemma fill_neighbour_grid10 (b : GameBoard)
    (self_call : Z -> Z -> M GameBoard unit) (p : Z * Z) (r : GameBoard) :
  is_grid10 b = true -> is_grid10 r = true -> in_range p ->
  fill_neighbour self_call b p r =
  if cell_eqb (cell_at r p) Hidden then
    if cell_eqb (cell_at b p) (Num 0)
    then self_call p.1 p.2 (set_cell r p (cell_at b p))
    else Ok tt (set_cell r p (cell_at b p))
  else Ok tt r.
Proof.
  intros Hb Hr Hp. destruct p as [x y]. rewrite fill_neighbour_cases.
  rewrite (grid_get_xy r x y Hr Hp), (grid_get_xy b x y Hb Hp).
  rewrite (grid_set_xy r x y _ Hr Hp). done.
Qed.

(** On 10x10 grids the fill raises nothing: with more fuel than hidden
    cells it returns. *)
Lemma fill_loop_runs (b : GameBoard) (n : nat)
    (IH : forall r p, is_grid10 r = true -> in_range p -> (hidden_count r < n)%nat ->
            exists r', fill n b p.1 p.2 r = Ok tt r' /\ is_grid10 r' = true /\
                       (hidden_count r' <= hidden_count r)%nat)
    (l : list (Z * Z)) (r : GameBoard) :
  is_grid10 b = true -> is_grid10 r = true -> (forall q, q ∈ l -> in_range q) ->
  (hidden_count r <= n)%nat ->
  exists r', for_each l (fill_neighbour (fill n b) b) r = Ok tt r' /\
             is_grid10 r' = true /\ (hidden_count r' <= hidden_count r)%nat.
Proof.
  intros Hb. revert r. induction l as [|s l IHl]; intros r Hr Hl Hn.
  { exists r. by repeat split. }
  assert (in_range s) as Hs by apply Hl, list_elem_of_here.
  assert (forall r1, is_grid10 r1 = true -> (hidden_count r1 <= hidden_count r)%nat ->
            exists r', for_each l (fill_neighbour (fill n b) b) r1 = Ok tt r' /\
                       is_grid10 r' = true /\ (hidden_count r' <= hidden_count r)%nat)
    as Hrest.
  { intros r1 Hr1 Hle. destruct (IHl r1 Hr1) as (r' & Hrun & Hg & Hc).
    - intros q Hq. by apply Hl, list_elem_of_further.
    - lia.
    - exists r'. repeat split; [done..|lia]. }
  rewrite for_each_cons, fill_neighbour_grid10 by done.
  destruct (cell_eqb (cell_at r s) Hidden) eqn:Eh; [|by apply Hrest].
  pose proof (hidden_count_set_cell r s (cell_at b s) Hr Hs) as Hcount.
  rewrite Eh in Hcount.
  pose proof (set_cell_grid10 r s (cell_at b s) Hr) as Hr1.
  destruct (cell_eqb (cell_at b s) (Num 0)) eqn:E0.
  - apply cell_eqb_eq in E0. rewrite E0 in *. simpl in Hcount.
    destruct (IH _ s Hr1 Hs) as (r2 & Hrun & Hg2 & Hc2); [lia|].
    rewrite Hrun. apply Hrest; [done|lia].
  - apply Hrest; [done|]. destruct (cell_eqb (cell_at b s) Hidden); lia.
Qed.

Lemma fill_runs (b : GameBoard) (fuel : nat) (r : GameBoard) (p : Z * Z) :
  is_grid10 b = true -> is_grid10 r = true -> in_range p ->
  (hidden_count r < fuel)%nat ->
  exists r', fill fuel b p.1 p.2 r = Ok tt r' /\ is_grid10 r' = true /\
             (hidden_count r' <= hidden_count r)%nat.
Proof.
  intros Hb. revert r p. induction fuel as [|n IH]; intros r p Hr Hp Hn; [lia|].
  simpl. apply fill_loop_runs; try done.
  - intros q Hq. by apply (neighbour_in_range p).
  - lia.
Qed.

Section FillGrid.
Variable b : GameBoard.
Hypothesis board_ok : is_board b = true.

Lemma fill_neighbour_in_range (self_call : Z -> Z -> M GameBoard unit)
    (p : Z * Z) (r : GameBoard) :
  is_grid10 r = true -> in_range p ->
  fill_neighbour self_call b p r =
  if cell_eqb (cell_at r p) Hidden then
    if cell_eqb (cell_at b p) (Num 0)
    then self_call p.1 p.2 (set_cell r p (cell_at b p))
    else Ok tt (set_cell r p (cell_at b p))
  else Ok tt r.
Proof. apply fill_neighbour_grid10. by apply is_board_grid10. Qed.

Lemma board_not_hidden (p : Z * Z) : in_range p -> cell_at b p <> Hidden.
Proof. intros Hp. by apply is_value_not_hidden, is_board_value. Qed.

Lemma fill_loop_post (n : nat)
    (IH : forall r p r', is_grid10 r = true -> in_range p ->
            fill n b p.1 p.2 r = Ok tt r' -> fill_post b r p r')
    (l : list (Z * Z)) (r r' : GameBoard) :
  is_grid10 r = true -> (forall q, q ∈ l -> in_range q) ->
  for_each l (fill_neighbour (fill n b) b) r = Ok tt r' ->
  loop_post b r l r'.
Proof.
  revert r. induction l as [|s l IHl]; intros r Hr Hl Hrun.
  { inversion Hrun; subst r'. repeat split.
    - done.
    - apply uncovers_refl.
    - intros q _ Hne. by destruct Hne.
    - intros q Hq. by apply elem_of_nil in Hq.
    - intros q _ Hh Hn. by destruct Hn. }
  assert (in_range s) as Hs by apply Hl, list_elem_of_here.
  assert (forall q, q ∈ l -> in_range q) as Hl'
    by (intros q Hq; by apply Hl, list_elem_of_further).
  rewrite for_each_cons, fill_neighbour_in_range in Hrun by done.
  destruct (cell_eqb (cell_at r s) Hidden) eqn:Eh.
  2: { (* the neighbour is not Hidden: continue *)
    apply cell_eqb_neq in Eh.
    destruct (IHl r Hr Hl' Hrun) as (Hg & Hu & Hc & Hn & Ho).
    repeat split; try done.
    - intros q Hq Hne. apply (seeded_mono r r b l); try done.
      + intros s' Hs'. by apply list_elem_of_further.
      + by apply Hc.
    - intros q [->|Hq]%elem_of_cons; [|by apply Hn].
      by rewrite (uncovers_kept b r r' s). }
  apply cell_eqb_eq in Eh.
  set (r1 := set_cell r s (cell_at b s)) in *.
  assert (is_grid10 r1 = true) as Hr1 by (by apply set_cell_grid10).
  assert (uncovers b r r1) as Hu1 by (by apply uncovers_set_cell).
  assert (cell_at r1 s = cell_at b s) as Hs1 by (by apply cell_at_set_cell_eq).
  assert (forall q, in_range q -> s <> q -> cell_at r1 q = cell_at r q) as Hother
    by (intros q Hq Hne; by apply cell_at_set_cell_ne).
  pose proof (board_not_hidden s Hs) as Hbs.
  destruct (cell_eqb (cell_at b s) (Num 0)) eqn:E0.
  - (* value 0: the recursive call, then the rest of the loop *)
    apply cell_eqb_eq in E0.
    destruct (fill n b s.1 s.2 r1) as [[] r2| |] eqn:Hfill; try discriminate Hrun.
    destruct (IH r1 s r2 Hr1 Hs Hfill) as (Hg2 & Hu2 & Hc2 & Hn2 & Ho2).
    destruct (IHl r2 Hg2 Hl' Hrun) as (Hg & Hu & Hc & Hn & Ho).
    assert (uncovers b r r2) as Hu12 by (by apply (uncovers_trans b r r1 r2)).
    repeat split.
    + done.
    + by apply (uncovers_trans b r r2 r').
    + intros q Hq Hne. destruct (decide (s = q)) as [<-|Hsq];
        [left; apply list_elem_of_here|].
      destruct (decide (cell_at r2 q = cell_at r1 q)) as [E21|N21].
      * apply (seeded_mono r r2 b l); try done.
        -- intros q'. by apply (uncovers_hidden b r r2).
        -- intros s' Hs'. by apply list_elem_of_further.
        -- apply Hc; [done|]. rewrite E21, Hother by done. done.
      * right. exists s. repeat split; [apply list_elem_of_here|done..|].
        apply (reached_mono r r1); [|done|by apply Hc2].
        intros q'. by apply (uncovers_hidden b r r1).
    + intros q [->|Hq]%elem_of_cons; [|by apply Hn].
      rewrite (uncovers_kept b r1 r' s); [congruence| |done|congruence].
      by apply (uncovers_trans b r1 r2 r').
    + intros q Hq Hh Hnh Hq0 m Hm.
      assert (in_range m) as Hmr by (by apply (neighbour_in_range q)).
      destruct (decide (cell_at r2 q = Hidden)) as [E2|N2];
        [by apply (Ho q Hq E2 Hnh Hq0)|].
      assert (cell_at r2 m <> Hidden) as Hm2.
      { destruct (decide (s = q)) as [<-|Hsq]; [by apply Hn2|].
        apply (Ho2 q Hq); try done. by rewrite Hother. }
      by rewrite (uncovers_kept b r2 r' m).
  - (* another value: revealed, not recursed into *)
    apply cell_eqb_neq in E0.
    destruct (IHl r1 Hr1 Hl' Hrun) as (Hg & Hu & Hc & Hn & Ho).
    repeat split.
    + done.
    + by apply (uncovers_trans b r r1 r').
    + intros q Hq Hne. destruct (decide (s = q)) as [<-|Hsq];
        [left; apply list_elem_of_here|].
      apply (seeded_mono r r1 b l); try done.
      * intros q'. by apply (uncovers_hidden b r r1).
      * intros s' Hs'. by apply list_elem_of_further.
      * apply Hc; [done|]. by rewrite Hother.
    + intros q [->|Hq]%elem_of_cons; [|by apply Hn].
      rewrite (uncovers_kept b r1 r' s); [congruence|done|done|congruence].
    + intros q Hq Hh Hnh Hq0 m Hm.
      apply (Ho q Hq); try done.
      rewrite Hother; [done..|]. intros ->. congruence.
Qed.

Lemma fill_fill_post (fuel : nat) (r : GameBoard) (p : Z * Z) (r' : GameBoard) :
  is_grid10 r = true -> in_range p ->
  fill fuel b p.1 p.2 r = Ok tt r' -> fill_post b r p r'.
Proof.
  revert r p r'. induction fuel as [|n IH]; intros r p r' Hr Hp Hrun; [done|].
  simpl in Hrun.
  destruct (fill_loop_post n IH (get_neighbours p.1 p.2) r r' Hr)
    as (Hg & Hu & Hc & Hn & Ho); [|done|].
  { intros q Hq. by apply (neighbour_in_range p). }
  repeat split; try done.
  intros q Hq Hne. by apply seeded_neighbours, Hc.
Qed.

(** The fill reveals exactly the Hidden cells it reaches. *)
Lemma fill_exact (fuel : nat) (r : GameBoard) (p : Z * Z) (r' : GameBoard) :
  is_grid10 r = true -> in_range p ->
  fill fuel b p.1 p.2 r = Ok tt r' ->
  is_grid10 r' = true /\ uncovers b r r' /\ opened b r r' /\
  (forall q, neighbour p q -> cell_at r' q <> Hidden) /\
  forall q, in_range q ->
    (cell_at r q = Hidden -> reached r b p q -> cell_at r' q = cell_at b q) /\
    (~ (cell_at r q = Hidden /\ reached r b p q) -> cell_at r' q = cell_at r q).
Proof.
  intros Hr Hp Hrun.
  destruct (fill_fill_post fuel r p r' Hr Hp Hrun) as (Hg & Hu & Hc & Hn & Ho).
  repeat split; try done.
  - intros Hh (e & He & Hq').
    assert (forall m, neighbour e m -> cell_at r' m <> Hidden) as Hopen.
    { clear Hq'. induction He as [|e e' He IHe He' Hh' H0']; [done|].
      apply (Ho e'); try done.
      - apply (neighbour_in_range e); [|done]. by apply (expands_in_range r b p).
      - by apply IHe. }
    destruct (Hu q H) as [E|[_ E]]; [|done].
    destruct (Hopen q Hq'). congruence.
  - intros Hnot. destruct (decide (cell_at r' q = cell_at r q)) as [E|N]; [done|].
    destruct Hnot. split; [|by apply Hc].
    destruct (Hu q H) as [E|[E _]]; [by destruct N|done].
Qed.
End FillGrid.

(** ** From the heap to grid values *)

Lemma set_heap_id (w : World) (l : loc) (g : GameBoard) :
  heap w !! l = Some g -> set_heap (insert l g) w = w.
Proof. intros H. destruct w. unfold set_heap. simpl in *. f_equal. by apply insert_id. Qed.

Lemma set_heap_twice (w : World) (l : loc) (g g' : GameBoard) :
  set_heap (insert l g') (set_heap (insert l g) w) = set_heap (insert l g') w.
Proof. unfold set_heap. simpl. f_equal. apply insert_insert_eq. Qed.

Lemma heap_set_heap_eq (w : World) (l : loc) (g : GameBoard) :
  heap (set_heap (insert l g) w) !! l = Some g.
Proof. simpl. apply lookup_insert_eq. Qed.

Lemma heap_set_heap_ne (w : World) (l l' : loc) (g : GameBoard) :
  l <> l' -> heap (set_heap (insert l g) w) !! l' = heap w !! l'.
Proof. intros. simpl. by apply lookup_insert_ne. Qed.

Lemma at_loc_set_heap {A} (w : World) (l : loc) (g : GameBoard) (o : outcome GameBoard A) :
  at_loc l (set_heap (insert l g) w) o = at_loc l w o.
Proof. destruct o; simpl; by rewrite ?set_heap_twice. Qed.

Lemma lookup_total_Some (h : gmap loc GameBoard) (l : loc) (g : GameBoard) :
  h !! l = Some g -> h !!! l = g.
Proof. apply lookup_total_correct. Qed.

Lemma reveal_neighbour_cases (self_call : Z -> Z -> M World unit)
    (rv bd : loc) (x y : Z) (w : World) :
  reveal_neighbour self_call rv bd (x, y) w =
  match grid_get (heap w !!! rv) x y with
  | None => Raise IndexError w
  | Some c =>
      if cell_eqb c Hidden then
        match grid_get (heap w !!! bd) x y with
        | None => Raise IndexError w
        | Some v =>
            match grid_set (heap w !!! rv) x y v with
            | None => Raise IndexError w
            | Some r1 =>
                let w1 := set_heap (insert rv r1) w in
                match grid_get (heap w1 !!! bd) x y with
                | None => Raise IndexError w1
                | Some v' => if cell_eqb v' (Num 0) then self_call x y w1 else Ok tt w1
                end
            end
        end
      else Ok tt w
  end.
Proof.
  unfold reveal_neighbour, bind, read, write.
  destruct (grid_get (heap w !!! rv) x y) as [c|]; simpl; [|done].
  destruct (cell_eqb c Hidden); simpl; [|done].
  destruct (grid_get (heap w !!! bd) x y) as [v|]; simpl; [|done].
  destruct (grid_set (heap w !!! rv) x y v) as [r1|]; simpl; [|done].
  destruct (grid_get (<[rv:=r1]> (heap w) !!! bd) x y) as [v'|]; simpl; [|done].
  by destruct (cell_eqb v' (Num 0)).
Qed.

Section Bridge.
Variables (rv bd : loc) (b : GameBoard).
Hypothesis distinct : rv <> bd.

Lemma reveal_loop_fill (n : nat)
    (IH : forall x y w r, heap w !! rv = Some r -> heap w !! bd = Some b ->
            reveal_zeros n rv bd x y w = at_loc rv w (fill n b x y r))
    (l : list (Z * Z)) (w : World) (r : GameBoard) :
  heap w !! rv = Some r -> heap w !! bd = Some b ->
  for_each l (reveal_neighbour (reveal_zeros n rv bd) rv bd) w
  = at_loc rv w (for_each l (fill_neighbour (fill n b) b) r).
Proof.
  revert w r. induction l as [|[x_ y_] l IHl]; intros w r Hr Hb.
  { simpl. unfold ret. by rewrite set_heap_id. }
  rewrite !for_each_cons, reveal_neighbour_cases, fill_neighbour_cases.
  rewrite (lookup_total_Some _ _ _ Hr), (lookup_total_Some _ _ _ Hb).
  destruct (grid_get r x_ y_) as [c|]; [|simpl; by rewrite set_heap_id].
  destruct (cell_eqb c Hidden); [|by apply IHl].
  destruct (grid_get b x_ y_) as [v|] eqn:Ev; [|simpl; by rewrite set_heap_id].
  destruct (grid_set r x_ y_ v) as [r1|]; [|simpl; by rewrite set_heap_id].
  cbn zeta.
  assert (heap (set_heap (insert rv r1) w) !! bd = Some b) as Hb1
    by (by rewrite heap_set_heap_ne).
  rewrite (lookup_total_Some _ _ _ Hb1), Ev.
  destruct (cell_eqb v (Num 0)).
  - rewrite (IH x_ y_ _ r1 (heap_set_heap_eq w rv r1) Hb1), at_loc_set_heap.
    destruct (fill n b x_ y_ r1) as [[] r2| |]; simpl; try done.
    rewrite (IHl _ r2 (heap_set_heap_eq w rv r2)) by (by rewrite heap_set_heap_ne).
    apply at_loc_set_heap.
  - rewrite (IHl _ r1 (heap_set_heap_eq w rv r1) Hb1). apply at_loc_set_heap.
Qed.

(** On two distinct grid objects [reveal_zeros] is [fill], run on the
    grid behind [revealed]. *)
Lemma reveal_zeros_fill (fuel : nat) (x y : Z) (w : World) (r : GameBoard) :
  heap w !! rv = Some r -> heap w !! bd = Some b ->
  reveal_zeros fuel rv bd x y w = at_loc rv w (fill fuel b x y r).
Proof.
  revert x y w r. induction fuel as [|n IH]; intros x y w r Hr Hb; [done|].
  simpl. by apply reveal_loop_fill.
Qed.
End Bridge.

(** C10.  On a 10x10 revealed grid and a 10x10 board held by two grid
    objects, [reveal_zeros] started at any cell of the board returns: the
    recursion is entered only after a Hidden cell received the value 0, so
    a fuel above the number of Hidden cells, which is at most 100, is never
    used up, and every such fuel gives the same final grid. *)
Theorem reveal_zeros_terminates (w : World) (rv bd : loc) (r b : GameBoard) (x y : Z) :
  rv <> bd -> heap w !! rv = Some r -> heap w !! bd = Some b ->
  is_grid10 r = true -> is_grid10 b = true -> in_range (x, y) ->
  (hidden_count r <= 100)%nat /\
  exists r',
    (hidden_count r' <= hidden_count r)%nat /\
    forall fuel, (hidden_count r < fuel)%nat ->
      reveal_zeros fuel rv bd x y w = Ok tt (set_heap (insert rv r') w).
Proof.
  intros Hne Hr Hb Hgr Hgb Hp. split; [by apply hidden_count_le_100|].
  destruct (fill_runs b (S (hidden_count r)) r (x, y) Hgb Hgr Hp) as (r' & Hrun & _ & Hc);
    [lia|].
  cbn [fst snd] in Hrun.
  exists r'. split; [done|]. intros fuel Hfuel.
  rewrite (reveal_zeros_fill rv bd b Hne fuel x y w r Hr Hb).
  rewrite (fill_fuel_irrelevant b (S (hidden_count r)) fuel); [|lia|].
  - by rewrite Hrun.
  - by rewrite Hrun.
Qed.

Lemma reveal_zeros_terminates_witness :
  1%nat <> 0%nat /\
  heap (world_of zero_board hidden_board (fun _ => 1%Q)) !! 1%nat = Some hidden_board /\
  heap (world_of zero_board hidden_board (fun _ => 1%Q)) !! 0%nat = Some zero_board /\
  is_grid10 hidden_board = true /\ is_grid10 zero_board = true /\ in_range (4, 5) /\
  (hidden_count hidden_board <= 100)%nat /\
  exists r',
    (hidden_count r' <= hidden_count hidden_board)%nat /\
    forall fuel, (hidden_count hidden_board < fuel)%nat ->
      reveal_zeros fuel 1%nat 0%nat 4 5 (world_of zero_board hidden_board (fun _ => 1%Q))
      = Ok tt (set_heap (insert 1%nat r') (world_of zero_board hidden_board (fun _ => 1%Q))).
Proof.
  assert (in_range (4, 5)) as Hp by (unfold in_range; simpl; lia).
  split; [discriminate|]. split; [reflexivity|]. split; [reflexivity|].
  split; [reflexivity|]. split; [reflexivity|]. split; [exact Hp|].
  exact (reveal_zeros_terminates (world_of zero_board hidden_board (fun _ => 1%Q))
           1%nat 0%nat hidden_board zero_board 4 5
           ltac:(discriminate) eq_refl eq_refl eq_refl eq_refl Hp).
Defined.

(** ** The reveal of one cell *)

Lemma say_say (es es' : list event) (w : World) :
  say es' (say es w) = say (es ++ es') w.
Proof. unfold say. simpl. by rewrite app_assoc. Qed.

Lemma emit_say (e : event) (w : World) : emit e w = Ok tt (say [e] w).
Proof. reflexivity. Qed.

Lemma the_game_Some (ctx : Ctx) (w : World) (g : Game) :
  games w !! author ctx = Some g -> the_game ctx w = Ok g w.
Proof. unfold the_game. by intros ->. Qed.

Lemma the_game_None (ctx : Ctx) (w : World) :
  games w !! author ctx = None -> the_game ctx w = Raise KeyError w.
Proof. unfold the_game. by intros ->. Qed.

Lemma disclose_Some (ctx : Ctx) (w : World) (g : Game) :
  games w !! author ctx = Some g -> disclose ctx w = Ok g (disclosed ctx g w).
Proof. intros H. unfold disclose. by rewrite (bind_Ok _ _ _ _ _ (the_game_Some ctx w g H)). Qed.

Lemma lost_Some (ctx : Ctx) (w : World) (g : Game) :
  games w !! author ctx = Some g ->
  lost ctx w = Ok tt (say (lost_messages g) (disclosed ctx g w)).
Proof.
  intros H. unfold lost. rewrite (bind_Ok _ _ _ _ _ (disclose_Some ctx w g H)).
  unfold lost_messages. rewrite (bind_Ok _ _ _ _ _ (emit_say _ _)).
  destruct (activated_on_server g); [|done]. by rewrite emit_say, say_say.
Qed.

Lemma won_Some (ctx : Ctx) (w : World) (g : Game) :
  games w !! author ctx = Some g ->
  won ctx w = Ok tt (say (won_messages g) (disclosed ctx g w)).
Proof.
  intros H. unfold won. rewrite (bind_Ok _ _ _ _ _ (disclose_Some ctx w g H)).
  unfold won_messages. rewrite (bind_Ok _ _ _ _ _ (emit_say _ _)).
  destruct (activated_on_server g); [|done]. by rewrite emit_say, say_say.
Qed.

Lemma update_boards_Some (ctx : Ctx) (w : World) (g : Game) :
  games w !! author ctx = Some g ->
  update_boards ctx w = Ok tt (say (board_messages g (heap w !!! revealed g)) w).
Proof.
  intros H. unfold update_boards. rewrite (bind_Ok _ _ _ _ _ (the_game_Some ctx w g H)).
  rewrite (bind_Ok _ _ _ _ _ (emit_say _ _)). unfold bind at 1. unfold deref at 1.
  cbn [heap say]. rewrite (bind_Ok _ _ _ _ _ (emit_say _ _)), say_say.
  unfold board_messages. destruct (activated_on_server g); [|done].
  by rewrite emit_say, say_say.
Qed.

Lemma read_in_range (w : World) (l : loc) (g : GameBoard) (p : Z * Z) :
  heap w !! l = Some g -> is_grid10 g = true -> in_range p ->
  read l p.1 p.2 w = Ok (cell_at g p) w.
Proof.
  intros Hl Hg Hp. unfold read. rewrite (lookup_total_Some _ _ _ Hl).
  by rewrite grid_get_in_range.
Qed.

Lemma write_in_range (w : World) (l : loc) (g : GameBoard) (p : Z * Z) (v : cell) :
  heap w !! l = Some g -> is_grid10 g = true -> in_range p ->
  write l p.1 p.2 v w = Ok tt (set_heap (insert l (set_cell g p v)) w).
Proof.
  intros Hl Hg Hp. unfold write. rewrite (lookup_total_Some _ _ _ Hl).
  by rewrite grid_set_in_range.
Qed.

Lemma read_xy (w : World) (l : loc) (g : GameBoard) (x y : Z) :
  heap w !! l = Some g -> is_grid10 g = true -> in_range (x, y) ->
  read l x y w = Ok (cell_at g (x, y)) w.
Proof. apply (read_in_range w l g (x, y)). Qed.

Lemma write_xy (w : World) (l : loc) (g : GameBoard) (x y : Z) (v : cell) :
  heap w !! l = Some g -> is_grid10 g = true -> in_range (x, y) ->
  write l x y v w = Ok tt (set_heap (insert l (set_cell g (x, y) v)) w).
Proof. apply (write_in_range w l g (x, y)). Qed.

Lemma anyM_pure {S A} (l : list A) (test : A -> M S bool) (f : A -> bool) (s : S) :
  (forall a, a ∈ l -> test a s = Ok (f a) s) ->
  anyM l test s = Ok (existsb f l) s.
Proof.
  induction l as [|a l IH]; intros H; [done|].
  simpl. rewrite (bind_Ok _ _ _ _ _ (H a (list_elem_of_here _ _))).
  destruct (f a); [done|]. apply IH. intros a' Ha'. by apply H, list_elem_of_further.
Qed.

Lemma elem_of_all_cells (q : Z * Z) : q ∈ all_cells <-> in_range q.
Proof.
  unfold all_cells, in_range. rewrite list_elem_of_bind. split.
  - intros (x & (y & ->%list_elem_of_singleton
                   & (j & -> & Hj%elem_of_seq)%list_elem_of_fmap)%list_elem_of_bind
                & (i & -> & Hi%elem_of_seq)%list_elem_of_fmap). simpl. lia.
  - intros [Hx Hy]. exists q.1. split.
    + apply list_elem_of_bind. exists q.2. split.
      * destruct q. apply list_elem_of_here.
      * apply list_elem_of_fmap. exists (Z.to_nat q.2). split; [lia|apply elem_of_seq; lia].
    + apply list_elem_of_fmap. exists (Z.to_nat q.1). split; [lia|apply elem_of_seq; lia].
Qed.

(** The generator of [check_if_won] finds nothing exactly when every cell
    that is not a bomb is revealed. *)
Lemma pending_none (r b : GameBoard) :
  existsb (pending r b) all_cells = false <-> all_safe_shown r b.
Proof.
  rewrite <- not_true_iff_false, existsb_exists. unfold all_safe_shown, pending, shown.
  split.
  - intros H p Hp Hb. destruct (negb (cell_eqb (cell_at r p) Hidden || cell_eqb (cell_at r p) Flag))
      eqn:E; [done|]. destruct H. exists p. split.
    + by apply list_elem_of_In, elem_of_all_cells.
    + apply negb_false_iff in E. rewrite E. simpl. apply negb_true_iff. by apply cell_eqb_neq.
  - intros H (p & Hp%list_elem_of_In%elem_of_all_cells & [Hc Hb]%andb_true_iff).
    apply negb_true_iff, cell_eqb_neq in Hb. specialize (H p Hp Hb).
    rewrite Hc in H. done.
Qed.

Lemma check_if_won_in_range (ctx : Ctx) (w : World) (g : Game) (rv bd : loc)
    (r b : GameBoard) :
  games w !! author ctx = Some g ->
  heap w !! rv = Some r -> heap w !! bd = Some b ->
  is_grid10 r = true -> is_grid10 b = true ->
  check_if_won ctx rv bd w =
  if existsb (pending r b) all_cells then Ok false w
  else Ok true (say (won_messages g) (disclosed ctx g w)).
Proof.
  intros Hg Hr Hb Hgr Hgb. unfold check_if_won.
  erewrite bind_Ok.
  2: { apply (anyM_pure all_cells _ (pending r b)). intros [x y] Hq%elem_of_all_cells.
       rewrite (bind_Ok _ _ _ _ _ (read_in_range w rv r (x, y) Hr Hgr Hq)).
       unfold pending. destruct (cell_eqb (cell_at r (x, y)) Hidden || cell_eqb (cell_at r (x, y)) Flag);
         [|done].
       by rewrite (bind_Ok _ _ _ _ _ (read_in_range w bd b (x, y) Hb Hgb Hq)). }
  destruct (existsb (pending r b) all_cells); [done|].
  by rewrite (bind_Ok _ _ _ _ _ (won_Some ctx w g Hg)).
Qed.

Lemma reveal_grid_in_range (fuel : nat) (b r : GameBoard) (p : Z * Z) :
  is_grid10 b = true -> is_grid10 r = true -> in_range p ->
  reveal_grid fuel b p.1 p.2 r =
  if cell_eqb (cell_at b p) (Num 0)
  then fill fuel b p.1 p.2 (set_cell r p (cell_at b p))
  else Ok tt (set_cell r p (cell_at b p)).
Proof.
  intros Hb Hr Hp. unfold reveal_grid.
  rewrite (grid_get_in_range b p Hb Hp). unfold or_raise.
  rewrite (bind_Ok _ _ _ _ _ (eq_refl : ret _ r = Ok _ r)).
  rewrite (bind_Ok _ _ _ _ _ (poke_in_range r p _ Hr Hp)).
  by destruct (cell_eqb (cell_at b p) (Num 0)).
Qed.

Lemma reveal_grid_runs (fuel : nat) (b r : GameBoard) (p : Z * Z) :
  is_grid10 b = true -> is_grid10 r = true -> in_range p ->
  (hidden_count r < fuel)%nat ->
  exists r', reveal_grid fuel b p.1 p.2 r = Ok tt r' /\ is_grid10 r' = true.
Proof.
  intros Hb Hr Hp Hfuel. rewrite reveal_grid_in_range by done.
  pose proof (set_cell_grid10 r p (cell_at b p) Hr) as Hr0.
  destruct (cell_eqb (cell_at b p) (Num 0)) eqn:E0; [|by eexists].
  apply cell_eqb_eq in E0.
  pose proof (hidden_count_set_cell r p (cell_at b p) Hr Hp) as Hcount.
  rewrite E0 in Hcount. simpl in Hcount.
  destruct (fill_runs b fuel (set_cell r p (cell_at b p)) p Hb Hr0 Hp) as (r' & Hrun & Hg & _).
  - rewrite E0. destruct (cell_eqb (cell_at r p) Hidden); lia.
  - by exists r'.
Qed.

(** [reveal_one] on a game in play, in terms of [reveal_grid]. *)
Lemma reveal_one_spec (fuel : nat) (ctx : Ctx) (w : World) (g : Game)
    (r b : GameBoard) (p : Z * Z) :
  playing w ctx g r b -> in_range p -> (hidden_count r < fuel)%nat ->
  exists r',
    reveal_grid fuel b p.1 p.2 r = Ok tt r' /\ is_grid10 r' = true /\
    reveal_one fuel ctx (revealed g) (board g) p.1 p.2 w =
    if cell_eqb (cell_at b p) Bomb
    then Ok true (say (lost_messages g)
                    (disclosed ctx g (set_heap (insert (revealed g) r') w)))
    else if existsb (pending r' b) all_cells
    then Ok false (set_heap (insert (revealed g) r') w)
    else Ok true (say (won_messages g)
                    (disclosed ctx g (set_heap (insert (revealed g) r') w))).
Proof.
  intros (Hg & Hne & Hr & Hb & Hgr & Hbd) Hp Hfuel.
  pose proof (is_board_grid10 b Hbd) as Hgb.
  destruct (reveal_grid_runs fuel b r p Hgb Hgr Hp Hfuel) as (r' & Hrun & Hgr').
  exists r'. split; [done|]. split; [done|].
  rewrite reveal_grid_in_range in Hrun by done.
  unfold reveal_one.
  rewrite (bind_Ok _ _ _ _ _ (read_in_range w (board g) b p Hb Hgb Hp)).
  rewrite (bind_Ok _ _ _ _ _ (write_in_range w (revealed g) r p _ Hr Hgr Hp)).
  set (r0 := set_cell r p (cell_at b p)) in *.
  set (w0 := set_heap (insert (revealed g) r0) w).
  assert (heap w0 !! board g = Some b) as Hb0 by (unfold w0; by rewrite heap_set_heap_ne).
  assert (heap w0 !! revealed g = Some r0) as Hr0 by apply heap_set_heap_eq.
  rewrite (bind_Ok _ _ _ _ _ (read_in_range w0 (board g) b p Hb0 Hgb Hp)).
  destruct (cell_eqb (cell_at b p) Bomb) eqn:Ebomb.
  { apply cell_eqb_eq in Ebomb. rewrite Ebomb in Hrun. simpl in Hrun.
    inversion Hrun; subst r'. by rewrite (bind_Ok _ _ _ _ _ (lost_Some ctx w0 g Hg)). }
  set (w' := set_heap (insert (revealed g) r') w).
  assert ((if cell_eqb (cell_at b p) (Num 0)
           then reveal_zeros fuel (revealed g) (board g) p.1 p.2 else ret tt) w0
          = Ok tt w') as Hfill.
  { destruct (cell_eqb (cell_at b p) (Num 0)).
    - rewrite (reveal_zeros_fill _ _ b Hne fuel p.1 p.2 w0 r0 Hr0 Hb0), Hrun.
      simpl. unfold w0. by rewrite set_heap_twice.
    - inversion Hrun; subst r'. done. }
  rewrite (bind_Ok _ _ _ _ _ Hfill).
  apply (check_if_won_in_range ctx w' g (revealed g) (board g) r' b); try done.
  - apply heap_set_heap_eq.
  - unfold w'. by rewrite heap_set_heap_ne.
Qed.

(** What [reveal_grid] changes. *)
Lemma expands_after_reveal (r b : GameBoard) (s e : Z * Z) (v : cell) :
  is_grid10 r = true -> in_range s ->
  expands r b s e -> expands (set_cell r s v) b s e.
Proof.
  intros Hr Hs. induction 1 as [|p q Hp IH Hn Hh H0]; [constructor|].
  destruct (decide (s = q)) as [<-|Hne]; [constructor|].
  apply (expands_next _ b s p q); try done.
  rewrite cell_at_set_cell_ne; try done.
  apply (neighbour_in_range p); [|done]. by apply (expands_in_range r b s).
Qed.

Lemma reveal_grid_exact (fuel : nat) (b r r' : GameBoard) (s : Z * Z) :
  is_board b = true -> is_grid10 r = true -> in_range s ->
  cell_at b s = Num 0 ->
  reveal_grid fuel b s.1 s.2 r = Ok tt r' ->
  forall q, in_range q ->
    (q = s \/ (cell_at r q = Hidden /\ reached r b s q) -> cell_at r' q = cell_at b q) /\
    (~ (q = s \/ (cell_at r q = Hidden /\ reached r b s q)) -> cell_at r' q = cell_at r q).
Proof.
  intros Hb Hr Hs H0 Hrun q Hq.
  rewrite reveal_grid_in_range in Hrun by (done || by apply is_board_grid10).
  rewrite H0 in Hrun. simpl in Hrun.
  set (r0 := set_cell r s (Num 0)) in *.
  assert (is_grid10 r0 = true) as Hr0 by (by apply set_cell_grid10).
  destruct (fill_exact b Hb fuel r0 s r' Hr0 Hs Hrun) as (_ & Hu & _ & _ & Hex).
  destruct (Hex q Hq) as [Hin Hout].
  assert (cell_at r0 s = Num 0) as Hs0 by (by apply cell_at_set_cell_eq).
  split.
  - intros [->|[Hh (e & He & Hn)]].
    + rewrite (uncovers_kept b r0 r' s); [congruence|done|done|congruence].
    + destruct (decide (s = q)) as [<-|Hne].
      * rewrite (uncovers_kept b r0 r' s); [congruence|done|done|congruence].
      * apply Hin.
        -- unfold r0. by rewrite cell_at_set_cell_ne.
        -- exists e. split; [|done]. by apply expands_after_reveal.
  - intros Hnot. destruct (decide (s = q)) as [<-|Hne]; [destruct Hnot; by left|].
    rewrite Hout; [unfold r0; by rewrite cell_at_set_cell_ne|].
    intros [Hh (e & He & Hn)]. destruct Hnot. right.
    unfold r0 in Hh. rewrite cell_at_set_cell_ne in Hh by done.
    split; [done|]. exists e. split; [|done].
    apply (expands_mono r r0 b); [|done|done].
    intros q' Hq' Hh'.
    destruct (decide (s = q')) as [<-|Hne']; [congruence|].
    unfold r0 in Hh'. by rewrite cell_at_set_cell_ne in Hh'.
Qed.

(** Whatever the value, [reveal_grid] gives the cell named its value and
    the other cells either stay or go from Hidden to their value. *)
Lemma reveal_grid_uncovers (fuel : nat) (b r r' : GameBoard) (p : Z * Z) :
  is_board b = true -> is_grid10 r = true -> in_range p ->
  reveal_grid fuel b p.1 p.2 r = Ok tt r' ->
  is_grid10 r' = true /\ cell_at r' p = cell_at b p /\
  uncovers b (set_cell r p (cell_at b p)) r' /\
  (cell_at b p <> Num 0 -> r' = set_cell r p (cell_at b p)) /\
  (cell_at b p = Num 0 ->
     opened b (set_cell r p (cell_at b p)) r' /\
     forall n, neighbour p n -> cell_at r' n <> Hidden).
Proof.
  intros Hb Hr Hp Hrun.
  rewrite reveal_grid_in_range in Hrun by (done || by apply is_board_grid10).
  set (r0 := set_cell r p (cell_at b p)) in *.
  assert (is_grid10 r0 = true) as Hr0 by (by apply set_cell_grid10).
  assert (cell_at r0 p = cell_at b p) as Hp0 by (by apply cell_at_set_cell_eq).
  destruct (cell_eqb (cell_at b p) (Num 0)) eqn:E0.
  - destruct (fill_exact b Hb fuel r0 p r' Hr0 Hp Hrun) as (Hg & Hu & Ho & Hn & _).
    split; [done|]. split; [|split; [done|split]].
    + rewrite (uncovers_kept b r0 r' p); try done.
      rewrite Hp0. by apply is_value_not_hidden, is_board_value.
    + apply cell_eqb_eq in E0. congruence.
    + by intros _.
  - inversion Hrun; subst r'. split; [done|]. split; [done|].
    split; [apply uncovers_refl|]. split; [done|].
    apply cell_eqb_neq in E0. intros E. by destruct E0.
Qed.

Lemma playing_heap_after (w : World) (ctx : Ctx) (g : Game) (r' : GameBoard)
    (es : list event) :
  heap (say es (disclosed ctx g (set_heap (insert (revealed g) r') w))) !! revealed g
  = Some r'.
Proof. simpl. apply lookup_insert_eq. Qed.

(** ** The win condition *)

(** C3 (amended).  After a reveal step on a game in play, flood fill
    included: when the cell named is a Bomb the step ends the game as
    Lost, whatever the other cells show; when it is not, the step ends
    the game, as Won, exactly when every cell that is not a Bomb is
    Revealed, and otherwise the game goes on and nothing is said.  Hidden
    or flagged bombs do not prevent the win. *)
Theorem reveal_one_outcome (fuel : nat) (ctx : Ctx) (w : World) (g : Game)
    (r b : GameBoard) (x y : Z) :
  playing w ctx g r b -> in_range (x, y) -> (hidden_count r < fuel)%nat ->
  exists ended w' r',
    reveal_one fuel ctx (revealed g) (board g) x y w = Ok ended w' /\
    heap w' !! revealed g = Some r' /\
    (cell_at b (x, y) = Bomb ->
       ended = true /\ outbox w' = outbox w ++ lost_messages g) /\
    (cell_at b (x, y) <> Bomb ->
       (ended = true <-> all_safe_shown r' b) /\
       (ended = true -> outbox w' = outbox w ++ won_messages g) /\
       (ended = false -> outbox w' = outbox w /\ games w' = games w)).
Proof.
  intros Hplay Hp Hfuel.
  destruct (reveal_one_spec fuel ctx w g r b (x, y) Hplay Hp Hfuel) as (r' & _ & _ & Hrun).
  cbn [fst snd] in Hrun. rewrite Hrun. clear Hrun.
  destruct (cell_eqb (cell_at b (x, y)) Bomb) eqn:Ebomb.
  - apply cell_eqb_eq in Ebomb. eexists _, _, r'. split; [reflexivity|].
    split; [apply playing_heap_after|]. split; [done|]. intros Hn. by destruct Hn.
  - apply cell_eqb_neq in Ebomb.
    destruct (existsb (pending r' b) all_cells) eqn:Epend.
    + eexists _, _, r'. split; [reflexivity|]. split; [apply heap_set_heap_eq|].
      split; [intros E; by destruct Ebomb|]. intros _. split; [|split; [done|done]].
      split; [done|]. intros Hall%pending_none. congruence.
    + eexists _, _, r'. split; [reflexivity|]. split; [apply playing_heap_after|].
      split; [intros E; by destruct Ebomb|]. intros _. split; [|split; [done|done]].
      split; [intros _; by apply pending_none|done].
Qed.

(** C3 as stated does not hold: on the board of bombs only that
    [start_command] generates with bomb chance 1, every cell that is not a
    Bomb is Revealed (there is none) after the reveal of (0, 0), and the
    game is Lost, not Won. *)
Lemma all_bombs_lost_not_won :
  start_command player 1 (initial (fun _ => 1#2)%Q) =
    Ok tt (say [SendDm HowToPlay; SendDm (BoardView hidden_board)]
             (mkWorld (heap (world_of bomb_board hidden_board (fun _ => 1#2)%Q)) 2%nat
                      (games (world_of bomb_board hidden_board (fun _ => 1#2)%Q))
                      (fun _ => 1#2)%Q 100%nat [])) /\
  exists w' r',
    reveal_one 101 player 1%nat 0%nat 0 0 (world_of bomb_board hidden_board (fun _ => 1#2)%Q)
      = Ok true w' /\
    heap w' !! 1%nat = Some r' /\
    all_safe_shown r' bomb_board /\
    outbox w' = [SendDm YouLost].
Proof.
  split; [vm_compute; reflexivity|].
  eexists _, _. split; [vm_compute; reflexivity|].
  split; [vm_compute; reflexivity|]. split; [|reflexivity].
  apply pending_none. vm_compute. reflexivity.
Qed.

Lemma reveal_one_outcome_witness :
  playing (world_of one_bomb_board hidden_board one_bomb_draws) player
          (mkGame 0%nat 1%nat false) hidden_board one_bomb_board /\
  in_range (0, 0) /\ (hidden_count hidden_board < 101)%nat /\
  exists ended w' r',
    reveal_one 101 player 1%nat 0%nat 0 0
      (world_of one_bomb_board hidden_board one_bomb_draws) = Ok ended w' /\
    heap w' !! 1%nat = Some r' /\
    (cell_at one_bomb_board (0, 0) = Bomb ->
       ended = true /\ outbox w' = [] ++ lost_messages (mkGame 0%nat 1%nat false)) /\
    (cell_at one_bomb_board (0, 0) <> Bomb ->
       (ended = true <-> all_safe_shown r' one_bomb_board) /\
       (ended = true -> outbox w' = [] ++ won_messages (mkGame 0%nat 1%nat false)) /\
       (ended = false ->
          outbox w' = [] /\
          games w' = games (world_of one_bomb_board hidden_board one_bomb_draws))).
Proof.
  assert (playing (world_of one_bomb_board hidden_board one_bomb_draws) player
                  (mkGame 0%nat 1%nat false) hidden_board one_bomb_board) as Hplay.
  { repeat split; try (vm_compute; reflexivity). discriminate. }
  assert (in_range (0, 0)) as Hp by (unfold in_range; simpl; lia).
  assert (hidden_count hidden_board < 101)%nat as Hfuel by (vm_compute; lia).
  split; [exact Hplay|]. split; [exact Hp|]. split; [exact Hfuel|].
  exact (reveal_one_outcome 101 player _ _ _ _ 0 0 Hplay Hp Hfuel).
Defined.

(** ** The flood fill *)

(** C4 (amended).  On a game in play, the reveal of a cell of value 0
    gives their board value to that cell and to exactly the Hidden cells
    that are neighbours of a cell the fill recurses into, and changes no
    other cell.  The fill recurses into the cell named and into the
    Hidden cells of value 0 next to a cell it recurses into: a cell of
    another value is revealed and not recursed into, and a cell that is
    Flagged or already Revealed is neither modified nor recursed into, so
    that flags and already revealed cells both stop the fill. *)
Theorem flood_fill_exact (fuel : nat) (ctx : Ctx) (w : World) (g : Game)
    (r b : GameBoard) (x y : Z) :
  playing w ctx g r b -> in_range (x, y) -> (hidden_count r < fuel)%nat ->
  cell_at b (x, y) = Num 0 ->
  exists ended w' r',
    reveal_one fuel ctx (revealed g) (board g) x y w = Ok ended w' /\
    heap w' !! revealed g = Some r' /\ heap w' !! board g = Some b /\
    forall q, in_range q ->
      (q = (x, y) \/ (cell_at r q = Hidden /\ reached r b (x, y) q) ->
         cell_at r' q = cell_at b q) /\
      (~ (q = (x, y) \/ (cell_at r q = Hidden /\ reached r b (x, y) q)) ->
         cell_at r' q = cell_at r q).
Proof.
  intros Hplay Hp Hfuel H0.
  destruct (reveal_one_spec fuel ctx w g r b (x, y) Hplay Hp Hfuel) as (r' & Hgrid & _ & Hrun).
  destruct Hplay as (Hg & Hne & Hr & Hb & Hgr & Hbd).
  cbn [fst snd] in Hrun. rewrite Hrun. clear Hrun.
  assert (forall q, in_range q ->
      (q = (x, y) \/ (cell_at r q = Hidden /\ reached r b (x, y) q) ->
         cell_at r' q = cell_at b q) /\
      (~ (q = (x, y) \/ (cell_at r q = Hidden /\ reached r b (x, y) q)) ->
         cell_at r' q = cell_at r q)) as Hex
    by (by apply (reveal_grid_exact fuel b r r' (x, y))).
  assert (forall w0 : World,
            heap w0 = <[revealed g := r']> (heap w) ->
            heap w0 !! revealed g = Some r' /\ heap w0 !! board g = Some b) as Hheap.
  { intros w0 ->. split; [apply lookup_insert_eq|by rewrite lookup_insert_ne]. }
  assert (cell_eqb (cell_at b (x, y)) Bomb = false) as -> by (by rewrite H0).
  destruct (existsb (pending r' b) all_cells).
  - eexists _, _, r'. split; [reflexivity|].
    destruct (Hheap (set_heap (insert (revealed g) r') w) eq_refl) as [H1 H2].
    split; [exact H1|]. split; [exact H2|exact Hex].
  - eexists _, _, r'. split; [reflexivity|].
    destruct (Hheap (say (won_messages g)
                (disclosed ctx g (set_heap (insert (revealed g) r') w))) eq_refl) as [H1 H2].
    split; [exact H1|]. split; [exact H2|exact Hex].
Qed.

Lemma flood_fill_exact_witness :
  playing (world_of zero_board walled_grid (fun _ => 1%Q)) player
          (mkGame 0%nat 1%nat false) walled_grid zero_board /\
  in_range (0, 0) /\ (hidden_count walled_grid < 101)%nat /\
  cell_at zero_board (0, 0) = Num 0 /\
  exists ended w' r',
    reveal_one 101 player 1%nat 0%nat 0 0
      (world_of zero_board walled_grid (fun _ => 1%Q)) = Ok ended w' /\
    heap w' !! 1%nat = Some r' /\ heap w' !! 0%nat = Some zero_board /\
    forall q, in_range q ->
      (q = (0, 0) \/ (cell_at walled_grid q = Hidden /\
                       reached walled_grid zero_board (0, 0) q) ->
         cell_at r' q = cell_at zero_board q) /\
      (~ (q = (0, 0) \/ (cell_at walled_grid q = Hidden /\
                          reached walled_grid zero_board (0, 0) q)) ->
         cell_at r' q = cell_at walled_grid q).
Proof.
  assert (playing (world_of zero_board walled_grid (fun _ => 1%Q)) player
                  (mkGame 0%nat 1%nat false) walled_grid zero_board) as Hplay.
  { repeat split; try (vm_compute; reflexivity). discriminate. }
  assert (in_range (0, 0)) as Hp by (unfold in_range; simpl; lia).
  assert (hidden_count walled_grid < 101)%nat as Hfuel by (vm_compute; lia).
  assert (cell_at zero_board (0, 0) = Num 0) as H0 by reflexivity.
  split; [exact Hplay|]. split; [exact Hp|]. split; [exact Hfuel|]. split; [exact H0|].
  exact (flood_fill_exact 101 player _ _ _ _ 0 0 Hplay Hp Hfuel H0).
Defined.

(** C4 as stated does not hold: on a board of zeros with column 1
    already revealed, the Hidden cell (2, 0) is next to (1, 0), which a
    chain of unflagged cells of value 0 joins to (0, 0); the reveal of
    (0, 0) leaves (2, 0) Hidden, because the fill does not pass through
    the revealed cell (1, 0). *)
Lemma fill_stops_at_revealed_zero :
  chain_reached walled_grid zero_board (0, 0) (2, 0) /\
  cell_at walled_grid (2, 0) = Hidden /\
  exists ended w' r',
    reveal_one 101 player 1%nat 0%nat 0 0
      (world_of zero_board walled_grid (fun _ => 1%Q)) = Ok ended w' /\
    heap w' !! 1%nat = Some r' /\
    cell_at r' (2, 0) = Hidden /\
    cell_at zero_board (2, 0) = Num 0.
Proof.
  split; [|split; [reflexivity|]].
  - exists (1, 0). split.
    + apply (zero_chain_next _ _ _ (0, 0) (1, 0)); [constructor| |reflexivity|discriminate].
      apply get_neighbours_spec. simpl. lia.
    + apply get_neighbours_spec. simpl. lia.
  - eexists _, _, _. split; [vm_compute; reflexivity|].
    split; [vm_compute; reflexivity|]. split; reflexivity.
Qed.

(** On a grid as a game leaves it, where every revealed cell shows its
    board value and no revealed cell of value 0 has a Hidden neighbour, a
    chain of unflagged cells of value 0 reaches no more Hidden cells than
    the fill does: there the revealed cells stop nothing. *)
Lemma zero_chain_expands (r b : GameBoard) (s e : Z * Z) :
  faithful r b -> zeros_opened r b -> in_range s ->
  zero_chain r b s e ->
  in_range e /\
  (expands r b s e \/ forall n, neighbour e n -> cell_at r n <> Hidden).
Proof.
  intros Hf Hz Hs. induction 1 as [|p q _ [Hp IH] Hn H0 Hflag].
  { split; [done|left; constructor]. }
  assert (in_range q) as Hq by (by apply (neighbour_in_range p)).
  split; [done|].
  assert (cell_at r q <> Hidden -> forall n, neighbour q n -> cell_at r n <> Hidden)
    as Hopen.
  { intros Hnh n Hqn. apply (Hz q n Hq); try done.
    rewrite (Hf q Hq); [done|].
    unfold shown. apply negb_true_iff, orb_false_iff.
    split; by apply cell_eqb_neq. }
  destruct IH as [He|Hclosed].
  - destruct (decide (cell_at r q = Hidden)) as [Hh|Hnh].
    + left. by apply (expands_next r b s p q).
    + right. by apply Hopen.
  - right. apply Hopen. by apply Hclosed.
Qed.

Lemma chain_reached_reached (r b : GameBoard) (s q : Z * Z) :
  faithful r b -> zeros_opened r b -> in_range s ->
  chain_reached r b s q -> cell_at r q = Hidden -> reached r b s q.
Proof.
  intros Hf Hz Hs (p & Hchain & Hn) Hh.
  destruct (zero_chain_expands r b s p Hf Hz Hs Hchain) as [_ [He|Hclosed]].
  - by exists p.
  - by destruct (Hclosed q Hn).
Qed.

(** Both properties hold of the grid a game starts with, and a reveal
    and a flag keep them. *)
Lemma hidden_board_opened (b : GameBoard) :
  faithful hidden_board b /\ zeros_opened hidden_board b.
Proof.
  assert (forall p, in_range p -> cell_at hidden_board p = Hidden) as Hh.
  { intros p Hp. pose proof (grid_get_in_range hidden_board p eq_refl Hp) as Hget.
    apply grid_get_Some in Hget as (i & j & row & _ & Hr & _ & Hc).
    apply list_elem_of_lookup_2, elem_of_replicate in Hr as [-> _].
    by apply list_elem_of_lookup_2, elem_of_replicate in Hc as [-> _]. }
  split.
  - intros p Hp. by rewrite (Hh p Hp).
  - intros p q Hp. by rewrite (Hh p Hp).
Qed.

Lemma reveal_grid_keeps_opened (fuel : nat) (b r r' : GameBoard) (c : Z * Z) :
  is_board b = true -> is_grid10 r = true -> in_range c ->
  faithful r b -> zeros_opened r b ->
  reveal_grid fuel b c.1 c.2 r = Ok tt r' ->
  faithful r' b /\ zeros_opened r' b.
Proof.
  intros Hb Hr Hc Hf Hz Hrun.
  destruct (reveal_grid_uncovers fuel b r r' c Hb Hr Hc Hrun) as (Hg & Hc' & Hu & Hnz & Hzero).
  set (r0 := set_cell r c (cell_at b c)) in *.
  assert (forall q, in_range q -> c <> q -> cell_at r0 q = cell_at r q) as Hother
    by (intros q Hq Hne; by apply cell_at_set_cell_ne).
  assert (forall q, in_range q -> cell_at r q <> Hidden -> cell_at r' q <> Hidden) as Hmono.
  { intros q Hq Hnh. destruct (decide (c = q)) as [<-|Hne].
    - rewrite Hc'. by apply is_value_not_hidden, is_board_value.
    - rewrite (uncovers_kept b r0 r' q); rewrite ?Hother; done. }
  split.
  - intros q Hq Hs. destruct (Hu q Hq) as [E|[_ E]]; [|done].
    destruct (decide (c = q)) as [<-|Hne]; [done|].
    rewrite E, Hother by done. apply Hf; [done|]. by rewrite <- Hother, <- E.
  - intros p q Hp Hp0 Hb0 Hn.
    assert (in_range q) as Hq by (by apply (neighbour_in_range p)).
    destruct (decide (c = p)) as [<-|Hne].
    { destruct (Hzero Hb0) as [_ Hnb]. by apply Hnb. }
    destruct (Hu p Hp) as [E|[Eh E]].
    + apply Hmono; [done|]. apply (Hz p q Hp); try done.
      by rewrite <- Hother, <- E.
    + destruct (decide (cell_at b c = Num 0)) as [Ec|Ec].
      * destruct (Hzero Ec) as [Ho _]. apply (Ho p Hp); try done. congruence.
      * rewrite (Hnz Ec) in Hp0. fold r0 in Hp0. congruence.
Qed.

Lemma flag_keeps_opened (b r r' : GameBoard) (named : list (Z * Z)) :
  (forall q, in_range q -> flag_change named q (cell_at r q) (cell_at r' q)) ->
  faithful r b -> zeros_opened r b ->
  faithful r' b /\ zeros_opened r' b.
Proof.
  intros Hch Hf Hz. split.
  - intros q Hq Hs. destruct (Hch q Hq) as [E|(_ & E & _)].
    + rewrite E in *. by apply Hf.
    + by rewrite E in Hs.
  - intros p q Hp Hp0 Hb0 Hn.
    assert (in_range q) as Hq by (by apply (neighbour_in_range p)).
    destruct (Hch p Hp) as [Ep|(_ & Ep & _)]; [|congruence].
    destruct (Hch q Hq) as [Eq|(_ & Eq & _)]; [|congruence].
    rewrite Eq. apply (Hz p q Hp); congruence.
Qed.

(** ** What a run leaves unchanged *)

Lemma post_bind {S A B} (m : M S A) (k : A -> M S B) (s : S)
    (Q1 : A -> S -> Prop) (Q : B -> S -> Prop) (E : S -> Prop) :
  post (m s) Q1 E ->
  (forall a s1, Q1 a s1 -> post (k a s1) Q E) ->
  post (bind m k s) Q E.
Proof. unfold bind. destruct (m s) as [a s1|e s1|]; simpl; auto. Qed.

Lemma post_weaken {S A} (o : outcome S A) (Q Q' : A -> S -> Prop) (E E' : S -> Prop) :
  post o Q E -> (forall a s, Q a s -> Q' a s) -> (forall s, E s -> E' s) ->
  post o Q' E'.
Proof. destruct o; simpl; auto. Qed.

Section Keeps.
Context {S : Type} (R : S -> S -> Prop) `{!PreOrder R}.

Lemma keeps_ret {A} (a : A) : keeps R (ret a).
Proof. intros s. simpl. reflexivity. Qed.

Lemma keeps_raise {A} (e : exn) : keeps R (raise (A := A) e).
Proof. intros s. simpl. reflexivity. Qed.

Lemma keeps_or_raise {A} (e : exn) (o : option A) : keeps R (or_raise e o).
Proof. destruct o; [apply keeps_ret|apply keeps_raise]. Qed.

Lemma keeps_get_state : keeps R get_state.
Proof. intros s. simpl. reflexivity. Qed.

Lemma keeps_bind {A B} (m : M S A) (k : A -> M S B) :
  keeps R m -> (forall a, keeps R (k a)) -> keeps R (bind m k).
Proof.
  intros Hm Hk s. specialize (Hm s). unfold bind.
  destruct (m s) as [a s1|e s1|]; simpl in *; [|done..].
  specialize (Hk a s1). destruct (k a s1); simpl in *; [etrans; eauto..|done].
Qed.

(** A run from a state that [R] relates to [s0]. *)
Lemma keeps_from {A} (m : M S A) (s0 s : S) :
  keeps R m -> R s0 s -> post (m s) (fun _ s' => R s0 s') (R s0).
Proof.
  intros Hm H0. specialize (Hm s). destruct (m s); simpl in *; [etrans; eauto..|done].
Qed.

Lemma keeps_for_each {A} (l : list A) (body : A -> M S unit) :
  (forall a, keeps R (body a)) -> keeps R (for_each l body).
Proof.
  intros Hb. induction l as [|a l IH]; [apply keeps_ret|].
  simpl. apply keeps_bind; [apply Hb|]. intros _. exact IH.
Qed.

Lemma keeps_anyM {A} (l : list A) (test : A -> M S bool) :
  (forall a, keeps R (test a)) -> keeps R (anyM l test).
Proof.
  intros Ht. induction l as [|a l IH]; [apply keeps_ret|].
  simpl. apply keeps_bind; [apply Ht|]. intros [|]; [apply keeps_ret|exact IH].
Qed.

Lemma keeps_repeatM {A} (n : nat) (m : M S A) : keeps R m -> keeps R (repeatM n m).
Proof.
  intros Hm. induction n as [|n IH]; [apply keeps_ret|].
  simpl. apply keeps_bind; [done|]. intros a.
  apply keeps_bind; [done|]. intros l. apply keeps_ret.
Qed.
End Keeps.

#[local] Instance frame_preorder (l : loc) : PreOrder (frame l).
Proof.
  split.
  - intros w. by repeat split.
  - intros w1 w2 w3 (N1 & D1 & C1 & H1) (N2 & D2 & C2 & H2).
    repeat split; try congruence. intros l' Hl'. rewrite H2, H1; done.
Qed.

#[local] Instance only_grid_preorder (l : loc) : PreOrder (only_grid l).
Proof.
  split.
  - intros w. split; reflexivity.
  - intros w1 w2 w3 [F1 G1] [F2 G2]. split; [by etrans|congruence].
Qed.

#[local] Instance only_cursor_preorder : PreOrder only_cursor.
Proof.
  split.
  - intros w. by repeat split.
  - intros w1 w2 w3 (A1 & B1 & C1 & D1 & E1) (A2 & B2 & C2 & D2 & E2).
    repeat split; congruence.
Qed.

Lemma only_grid_frame (l : loc) (w w' : World) : only_grid l w w' -> frame l w w'.
Proof. by intros [? _]. Qed.

Lemma keeps_read (l l' : loc) (x y : Z) : keeps (only_grid l) (read l' x y).
Proof. intros w. unfold read. apply (keeps_or_raise (only_grid l)). Qed.

Lemma keeps_write (l : loc) (x y : Z) (v : cell) : keeps (only_grid l) (write l x y v).
Proof.
  intros w. unfold write. destruct (grid_set _ x y v) as [g'|]; simpl; [|reflexivity].
  repeat split. intros l' Hl'. simpl. by rewrite lookup_insert_ne.
Qed.

Lemma keeps_emit (l : loc) (e : event) : keeps (only_grid l) (emit e).
Proof. intros w. simpl. by repeat split. Qed.

Lemma keeps_deref (l l' : loc) : keeps (only_grid l) (deref l').
Proof. intros w. simpl. reflexivity. Qed.

Lemma keeps_the_game (l : loc) (ctx : Ctx) : keeps (only_grid l) (the_game ctx).
Proof. intros w. unfold the_game. apply (keeps_or_raise (only_grid l)). Qed.

Lemma keeps_update_boards (l : loc) (ctx : Ctx) : keeps (only_grid l) (update_boards ctx).
Proof.
  unfold update_boards. apply keeps_bind; [apply _|apply keeps_the_game|]. intros g.
  apply keeps_bind; [apply _|apply keeps_emit|]. intros _.
  apply keeps_bind; [apply _|apply keeps_deref|]. intros shown.
  apply keeps_bind; [apply _|apply keeps_emit|]. intros _.
  destruct (activated_on_server g); [apply keeps_emit|apply keeps_ret; apply _].
Qed.

Lemma keeps_reveal_zeros (fuel : nat) (rv bd : loc) (x y : Z) :
  keeps (only_grid rv) (reveal_zeros fuel rv bd x y).
Proof.
  revert x y. induction fuel as [|n IH]; intros x y; [by intros w|].
  simpl. apply keeps_for_each; [apply _|]. intros [x_ y_]. unfold reveal_neighbour.
  apply keeps_bind; [apply _|apply keeps_read|]. intros c.
  destruct (negb (cell_eqb c Hidden)); [apply keeps_ret; apply _|].
  apply keeps_bind; [apply _|apply keeps_read|]. intros v.
  apply keeps_bind; [apply _|apply keeps_write|]. intros _.
  apply keeps_bind; [apply _|apply keeps_read|]. intros v'.
  destruct (cell_eqb v' (Num 0)); [apply IH|apply keeps_ret; apply _].
Qed.

Lemma del_game_Some (ctx : Ctx) (w : World) (g : Game) :
  games w !! author ctx = Some g ->
  del_game ctx w = Ok tt (set_games (delete (author ctx)) w).
Proof. intros H. unfold del_game. by rewrite (bind_Ok _ _ _ _ _ (the_game_Some ctx w g H)). Qed.

Lemma frame_say_disclosed (l : loc) (ctx : Ctx) (g : Game) (es : list event)
    (w0 w : World) :
  frame l w0 w -> frame l w0 (say es (disclosed ctx g w)).
Proof. intros (N & D & C & H). by repeat split. Qed.

(** [lost] and [won]: the record of the player is disclosed, or there is
    none and nothing changed. *)
Lemma lost_post (ctx : Ctx) (w : World) :
  post (lost ctx w)
    (fun _ w' => exists g, games w !! author ctx = Some g /\
                   w' = say (lost_messages g) (disclosed ctx g w))
    (fun w' => w' = w).
Proof.
  destruct (games w !! author ctx) as [g|] eqn:E.
  - rewrite (lost_Some ctx w g E). simpl. by exists g.
  - unfold lost, disclose. by rewrite (bind_Raise _ _ _ _ _ (bind_Raise _ _ _ _ _ (the_game_None ctx w E))).
Qed.

Lemma won_post (ctx : Ctx) (w : World) :
  post (won ctx w)
    (fun _ w' => exists g, games w !! author ctx = Some g /\
                   w' = say (won_messages g) (disclosed ctx g w))
    (fun w' => w' = w).
Proof.
  destruct (games w !! author ctx) as [g|] eqn:E.
  - rewrite (won_Some ctx w g E). simpl. by exists g.
  - unfold won, disclose. by rewrite (bind_Raise _ _ _ _ _ (bind_Raise _ _ _ _ _ (the_game_None ctx w E))).
Qed.

Lemma keeps_check_reads (rv bd : loc) :
  keeps (only_grid rv)
    (anyM all_cells (fun '(x, y) =>
       let! r := read rv x y in
       if cell_eqb r Hidden || cell_eqb r Flag then
         let! b := read bd x y in
         ret (negb (cell_eqb b Bomb))
       else ret false)).
Proof.
  apply keeps_anyM; [apply _|]. intros [x y].
  apply keeps_bind; [apply _|apply keeps_read|]. intros c.
  destruct (cell_eqb c Hidden || cell_eqb c Flag); [|apply keeps_ret; apply _].
  apply keeps_bind; [apply _|apply keeps_read|]. intros v. apply keeps_ret; apply _.
Qed.

(** What [reveal_one] can change, whatever the grids and the cell: the
    grid behind [revealed], and the record of the player when the step
    ends the game. *)
Lemma reveal_one_post (fuel : nat) (ctx : Ctx) (rv bd : loc) (x y : Z) (w : World) :
  post (reveal_one fuel ctx rv bd x y w)
    (fun ended w' => frame rv w w' /\ ended_as ctx w ended w')
    (only_grid rv w).
Proof.
  unfold reveal_one.
  apply (post_bind _ _ _ (fun _ w1 => only_grid rv w w1)); [apply keeps_read|].
  intros v w1 H1.
  apply (post_bind _ _ _ (fun _ w2 => only_grid rv w w2));
    [by apply (keeps_from (only_grid rv) _ w w1 (keeps_write rv x y v))|].
  intros _ w2 H2.
  apply (post_bind _ _ _ (fun _ w3 => only_grid rv w w3));
    [by apply (keeps_from (only_grid rv) _ w w2 (keeps_read rv bd x y))|].
  intros b w3 H3.
  destruct (cell_eqb b Bomb).
  - apply (post_bind _ _ _ (fun _ w' => exists g, games w3 !! author ctx = Some g /\
                              w' = say (lost_messages g) (disclosed ctx g w3))).
    + apply (post_weaken _ _ _ _ _ (lost_post ctx w3)); [done|]. by intros w' ->.
    + intros _ w' (g & Hg & ->). simpl. destruct H3 as [F3 G3]. split.
      * by apply frame_say_disclosed.
      * exists g. rewrite <- G3. by split.
  - apply (post_bind _ _ _ (fun _ w4 => only_grid rv w w4)).
    { apply (keeps_from (only_grid rv) _ w w3); [|done].
      destruct (cell_eqb b (Num 0)); [apply keeps_reveal_zeros|apply keeps_ret; apply _]. }
    intros _ w4 H4. unfold check_if_won.
    apply (post_bind _ _ _ (fun _ w5 => only_grid rv w w5));
      [by apply (keeps_from (only_grid rv) _ w w4 (keeps_check_reads rv bd))|].
    intros pend w5 H5. destruct pend.
    + simpl. destruct H5 as [F5 G5]. by split.
    + apply (post_bind _ _ _ (fun _ w' => exists g, games w5 !! author ctx = Some g /\
                                w' = say (won_messages g) (disclosed ctx g w5))).
      * apply (post_weaken _ _ _ _ _ (won_post ctx w5)); [done|]. by intros w' ->.
      * intros _ w' (g & Hg & ->). simpl. destruct H5 as [F5 G5]. split.
        -- by apply frame_say_disclosed.
        -- exists g. rewrite <- G5. by split.
Qed.

(** The loop of [reveal_command]: it writes only to the grid behind
    [revealed], and it leaves the store as it was or without the record of
    the player. *)
Lemma reveal_loop_post (fuel : nat) (ctx : Ctx) (rv bd : loc)
    (coordinates : list (Z * Z)) (w : World) :
  post (reveal_loop fuel ctx rv bd coordinates w)
    (fun _ w' => frame rv w w' /\
                 (games w' = games w \/ games w' = delete (author ctx) (games w)))
    (only_grid rv w).
Proof.
  assert (forall w1, only_grid rv w w1 ->
            post (update_boards ctx w1)
              (fun _ w' => frame rv w w' /\
                 (games w' = games w \/ games w' = delete (author ctx) (games w)))
              (only_grid rv w)) as Hupdate.
  { intros w1 H1.
    apply (post_weaken _ _ _ _ _ (keeps_from (only_grid rv) _ w w1 (keeps_update_boards rv ctx) H1));
      [|done]. intros _ w' [F G]. split; [done|by left]. }
  revert w Hupdate. induction coordinates as [|[x y] rest IH]; intros w Hupdate.
  { apply Hupdate. reflexivity. }
  cbn [reveal_loop].
  apply (post_bind _ _ _ _ _ _ (reveal_one_post fuel ctx rv bd x y w)).
  intros ended w1 [F1 E1]. destruct ended; simpl in E1.
  - destruct E1 as (g & Hg & G1).
    assert (games w1 !! author ctx
            = Some (mkGame (board g) (board g) (activated_on_server g))) as Hg1
      by (rewrite G1; apply lookup_insert_eq).
    rewrite (bind_Ok _ _ _ _ _ (update_boards_Some ctx w1 _ Hg1)).
    rewrite (del_game_Some ctx (say _ w1) _ Hg1). simpl.
    destruct F1 as (N & D & C & H). repeat split; try done.
    right. rewrite G1. apply delete_insert_eq.
  - assert (only_grid rv w w1) as H1 by done.
    assert (post (reveal_loop fuel ctx rv bd rest w1)
              (fun _ w' => frame rv w1 w' /\
                 (games w' = games w1 \/ games w' = delete (author ctx) (games w1)))
              (only_grid rv w1)) as Hrest.
    { apply IH. intros w2 H2.
      apply (post_weaken _ _ _ _ _ (keeps_from (only_grid rv) _ w1 w2 (keeps_update_boards rv ctx) H2));
        [|done]. intros _ w' [F G]. split; [done|by left]. }
    apply (post_weaken _ _ _ _ _ Hrest).
    + intros _ w' [F G]. split; [by etrans|]. by rewrite <- E1.
    + intros w' H'. by etrans.
Qed.

(** ** The board of a game is never written to *)

Lemma step_ok_refl (w : World) : step_ok w w.
Proof. split; [lia|]. split; [by left|done]. Qed.

Lemma frame_step_ok (w w' : World) (ctx : Ctx) (g : Game) :
  games w !! author ctx = Some g -> frame (revealed g) w w' ->
  games w' = games w \/ games w' = delete (author ctx) (games w) ->
  step_ok w w'.
Proof.
  intros Hg (N & D & C & H) Hgames. split; [|split].
  - lia.
  - intros i g' Hi. left. destruct Hgames as [Hsame|Hdel].
    + by rewrite <- Hsame.
    + rewrite Hdel in Hi. by apply lookup_delete_Some in Hi as [_ ?].
  - intros l _ Hl. apply H. intros ->. by apply (Hl _ _ Hg).
Qed.

Lemma only_grid_step_ok (w w' : World) (ctx : Ctx) (g : Game) :
  games w !! author ctx = Some g -> only_grid (revealed g) w w' -> step_ok w w'.
Proof. intros Hg [F G]. apply (frame_step_ok w w' ctx g); auto. Qed.

Lemma only_cursor_step_ok (w w' : World) : only_cursor w w' -> step_ok w w'.
Proof.
  intros (H & N & G & _). split; [|split].
  - lia.
  - intros i g' Hi. left. by rewrite <- G.
  - intros l _ _. by rewrite H.
Qed.

Lemma flag_command_step_ok (ctx : Ctx) (coordinates : list (Z * Z)) (w : World) :
  post (flag_command ctx coordinates w) (fun _ w' => step_ok w w') (step_ok w).
Proof.
  unfold flag_command. destruct (games w !! author ctx) as [g|] eqn:Hg.
  - rewrite (bind_Ok _ _ _ _ _ (the_game_Some ctx w g Hg)).
    assert (keeps (only_grid (revealed g))
              (for_each coordinates (fun '(x, y) =>
                 let! c := read (revealed g) x y in
                 if cell_eqb c Hidden then write (revealed g) x y Flag else ret tt) ;;;
               update_boards ctx)) as Hk.
    { apply keeps_bind; [apply _| |intros _; apply keeps_update_boards].
      apply keeps_for_each; [apply _|]. intros [x y].
      apply keeps_bind; [apply _|apply keeps_read|]. intros c.
      destruct (cell_eqb c Hidden); [apply keeps_write|apply keeps_ret; apply _]. }
    apply (post_weaken _ _ _ _ _ (Hk w)).
    + intros _ w'. by apply (only_grid_step_ok w w' ctx g).
    + intros w'. by apply (only_grid_step_ok w w' ctx g).
  - rewrite (bind_Raise _ _ _ _ _ (the_game_None ctx w Hg)). apply step_ok_refl.
Qed.

Lemma reveal_command_step_ok (fuel : nat) (ctx : Ctx) (coordinates : list (Z * Z))
    (w : World) :
  post (reveal_command fuel ctx coordinates w) (fun _ w' => step_ok w w') (step_ok w).
Proof.
  unfold reveal_command. destruct (games w !! author ctx) as [g|] eqn:Hg.
  - rewrite (bind_Ok _ _ _ _ _ (the_game_Some ctx w g Hg)).
    apply (post_weaken _ _ _ _ _ (reveal_loop_post fuel ctx _ _ coordinates w)).
    + intros _ w' [F G]. by apply (frame_step_ok w w' ctx g).
    + intros w'. by apply (only_grid_step_ok w w' ctx g).
  - rewrite (bind_Raise _ _ _ _ _ (the_game_None ctx w Hg)). apply step_ok_refl.
Qed.

Lemma end_command_Some (ctx : Ctx) (w : World) (g : Game) :
  games w !! author ctx = Some g ->
  exists es,
    end_command ctx w
    = Ok tt (set_games (delete (author ctx)) (say es (disclosed ctx g w))).
Proof.
  intros Hg. unfold end_command.
  rewrite (bind_Ok _ _ _ _ _ (disclose_Some ctx w g Hg)).
  assert (games (disclosed ctx g w) !! author ctx
          = Some (mkGame (board g) (board g) (activated_on_server g))) as Hg1
    by apply lookup_insert_eq.
  rewrite (bind_Ok _ _ _ _ _ (update_boards_Some ctx _ _ Hg1)).
  unfold bind at 1. unfold deref at 1.
  rewrite (bind_Ok _ _ _ _ _ (emit_say _ _)), say_say.
  destruct (activated_on_server g).
  - rewrite (bind_Ok _ _ _ _ _ (emit_say _ _)), say_say.
    rewrite (del_game_Some ctx (say _ (disclosed ctx g w)) _ Hg1). by eexists.
  - rewrite (bind_Ok _ _ _ _ _ (eq_refl : ret tt _ = Ok tt _)).
    rewrite (del_game_Some ctx (say _ (disclosed ctx g w)) _ Hg1). by eexists.
Qed.

Lemma end_command_step_ok (ctx : Ctx) (w : World) :
  post (end_command ctx w) (fun _ w' => step_ok w w') (step_ok w).
Proof.
  destruct (games w !! author ctx) as [g|] eqn:Hg.
  - destruct (end_command_Some ctx w g Hg) as [es ->]. simpl.
    apply (frame_step_ok w _ ctx g Hg); [by repeat split|].
    right. simpl. apply delete_insert_eq.
  - unfold end_command, disclose.
    rewrite (bind_Raise _ _ _ _ _ (bind_Raise _ _ _ _ _ (the_game_None ctx w Hg))).
    apply step_ok_refl.
Qed.

Lemma keeps_generate_board (bomb_chance : Q) :
  keeps only_cursor (generate_board bomb_chance).
Proof.
  unfold generate_board. apply keeps_bind; [apply _| |].
  - apply keeps_repeatM; [apply _|]. apply keeps_repeatM; [apply _|].
    apply keeps_bind; [apply _| |intros r; apply keeps_ret; apply _].
    intros w. simpl. by repeat split.
  - intros b w. unfold with_local. destruct (number_cells b); simpl; by repeat split.
Qed.

Lemma start_command_step_ok (ctx : Ctx) (bomb_chance : Q) (w : World) :
  post (start_command ctx bomb_chance w) (fun _ w' => step_ok w w') (step_ok w).
Proof.
  unfold start_command. unfold bind at 1. unfold get_state at 1.
  destruct (games w !! author ctx) as [g|] eqn:Hg.
  - simpl. split; [simpl; lia|]. split; [by left|done].
  - apply (post_bind (generate_board bomb_chance) _ w (fun _ w1 => only_cursor w w1)).
    { apply (post_weaken _ _ _ _ _ (keeps_generate_board bomb_chance w)); [done|].
      intros w1. apply only_cursor_step_ok. }
    intros b w1 (H & N & G & _).
    assert (forall w2 : World,
              heap w2 = <[S (next_loc w1) := hidden_board]> (<[next_loc w1 := b]> (heap w1)) ->
              next_loc w2 = S (S (next_loc w1)) ->
              games w2 = <[author ctx := mkGame (next_loc w1) (S (next_loc w1)) (guild ctx)]>
                           (games w1) ->
              step_ok w w2) as Hfinal.
    { intros w2 H2 N2 G2. split; [|split].
      - lia.
      - intros i g' Hi. rewrite G2, G in Hi.
        destruct (decide (author ctx = i)) as [<-|Hne].
        + rewrite lookup_insert_eq in Hi. inversion Hi; subst g'. right. simpl.
          rewrite N2. auto.
        + rewrite lookup_insert_ne in Hi by done. by left.
      - intros l Hl _. rewrite H2, H. rewrite !lookup_insert_ne by lia. done. }
    destruct (guild ctx) eqn:Eg; simpl; apply Hfinal; simpl; by rewrite ?Eg.
Qed.

Lemma run_command_step_ok (fuel : nat) (c : command) (w : World) :
  post (run_command fuel c w) (fun _ w' => step_ok w w') (step_ok w).
Proof.
  destruct c; simpl.
  - apply start_command_step_ok.
  - apply flag_command_step_ok.
  - apply reveal_command_step_ok.
  - apply end_command_step_ok.
Qed.

Lemma step_step_ok (w w' : World) : step w w' -> step_ok w w'.
Proof.
  intros (fuel & c & [H|[e H]]); pose proof (run_command_step_ok fuel c w) as P;
    by rewrite H in P.
Qed.

Lemma step_ok_separated (w w' : World) : separated w -> step_ok w w' -> separated w'.
Proof.
  intros Hsep (N & G & _) i g Hi.
  destruct (G i g Hi) as [Hold|(Hb & Hr & Hn)].
  - destruct (Hsep i g Hold) as (Bb & Br & Hd). split; [lia|]. split; [lia|].
    intros j g' Hj. destruct (G j g' Hj) as [Hold'|(Hb' & Hr' & _)]; [by apply (Hd j)|lia].
  - split; [lia|]. split; [lia|].
    intros j g' Hj. destruct (G j g' Hj) as [Hold'|(Hb' & Hr' & _)]; [|lia].
    destruct (Hsep j g' Hold') as (_ & Br & _). lia.
Qed.

Lemma reachable_separated (w : World) : reachable w -> separated w.
Proof.
  intros [d Hrtc]. revert w Hrtc. apply (rtc_ind_r separated (initial d)).
  - intros i g Hi. simpl in Hi. by rewrite lookup_empty in Hi.
  - intros w1 w2 _ Hstep IH. by apply (step_ok_separated w1), step_step_ok.
Qed.

Lemma step_ok_unshared (l : loc) (w w' : World) :
  unshared l w -> step_ok w w' -> unshared l w' /\ heap w' !! l = heap w !! l.
Proof.
  intros [Hl Hno] (N & G & H). split; [split|].
  - lia.
  - intros i g Hi. destruct (G i g Hi) as [Hold|(_ & Hr & _)]; [by apply (Hno i)|lia].
  - by apply H.
Qed.

Lemma steps_unshared (l : loc) (w w' : World) :
  unshared l w -> rtc step w w' -> unshared l w' /\ heap w' !! l = heap w !! l.
Proof.
  intros Hu Hrtc. induction Hrtc as [w|w1 w2 w3 Hstep _ IH]; [done|].
  destruct (step_ok_unshared l w1 w2 Hu (step_step_ok _ _ Hstep)) as [Hu2 H2].
  destruct (IH Hu2) as [Hu3 H3]. split; [done|congruence].
Qed.

(** C8.  In every world the cog can reach from its initial state, the
    board of every stored game is a grid object that no later command
    writes to: after any sequence of start, flag, reveal and end commands
    of any player, completed or ended by an exception, the grid at the
    board location of the game is the grid it was, also through the
    aliasing made by the disclosure at the end of a game. *)
Theorem board_never_mutated (w w' : World) (i : Z) (g : Game) :
  reachable w -> games w !! i = Some g -> rtc step w w' ->
  heap w' !! board g = heap w !! board g.
Proof.
  intros Hreach Hg Hsteps.
  destruct (reachable_separated w Hreach i g Hg) as (Hb & _ & Hd).
  by apply (steps_unshared (board g) w w').
Qed.

Lemma board_never_mutated_witness :
  reachable started /\
  games started !! 7 = Some (mkGame 0%nat 1%nat false) /\
  rtc step started (final_world (reveal_command 101 player [(0, 0); (1, 0)] started) started) /\
  heap (final_world (reveal_command 101 player [(0, 0); (1, 0)] started) started)
    !! board (mkGame 0%nat 1%nat false)
  = heap started !! board (mkGame 0%nat 1%nat false).
Proof.
  assert (reachable started) as Hreach.
  { exists one_bomb_draws. apply rtc_once. exists 0%nat, (Start player (1 # 5)).
    left. vm_compute. reflexivity. }
  assert (games started !! 7 = Some (mkGame 0%nat 1%nat false)) as Hg
    by (vm_compute; reflexivity).
  assert (rtc step started
            (final_world (reveal_command 101 player [(0, 0); (1, 0)] started) started))
    as Hsteps.
  { apply rtc_once. exists 101%nat, (Reveal player [(0, 0); (1, 0)]).
    left. vm_compute. reflexivity. }
  split; [exact Hreach|]. split; [exact Hg|]. split; [exact Hsteps|].
  exact (board_never_mutated started _ 7 (mkGame 0%nat 1%nat false) Hreach Hg Hsteps).
Defined.

(** *** A disclosed record

    Between the disclosure and the removal of a record its [revealed]
    field names the board.  Should a flag or a reveal reach the record in
    that state, it writes nothing: a generated board has no Hidden cell,
    and the only other store gives a cell the value it has. *)

Lemma set_cell_same (g : GameBoard) (p : Z * Z) :
  set_cell g p (cell_at g p) = g.
Proof.
  unfold set_cell, cell_at.
  destruct (grid_set g p.1 p.2 _) as [g'|] eqn:Es; [|done]. simpl.
  apply grid_set_Some in Es as (i & j & row & Hi & Hr & Hj & ->).
  destruct (lookup_lt_is_Some_2 row j (py_index_lt _ _ _ Hj)) as [c Hc].
  assert (grid_get g p.1 p.2 = Some c) as ->
    by (apply grid_get_Some; by exists i, j, row).
  simpl. rewrite (list_insert_id row j c Hc). by apply list_insert_id.
Qed.

Lemma no_hidden_on_board (b : GameBoard) (q : Z * Z) :
  is_board b = true -> in_range q ->
  cell_eqb (cell_at b q) Hidden = false /\ cell_eqb (cell_at b q) Flag = false.
Proof.
  intros Hb Hq. pose proof (is_board_value b q Hb Hq) as Hv.
  by destruct (cell_at b q).
Qed.

Lemma reveal_zeros_aliased (fuel : nat) (l : loc) (b : GameBoard) (x y : Z) (w : World) :
  heap w !! l = Some b -> is_board b = true -> in_range (x, y) ->
  reveal_zeros (S fuel) l l x y w = Ok tt w.
Proof.
  intros Hl Hb Hp. simpl.
  assert (forall q, q ∈ get_neighbours x y -> in_range q) as Hn
    by (intros q Hq; by apply (neighbour_in_range (x, y))).
  induction (get_neighbours x y) as [|[x_ y_] ns IH]; [done|].
  rewrite for_each_cons, reveal_neighbour_cases, (lookup_total_Some _ _ _ Hl).
  assert (in_range (x_, y_)) as Hq by apply Hn, list_elem_of_here.
  rewrite (grid_get_xy b x_ y_ (is_board_grid10 b Hb) Hq).
  destruct (no_hidden_on_board b (x_, y_) Hb Hq) as [-> _].
  apply IH. intros q' Hq'. by apply Hn, list_elem_of_further.
Qed.

Lemma reveal_one_aliased (fuel : nat) (ctx : Ctx) (g : Game) (b : GameBoard)
    (x y : Z) (w : World) :
  games w !! author ctx = Some g -> heap w !! board g = Some b ->
  is_board b = true -> in_range (x, y) ->
  exists es,
    reveal_one (S fuel) ctx (board g) (board g) x y w
    = Ok true (say es (disclosed ctx g w)).
Proof.
  intros Hg Hl Hb Hp. pose proof (is_board_grid10 b Hb) as Hgb.
  unfold reveal_one.
  rewrite (bind_Ok _ _ _ _ _ (read_xy w (board g) b x y Hl Hgb Hp)).
  rewrite (bind_Ok _ _ _ _ _ (write_xy w (board g) b x y _ Hl Hgb Hp)).
  rewrite set_cell_same, (set_heap_id w _ _ Hl).
  rewrite (bind_Ok _ _ _ _ _ (read_xy w (board g) b x y Hl Hgb Hp)).
  destruct (cell_eqb (cell_at b (x, y)) Bomb).
  { rewrite (bind_Ok _ _ _ _ _ (lost_Some ctx w g Hg)). by eexists. }
  assert ((if cell_eqb (cell_at b (x, y)) (Num 0)
           then reveal_zeros (S fuel) (board g) (board g) x y else ret tt) w = Ok tt w)
    as Hfill.
  { destruct (cell_eqb (cell_at b (x, y)) (Num 0)); [|done].
    by apply (reveal_zeros_aliased fuel (board g) b). }
  rewrite (bind_Ok _ _ _ _ _ Hfill).
  rewrite (check_if_won_in_range ctx w g (board g) (board g) b b Hg Hl Hl Hgb Hgb).
  assert (existsb (pending b b) all_cells = false) as ->.
  { apply not_true_iff_false. intros (q & Hq%list_elem_of_In%elem_of_all_cells & Hpend)%existsb_exists.
    unfold pending in Hpend. destruct (no_hidden_on_board b q Hb Hq) as [E1 E2].
    by rewrite E1, E2 in Hpend. }
  by eexists.
Qed.

(** On a disclosed record a flag and a reveal leave the heap as it is. *)
Lemma disclosed_record_not_written (fuel : nat) (ctx : Ctx) (g : Game) (b : GameBoard)
    (coordinates : list (Z * Z)) (w : World) :
  games w !! author ctx = Some g -> revealed g = board g ->
  heap w !! board g = Some b -> is_board b = true ->
  (forall c, c ∈ coordinates -> in_range c) ->
  (exists w', flag_command ctx coordinates w = Ok tt w' /\ heap w' = heap w) /\
  (exists w', reveal_command (S fuel) ctx coordinates w = Ok tt w' /\ heap w' = heap w).
Proof.
  intros Hg Halias Hl Hb Hin. pose proof (is_board_grid10 b Hb) as Hgb. split.
  - unfold flag_command. rewrite (bind_Ok _ _ _ _ _ (the_game_Some ctx w g Hg)).
    rewrite Halias.
    assert (for_each coordinates (fun '(x, y) =>
              let! c := read (board g) x y in
              if cell_eqb c Hidden then write (board g) x y Flag else ret tt) w = Ok tt w)
      as Hloop.
    { induction coordinates as [|[x y] l IH]; [done|].
      assert (in_range (x, y)) as Hp by apply Hin, list_elem_of_here.
      rewrite for_each_cons.
      rewrite (bind_Ok _ _ _ _ _ (read_xy w (board g) b x y Hl Hgb Hp)).
      destruct (no_hidden_on_board b (x, y) Hb Hp) as [-> _].
      apply IH. intros c Hc. by apply Hin, list_elem_of_further. }
    rewrite (bind_Ok _ _ _ _ _ Hloop), (update_boards_Some ctx w g Hg). by eexists.
  - unfold reveal_command. rewrite (bind_Ok _ _ _ _ _ (the_game_Some ctx w g Hg)).
    rewrite Halias. destruct coordinates as [|[x y] rest].
    + cbn [reveal_loop]. rewrite (update_boards_Some ctx w g Hg). by eexists.
    + assert (in_range (x, y)) as Hp by apply Hin, list_elem_of_here.
      destruct (reveal_one_aliased fuel ctx g b x y w Hg Hl Hb Hp) as [es Hone].
      cbn [reveal_loop]. rewrite (bind_Ok _ _ _ _ _ Hone).
      assert (games (say es (disclosed ctx g w)) !! author ctx
              = Some (mkGame (board g) (board g) (activated_on_server g))) as Hgd
        by apply lookup_insert_eq.
      rewrite (bind_Ok _ _ _ _ _ (update_boards_Some ctx _ _ Hgd)).
      rewrite (del_game_Some ctx (say _ (say es (disclosed ctx g w))) _ Hgd). by eexists.
Qed.

(** ** Starting a game *)

(** C9.  When the player already has a record, [start_command] only says
    so: it returns normally, the store of games and the heap of grids are
    what they were, so that the record, its board and its revealed grid
    are unchanged, no draw is consumed, and the two events sent are the
    "already running" message and the removal of the command message. *)
Theorem start_while_active (ctx : Ctx) (bomb_chance : Q) (w : World) (g : Game) :
  games w !! author ctx = Some g ->
  exists w',
    start_command ctx bomb_chance w = Ok tt w' /\
    games w' = games w /\ heap w' = heap w /\
    next_loc w' = next_loc w /\ cursor w' = cursor w /\
    outbox w' = outbox w ++ [SendChannel AlreadyRunning; DeleteCommand].
Proof.
  intros Hg. unfold start_command. unfold bind at 1. unfold get_state at 1.
  rewrite Hg. eexists. split; [reflexivity|]. simpl.
  repeat (split; [reflexivity|]). by rewrite <- app_assoc.
Qed.

Lemma start_while_active_witness :
  games started !! author player = Some (mkGame 0%nat 1%nat false) /\
  exists w',
    start_command player (1 # 5) started = Ok tt w' /\
    games w' = games started /\ heap w' = heap started /\
    next_loc w' = next_loc started /\ cursor w' = cursor started /\
    outbox w' = outbox started ++ [SendChannel AlreadyRunning; DeleteCommand].
Proof.
  assert (games started !! author player = Some (mkGame 0%nat 1%nat false)) as Hg
    by (vm_compute; reflexivity).
  split; [exact Hg|].
  exact (start_while_active player (1 # 5) started (mkGame 0%nat 1%nat false) Hg).
Defined.

(** C7 (code defect).  The test [random() <= bomb_chance] makes a bomb of a
    draw that is exactly 0.0 when the bomb chance is 0.0: with such a
    first draw the board has a bomb at (0, 0), and the reveal of (0, 0)
    loses the game. *)
Theorem zero_chance_zero_draw :
  exists w,
    start_command player 0 (initial zero_first_draws) = Ok tt w /\
    games w !! author player = Some (mkGame 0%nat 1%nat false) /\
    heap w !! 0%nat = Some corner_bomb_board /\
    cell_at corner_bomb_board (0, 0) = Bomb /\
    exists w',
      reveal_command 101 player [(0, 0)] w = Ok tt w' /\
      games w' !! author player = None /\
      SendDm YouLost ∈ outbox w' /\ SendDm YouWon ∉ outbox w'.
Proof.
  eexists. split; [vm_compute; reflexivity|].
  split; [vm_compute; reflexivity|]. split; [vm_compute; reflexivity|].
  split; [reflexivity|].
  eexists. split; [vm_compute; reflexivity|]. split; [vm_compute; reflexivity|].
  split.
  - do 2 apply list_elem_of_further. apply list_elem_of_here.
  - intros H. repeat (apply elem_of_cons in H as [H|H]; [discriminate H|]).
    by apply elem_of_nil in H.
Qed.

(** When no draw is 0 the bomb chance 0 does what it says: the board has
    no bomb, and the reveal of (0, 0) fills the whole board and wins. *)
Lemma repeatM_inv {S A} (I : S -> Prop) (P : A -> Prop) (m : M S A) (n : nat) :
  (forall s, I s -> exists a s', m s = Ok a s' /\ P a /\ I s') ->
  forall s, I s ->
    exists l s', repeatM n m s = Ok l s' /\ length l = n /\ Forall P l /\ I s'.
Proof.
  intros Hm. induction n as [|n IH]; intros s Hs; simpl.
  - exists [], s. by repeat split.
  - destruct (Hm s Hs) as (a & s1 & Ha & HP & H1).
    destruct (IH s1 H1) as (l & s2 & Hl & Hlen & HF & H2).
    exists (a :: l), s2. rewrite (bind_Ok _ _ _ _ _ Ha), (bind_Ok _ _ _ _ _ Hl).
    split; [done|]. split; [simpl; by rewrite Hlen|]. split; [by constructor|done].
Qed.

Lemma Forall_eq_replicate {A} (a : A) (l : list A) :
  Forall (fun x => x = a) l -> l = replicate (length l) a.
Proof. induction 1 as [|x l -> _ IH]; simpl; [done|]. by rewrite <- IH. Qed.

Lemma keeps_draw_cell (bomb_chance : Q) :
  keeps only_cursor
    (let! r := random in ret (if Qle_bool r bomb_chance then Bomb else NumberTag)).
Proof. intros w. simpl. by repeat split. Qed.

Lemma generate_board_no_bombs (w : World) :
  (forall n, (0 < draws w n)%Q) ->
  exists w', generate_board 0 w = Ok zero_board w' /\ only_cursor w w'.
Proof.
  intros Hpos.
  destruct (repeatM_inv (S := World) (fun s => draws s = draws w)
              (fun row => row = replicate 10 NumberTag)
              (repeatM 10 (let! r := random in
                           ret (if Qle_bool r 0 then Bomb else NumberTag)))
              10) with (s := w) as (rows & w' & Hrows & Hlen & HF & _); [|done|].
  { intros s Hs.
    destruct (repeatM_inv (S := World) (fun s => draws s = draws w)
                (fun c => c = NumberTag)
                (let! r := random in ret (if Qle_bool r 0 then Bomb else NumberTag))
                10) with (s := s) as (row & s' & Hrow & Hl & HFr & Hs'); [|done|].
    - intros t Ht. eexists _, _. split; [reflexivity|]. split; [|exact Ht].
      destruct (Qle_bool (draws t (cursor t)) 0) eqn:E; [|done].
      apply Qle_bool_iff in E. rewrite Ht in E.
      destruct (Qlt_not_le _ _ (Hpos (cursor t)) E).
    - exists row, s'. split; [exact Hrow|]. split; [|exact Hs'].
      rewrite (Forall_eq_replicate _ _ HFr). by rewrite Hl. }
  assert (rows = tag_board) as ->.
  { rewrite (Forall_eq_replicate _ _ HF). by rewrite Hlen. }
  pose proof (keeps_repeatM only_cursor 10 _
                (keeps_repeatM only_cursor 10 _ (keeps_draw_cell 0)) w) as Hkeep.
  rewrite Hrows in Hkeep. simpl in Hkeep.
  assert (number_cells tag_board = Ok tt zero_board) as Hnum by (vm_compute; reflexivity).
  exists w'. split; [|exact Hkeep].
  unfold generate_board. rewrite (bind_Ok _ _ _ _ _ Hrows).
  unfold with_local. rewrite Hnum. reflexivity.
Qed.

Lemma no_zero_draw_wins (d : nat -> Q) :
  (forall n, (0 < d n)%Q) ->
  exists w,
    start_command player 0 (initial d) = Ok tt w /\
    playing w player (mkGame 0%nat 1%nat false) hidden_board zero_board /\
    exists w',
      reveal_command 101 player [(0, 0)] w = Ok tt w' /\
      games w' !! author player = None /\
      heap w' !! 1%nat = Some zero_board /\
      exists es, outbox w' = outbox w ++ SendDm YouWon :: es.
Proof.
  intros Hpos.
  destruct (generate_board_no_bombs (initial d) Hpos) as (w1 & Hgen & (H1 & N1 & G1 & D1 & O1)).
  simpl in H1, N1, G1, O1.
  eexists. split.
  { unfold start_command. unfold bind at 1. unfold get_state at 1.
    cbn [initial games]. rewrite lookup_empty. rewrite (bind_Ok _ _ _ _ _ Hgen).
    reflexivity. }
  cbn [player guild author].
  match goal with |- playing ?w _ _ _ _ /\ _ => set (w0 := w) end.
  assert (playing w0 player (mkGame 0%nat 1%nat false) hidden_board zero_board) as Hplay.
  { unfold w0, playing. simpl. rewrite N1, H1, G1.
    repeat split; try (vm_compute; reflexivity). discriminate. }
  split; [exact Hplay|].
  assert (in_range (0, 0)) as Hp by (unfold in_range; simpl; lia).
  assert (hidden_count hidden_board < 101)%nat as Hfuel by (vm_compute; lia).
  destruct (reveal_one_spec 101 player w0 _ _ _ (0, 0) Hplay Hp Hfuel) as (r' & Hgrid & _ & Hone).
  assert (reveal_grid 101 zero_board 0 0 hidden_board = Ok tt zero_board) as Hfill
    by (vm_compute; reflexivity).
  cbn [fst snd] in Hgrid, Hone. rewrite Hfill in Hgrid. inversion Hgrid; subst r'.
  assert (cell_eqb (cell_at zero_board (0, 0)) Bomb = false) as Hnb by reflexivity.
  assert (existsb (pending zero_board zero_board) all_cells = false) as Hpend
    by (vm_compute; reflexivity).
  rewrite Hnb, Hpend in Hone.
  destruct Hplay as (Hg & _).
  unfold reveal_command. rewrite (bind_Ok _ _ _ _ _ (the_game_Some player w0 _ Hg)).
  cbn [reveal_loop revealed board]. rewrite (bind_Ok _ _ _ _ _ Hone).
  match goal with |- context [update_boards player ;;; del_game player] =>
    idtac end.
  match goal with |- exists w', bind _ _ ?wd = _ /\ _ =>
    assert (games wd !! author player = Some (mkGame 0%nat 0%nat false)) as Hgd
      by apply lookup_insert_eq;
    rewrite (bind_Ok _ _ _ _ _ (update_boards_Some player wd _ Hgd));
    rewrite (del_game_Some player (say _ wd) _ Hgd)
  end.
  eexists. split; [reflexivity|]. split; [apply lookup_delete_eq|].
  split; [apply lookup_insert_eq|].
  eexists. simpl. rewrite <- !app_assoc. reflexivity.
Qed.

(** ** Transitions of the display state *)

Lemma playing_after_write (w : World) (ctx : Ctx) (g : Game) (r r' b : GameBoard) :
  playing w ctx g r b -> is_grid10 r' = true ->
  playing (set_heap (insert (revealed g) r') w) ctx g r' b.
Proof.
  intros (Hg & Hne & Hr & Hb & Hgr & Hbd) Hr'. repeat split; try done.
  - apply heap_set_heap_eq.
  - by rewrite heap_set_heap_ne.
Qed.

Lemma flag_loop_spec (rv : loc) (coordinates : list (Z * Z)) (w : World) (r : GameBoard) :
  heap w !! rv = Some r -> is_grid10 r = true ->
  (forall c, c ∈ coordinates -> in_range c) ->
  exists r',
    for_each coordinates (fun '(x, y) =>
      let! c := read rv x y in
      if cell_eqb c Hidden then write rv x y Flag else ret tt) w
    = Ok tt (set_heap (insert rv r') w) /\
    is_grid10 r' = true /\
    forall q, in_range q -> flag_change coordinates q (cell_at r q) (cell_at r' q).
Proof.
  revert w r. induction coordinates as [|[x y] l IH]; intros w r Hr Hg Hl.
  { exists r. split; [|split; [done|]].
    - simpl. unfold ret. by rewrite set_heap_id.
    - intros q _. by left. }
  assert (in_range (x, y)) as Hp by apply Hl, list_elem_of_here.
  assert (forall c, c ∈ l -> in_range c) as Hl'
    by (intros c Hc; by apply Hl, list_elem_of_further).
  rewrite for_each_cons.
  rewrite (bind_Ok _ _ _ _ _ (read_xy w rv r x y Hr Hg Hp)).
  destruct (cell_eqb (cell_at r (x, y)) Hidden) eqn:Eh.
  - apply cell_eqb_eq in Eh.
    rewrite (write_xy w rv r x y Flag Hr Hg Hp).
    destruct (IH _ (set_cell r (x, y) Flag) (heap_set_heap_eq w rv _)
                (set_cell_grid10 r (x, y) Flag Hg) Hl') as (r' & Hrun & Hg' & Hch).
    exists r'. rewrite Hrun, set_heap_twice. split; [done|]. split; [done|].
    intros q Hq. destruct (Hch q Hq) as [E|(E1 & E2 & E3)].
    + rewrite E. rewrite cell_at_set_cell by done.
      destruct (decide ((x, y) = q)) as [<-|]; [|by left].
      right. repeat split; [done|]. apply list_elem_of_here.
    + rewrite cell_at_set_cell in E1 by done.
      destruct (decide ((x, y) = q)); [discriminate E1|].
      right. repeat split; [done..|]. by apply list_elem_of_further.
  - destruct (IH w r Hr Hg Hl') as (r' & Hrun & Hg' & Hch).
    exists r'. split; [exact Hrun|]. split; [done|].
    intros q Hq. destruct (Hch q Hq) as [E|(E1 & E2 & E3)]; [by left|].
    right. repeat split; [done..|]. by apply list_elem_of_further.
Qed.

Lemma flag_command_spec (ctx : Ctx) (w : World) (g : Game) (r b : GameBoard)
    (coordinates : list (Z * Z)) :
  playing w ctx g r b -> (forall c, c ∈ coordinates -> in_range c) ->
  exists w' r',
    flag_command ctx coordinates w = Ok tt w' /\
    playing w' ctx g r' b /\
    forall q, in_range q -> flag_change coordinates q (cell_at r q) (cell_at r' q).
Proof.
  intros Hplay Hl. pose proof Hplay as (Hg & Hne & Hr & Hb & Hgr & Hbd).
  destruct (flag_loop_spec (revealed g) coordinates w r Hr Hgr Hl) as (r' & Hrun & Hg' & Hch).
  unfold flag_command. rewrite (bind_Ok _ _ _ _ _ (the_game_Some ctx w g Hg)).
  rewrite (bind_Ok _ _ _ _ _ Hrun).
  rewrite (update_boards_Some ctx (set_heap (insert (revealed g) r') w) g Hg).
  eexists _, r'. split; [reflexivity|]. split; [|done].
  by apply (playing_after_write w ctx g r r' b).
Qed.

Lemma reveal_change_step (b r r1 r' : GameBoard) (c : Z * Z) (rest : list (Z * Z))
    (q : Z * Z) :
  is_grid10 r = true -> in_range c -> in_range q ->
  cell_at r1 c = cell_at b c ->
  uncovers b (set_cell r c (cell_at b c)) r1 ->
  reveal_change rest q (cell_at b q) (cell_at r1 q) (cell_at r' q) ->
  reveal_change (c :: rest) q (cell_at b q) (cell_at r q) (cell_at r' q).
Proof.
  intros Hg Hc Hq Hc1 Hu [E|[[E1 E2]|[E1 E2]]].
  - rewrite E. destruct (decide (c = q)) as [<-|Hne].
    + right. right. split; [apply list_elem_of_here|done].
    + destruct (Hu q Hq) as [E'|[E1' E2']];
        rewrite cell_at_set_cell_ne in * by done; [by left|right; by left].
  - destruct (decide (c = q)) as [<-|Hne].
    + right. right. split; [apply list_elem_of_here|done].
    + destruct (Hu q Hq) as [E'|[E1' E2']];
        rewrite cell_at_set_cell_ne in * by done.
      * right. left. split; congruence.
      * right. left. split; congruence.
  - right. right. split; [by apply list_elem_of_further|done].
Qed.

Lemma reveal_loop_spec (fuel : nat) (ctx : Ctx) (g : Game) (b : GameBoard)
    (coordinates : list (Z * Z)) (w : World) (r : GameBoard) :
  playing w ctx g r b -> (forall c, c ∈ coordinates -> in_range c) ->
  (100 < fuel)%nat ->
  exists w' r',
    reveal_loop fuel ctx (revealed g) (board g) coordinates w = Ok tt w' /\
    heap w' !! revealed g = Some r' /\ is_grid10 r' = true /\
    (games w' = games w \/ games w' = delete (author ctx) (games w)) /\
    forall q, in_range q ->
      reveal_change coordinates q (cell_at b q) (cell_at r q) (cell_at r' q).
Proof.
  intros Hplay Hl Hfuel. revert w r Hplay.
  induction coordinates as [|c rest IH]; intros w r Hplay.
  { pose proof Hplay as (Hg & Hne & Hr & Hb & Hgr & Hbd).
    cbn [reveal_loop]. rewrite (update_boards_Some ctx w g Hg).
    eexists _, r. split; [reflexivity|]. repeat split; try done; [by left|].
    intros q _. by left. }
  assert (in_range c) as Hc by apply Hl, list_elem_of_here.
  assert (forall c', c' ∈ rest -> in_range c') as Hl'
    by (intros c' H'; by apply Hl, list_elem_of_further).
  pose proof Hplay as (Hg & Hne & Hr & Hb & Hgr & Hbd).
  pose proof (hidden_count_le_100 r Hgr) as Hle.
  destruct (reveal_one_spec fuel ctx w g r b c Hplay Hc) as (r1 & Hgrid & Hg1 & Hone); [lia|].
  destruct (reveal_grid_uncovers fuel b r r1 c Hbd Hgr Hc Hgrid) as (_ & Hc1 & Hu & _ & _).
  destruct c as [x y]. cbn [reveal_loop]. cbn [fst snd] in Hone.
  assert (forall (es : list event) (w' : World),
            w' = say es (disclosed ctx g (set_heap (insert (revealed g) r1) w)) ->
            exists w'' r',
              (update_boards ctx ;;; del_game ctx) w' = Ok tt w'' /\
              heap w'' !! revealed g = Some r' /\ is_grid10 r' = true /\
              (games w'' = games w \/ games w'' = delete (author ctx) (games w)) /\
              forall q, in_range q ->
                reveal_change ((x, y) :: rest) q (cell_at b q) (cell_at r q) (cell_at r' q))
    as Hend.
  { intros es w' ->.
    assert (games (say es (disclosed ctx g (set_heap (insert (revealed g) r1) w)))
              !! author ctx
            = Some (mkGame (board g) (board g) (activated_on_server g))) as Hgd
      by apply lookup_insert_eq.
    rewrite (bind_Ok _ _ _ _ _ (update_boards_Some ctx _ _ Hgd)).
    rewrite (del_game_Some ctx (say _ (say es _)) _ Hgd).
    eexists _, r1. split; [reflexivity|]. split; [apply lookup_insert_eq|].
    split; [done|]. split; [right; apply delete_insert_eq|].
    intros q Hq. apply (reveal_change_step b r r1 r1 (x, y) rest q); try done. by left. }
  destruct (cell_eqb (cell_at b (x, y)) Bomb).
  { rewrite (bind_Ok _ _ _ _ _ Hone). by apply (Hend (lost_messages g)). }
  destruct (existsb (pending r1 b) all_cells).
  - rewrite (bind_Ok _ _ _ _ _ Hone).
    destruct (IH Hl' _ r1 (playing_after_write w ctx g r r1 b Hplay Hg1))
      as (w' & r' & Hrun & Hr' & Hg' & Hgames & Hch).
    exists w', r'. split; [exact Hrun|]. split; [done|]. split; [done|].
    split; [exact Hgames|].
    intros q Hq. by apply (reveal_change_step b r r1 r' (x, y) rest q); try apply Hch.
  - rewrite (bind_Ok _ _ _ _ _ Hone). by apply (Hend (won_messages g)).
Qed.

(** C6 (amended).  On a game in play, a flag command changes a cell only
    from Hidden to Flagged, and only a cell it names; a reveal command
    changes a cell only to its board value, and only a cell that was
    Hidden or that it names, so that a direct reveal also turns a Flagged
    cell into a Revealed one.  Hence a Revealed cell is never downgraded,
    no cell ever becomes Hidden, and a Flagged cell stays Flagged as long
    as no reveal names it. *)
Theorem display_transitions (fuel : nat) (ctx : Ctx) (w : World) (g : Game)
    (r b : GameBoard) (coordinates : list (Z * Z)) :
  playing w ctx g r b -> (forall c, c ∈ coordinates -> in_range c) ->
  (100 < fuel)%nat ->
  (exists w' r',
     flag_command ctx coordinates w = Ok tt w' /\
     heap w' !! revealed g = Some r' /\
     forall q, in_range q ->
       flag_change coordinates q (cell_at r q) (cell_at r' q) /\
       (shown (cell_at r q) = true -> cell_at r' q = cell_at r q) /\
       (cell_at r q = Flag -> cell_at r' q = Flag) /\
       (cell_at r' q = Hidden -> cell_at r q = Hidden)) /\
  (exists w' r',
     reveal_command fuel ctx coordinates w = Ok tt w' /\
     heap w' !! revealed g = Some r' /\
     forall q, in_range q ->
       reveal_change coordinates q (cell_at b q) (cell_at r q) (cell_at r' q) /\
       (shown (cell_at r q) = true -> shown (cell_at r' q) = true) /\
       (cell_at r q = Flag -> q ∉ coordinates -> cell_at r' q = Flag) /\
       (cell_at r' q = Hidden -> cell_at r q = Hidden)).
Proof.
  intros Hplay Hl Hfuel. split.
  - destruct (flag_command_spec ctx w g r b coordinates Hplay Hl)
      as (w' & r' & Hrun & (_ & _ & Hr' & _) & Hch).
    exists w', r'. split; [exact Hrun|]. split; [exact Hr'|].
    intros q Hq. specialize (Hch q Hq). split; [exact Hch|].
    destruct Hch as [E|(E1 & E2 & _)]; rewrite ?E, ?E1, ?E2; repeat split; try done.
  - pose proof Hplay as (Hg & _ & _ & _ & _ & Hbd).
    destruct (reveal_loop_spec fuel ctx g b coordinates w r Hplay Hl Hfuel)
      as (w' & r' & Hrun & Hr' & _ & _ & Hch).
    exists w', r'. unfold reveal_command.
    rewrite (bind_Ok _ _ _ _ _ (the_game_Some ctx w g Hg)).
    split; [exact Hrun|]. split; [exact Hr'|].
    intros q Hq. specialize (Hch q Hq). split; [exact Hch|].
    pose proof (is_board_value b q Hbd Hq) as Hv.
    destruct Hch as [E|[[E1 E2]|[E1 E2]]]; rewrite ?E, ?E1, ?E2.
    + repeat split; done.
    + repeat split; done.
    + split; [intros _; by apply is_value_shown|]. split; [done|].
      intros Hh. by apply is_value_not_hidden in Hv.
Qed.

Lemma display_transitions_witness :
  playing started player (mkGame 0%nat 1%nat false) hidden_board one_bomb_board /\
  (forall c, c ∈ [(0, 0)] -> in_range c) /\ (100 < 101)%nat /\
  (exists w' r',
     flag_command player [(0, 0)] started = Ok tt w' /\
     heap w' !! revealed (mkGame 0%nat 1%nat false) = Some r' /\
     forall q, in_range q ->
       flag_change [(0, 0)] q (cell_at hidden_board q) (cell_at r' q) /\
       (shown (cell_at hidden_board q) = true -> cell_at r' q = cell_at hidden_board q) /\
       (cell_at hidden_board q = Flag -> cell_at r' q = Flag) /\
       (cell_at r' q = Hidden -> cell_at hidden_board q = Hidden)) /\
  (exists w' r',
     reveal_command 101 player [(0, 0)] started = Ok tt w' /\
     heap w' !! revealed (mkGame 0%nat 1%nat false) = Some r' /\
     forall q, in_range q ->
       reveal_change [(0, 0)] q (cell_at one_bomb_board q)
                     (cell_at hidden_board q) (cell_at r' q) /\
       (shown (cell_at hidden_board q) = true -> shown (cell_at r' q) = true) /\
       (cell_at hidden_board q = Flag -> q ∉ [(0, 0)] -> cell_at r' q = Flag) /\
       (cell_at r' q = Hidden -> cell_at hidden_board q = Hidden)).
Proof.
  assert (playing started player (mkGame 0%nat 1%nat false) hidden_board one_bomb_board)
    as Hplay.
  { repeat split; try (vm_compute; reflexivity). discriminate. }
  assert (forall c : Z * Z, c ∈ [(0, 0)] -> in_range c) as Hl.
  { intros c ->%list_elem_of_singleton. unfold in_range. simpl. lia. }
  assert (100 < 101)%nat as Hfuel by lia.
  split; [exact Hplay|]. split; [exact Hl|]. split; [exact Hfuel|].
  exact (display_transitions 101 player started (mkGame 0%nat 1%nat false)
           hidden_board one_bomb_board [(0, 0)] Hplay Hl Hfuel).
Defined.

(** C6 as stated does not hold: in the game [started], the cell (0, 0)
    is flagged and then revealed; the game goes on, and the cell went
    from Flagged to Revealed. *)
Lemma flagged_then_revealed :
  exists w1 r1 w2 r2,
    flag_command player [(0, 0)] started = Ok tt w1 /\
    heap w1 !! 1%nat = Some r1 /\ cell_at r1 (0, 0) = Flag /\
    reveal_command 101 player [(0, 0)] w1 = Ok tt w2 /\
    games w2 !! author player = Some (mkGame 0%nat 1%nat false) /\
    heap w2 !! 1%nat = Some r2 /\ cell_at r2 (0, 0) = Num 1.
Proof.
  eexists _, _, _, _. split; [vm_compute; reflexivity|].
  split; [vm_compute; reflexivity|]. split; [reflexivity|].
  split; [vm_compute; reflexivity|]. split; [vm_compute; reflexivity|].
  split; [vm_compute; reflexivity|]. reflexivity.
Qed.

(** * Further properties of the cog *)

(** ** Grids as functions of their cells *)

Lemma grid10_ext (g g' : GameBoard) :
  is_grid10 g = true -> is_grid10 g' = true ->
  (forall p, in_range p -> cell_at g p = cell_at g' p) -> g = g'.
Proof.
  intros [Hl Hrows]%is_grid10_spec [Hl' Hrows']%is_grid10_spec Hcells.
  apply list_eq. intros i.
  destruct (g !! i) as [row|] eqn:Hr; destruct (g' !! i) as [row'|] eqn:Hr'.
  - f_equal. apply list_eq. intros j.
    pose proof (Hrows _ _ Hr) as Hlr. pose proof (Hrows' _ _ Hr') as Hlr'.
    apply lookup_lt_Some in Hr as Hi.
    destruct (row !! j) as [c|] eqn:Hc; destruct (row' !! j) as [c'|] eqn:Hc'.
    + f_equal. rewrite <- (cell_at_lookup g i j row c Hr Hc).
      rewrite <- (cell_at_lookup g' i j row' c' Hr' Hc'). apply Hcells.
      apply lookup_lt_Some in Hc. unfold in_range. simpl. lia.
    + apply lookup_lt_Some in Hc. apply lookup_ge_None in Hc'. lia.
    + apply lookup_lt_Some in Hc'. apply lookup_ge_None in Hc. lia.
    + done.
  - apply lookup_lt_Some in Hr. apply lookup_ge_None in Hr'. lia.
  - apply lookup_lt_Some in Hr'. apply lookup_ge_None in Hr. lia.
  - done.
Qed.

(** ** generate_board: the draws and the board *)

Lemma drawn_0 (w : World) : drawn 0 w = w.
Proof. destruct w. unfold drawn. simpl. by rewrite Nat.add_0_r. Qed.

Lemma drawn_drawn (n m : nat) (w : World) : drawn m (drawn n w) = drawn (n + m) w.
Proof. unfold drawn. simpl. by rewrite Nat.add_assoc. Qed.

(** A comprehension over [range(n)] whose body consumes [k] draws. *)
Lemma repeatM_indexed {A} (d : nat -> Q) (k : nat) (f : nat -> A) (m : M World A)
    (n : nat) :
  (forall w, draws w = d -> m w = Ok (f (cursor w)) (drawn k w)) ->
  forall w, draws w = d ->
    repeatM n m w
    = Ok ((fun i => f (cursor w + k * i)%nat) <$> seq 0 n) (drawn (k * n) w).
Proof.
  intros Hm. induction n as [|n IH]; intros w Hd.
  - simpl. unfold ret. by rewrite Nat.mul_0_r, drawn_0.
  - cbn [repeatM]. rewrite (bind_Ok _ _ _ _ _ (Hm w Hd)).
    rewrite (bind_Ok _ _ _ _ _ (IH (drawn k w) Hd)). unfold ret. f_equal.
    + cbn [seq fmap list_fmap]. f_equal.
      * f_equal. lia.
      * rewrite <- fmap_S_seq, <- list_fmap_compose. apply list_fmap_ext.
        intros _ i _. simpl. f_equal. lia.
    + rewrite drawn_drawn. f_equal. lia.
Qed.

Lemma draw_rows (bomb_chance : Q) (w : World) :
  repeatM 10 (repeatM 10 (
      let! r := random in
      ret (if Qle_bool r bomb_chance then Bomb else NumberTag))) w
  = Ok (drawn_board bomb_chance w) (drawn 100 w).
Proof.
  set (cell_from := fun c : nat =>
         if Qle_bool (draws w c) bomb_chance then Bomb else NumberTag).
  assert (forall w1, draws w1 = draws w ->
            (let! r := random in
             ret (if Qle_bool r bomb_chance then Bomb else NumberTag)) w1
            = Ok (cell_from (cursor w1)) (drawn 1 w1)) as Hcell.
  { intros w1 Hd. unfold bind, random, ret, drawn, cell_from.
    by rewrite Hd, Nat.add_1_r. }
  pose proof (repeatM_indexed (draws w) 1 cell_from _ 10 Hcell) as Hrow.
  pose proof (repeatM_indexed (draws w) 10
                (fun c => (fun i => cell_from (c + 1 * i)%nat) <$> seq 0 10) _ 10 Hrow
                w eq_refl) as Hboard.
  rewrite Hboard. reflexivity.
Qed.

Lemma drawn_board_grid10 (bomb_chance : Q) (w : World) :
  is_grid10 (drawn_board bomb_chance w) = true.
Proof. reflexivity. Qed.

Lemma drawn_board_cell (bomb_chance : Q) (w : World) (x y : nat) :
  (x < 10)%nat -> (y < 10)%nat ->
  cell_at (drawn_board bomb_chance w) (Z.of_nat x, Z.of_nat y)
  = drawn_cell bomb_chance w y x.
Proof.
  intros Hx Hy.
  apply (cell_at_lookup _ y x (drawn_cell bomb_chance w y <$> seq 0 10)).
  - unfold drawn_board. rewrite list_lookup_fmap, lookup_seq_lt by done. done.
  - rewrite list_lookup_fmap, lookup_seq_lt by done. done.
Qed.

Lemma in_range_nat (p : Z * Z) :
  in_range p ->
  exists x y, (x < 10)%nat /\ (y < 10)%nat /\ p = (Z.of_nat x, Z.of_nat y).
Proof.
  destruct p as [x y]. unfold in_range. simpl. intros [Hx Hy].
  exists (Z.to_nat x), (Z.to_nat y). split; [lia|split; [lia|]].
  by rewrite !Z2Nat.id by lia.
Qed.

Lemma drawn_board_draw (bomb_chance : Q) (w : World) (p : Z * Z) :
  in_range p -> is_draw (cell_at (drawn_board bomb_chance w) p) = true.
Proof.
  intros (x & y & Hx & Hy & ->)%in_range_nat. rewrite drawn_board_cell by done.
  unfold drawn_cell. by destruct (Qle_bool _ _).
Qed.

(** The board numbered from the cells drawn: bombs stay, every other cell
    counts the bombs around it. *)
Lemma numbered_board (b0 b : GameBoard) :
  is_grid10 b = true ->
  (forall p, in_range p -> is_draw (cell_at b0 p) = true) ->
  (forall p, in_range p -> cell_at b p = numbered b0 p) ->
  is_board b = true /\ counted b /\
  forall p, in_range p -> (cell_at b p = Bomb <-> cell_at b0 p = Bomb).
Proof.
  intros Hg Hdraw Hcells.
  assert (forall q, in_range q -> is_bomb_at b q = is_bomb_at b0 q) as Hbomb.
  { intros q Hq. unfold is_bomb_at at 1. rewrite Hcells by done. apply numbered_bomb. }
  split; [|split].
  - apply is_board_intro; [exact Hg|]. intros p Hp. rewrite Hcells by done.
    unfold numbered. specialize (Hdraw p Hp).
    destruct (cell_at b0 p); try discriminate Hdraw; reflexivity.
  - intros p Hp Hnb.
    assert (is_bomb_at b p = false) as Hnb' by (by apply cell_eqb_neq).
    rewrite <- (bombs_around_neighbours b p Hp Hnb').
    rewrite (bombs_around_ext b0 b) by done.
    rewrite Hcells by done. unfold numbered. specialize (Hdraw _ Hp).
    rewrite Hcells in Hnb by done. unfold numbered in Hnb.
    destruct (cell_at b0 p); try discriminate Hdraw; [by destruct Hnb|reflexivity].
  - intros p Hp. rewrite <- !cell_eqb_eq. fold (is_bomb_at b p) (is_bomb_at b0 p).
    by rewrite Hbomb.
Qed.

(** [generate_board] in full: it consumes 100 draws and nothing else, and
    returns the numbering of the cells drawn. *)
Lemma generate_board_exact (bomb_chance : Q) (w : World) :
  exists b,
    generate_board bomb_chance w = Ok b (drawn 100 w) /\
    is_board b = true /\ counted b /\
    (forall p, in_range p -> cell_at b p = numbered (drawn_board bomb_chance w) p) /\
    (forall p, in_range p ->
       (cell_at b p = Bomb <-> cell_at (drawn_board bomb_chance w) p = Bomb)).
Proof.
  destruct (number_cells_grid10 _ (drawn_board_grid10 bomb_chance w))
    as (b & Hnum & Hg & Hcells).
  destruct (numbered_board _ b Hg (drawn_board_draw bomb_chance w) Hcells)
    as (Hb & Hcount & Hbombs).
  exists b. split; [|done].
  unfold generate_board. rewrite (bind_Ok _ _ _ _ _ (draw_rows bomb_chance w)).
  unfold with_local. by rewrite Hnum.
Qed.

(** X3.  [generate_board] never raises.  It consumes exactly 100 values of
    [random()] and changes nothing else, and the cell of column [x] and
    row [y] is a bomb exactly when the draw of index [10 * y + x] from the
    first one it consumes is at most [bomb_chance]. *)
Theorem generate_board_draw_order (bomb_chance : Q) (w : World) :
  exists b,
    generate_board bomb_chance w = Ok b (drawn 100 w) /\
    forall x y, (x < 10)%nat -> (y < 10)%nat ->
      (cell_at b (Z.of_nat x, Z.of_nat y) = Bomb <->
       (draws w (cursor w + 10 * y + x)%nat <= bomb_chance)%Q).
Proof.
  destruct (generate_board_exact bomb_chance w) as (b & Hrun & _ & _ & _ & Hbombs).
  exists b. split; [exact Hrun|]. clear Hrun. intros x y Hx Hy.
  rewrite Hbombs by (unfold in_range; simpl; lia).
  rewrite drawn_board_cell by done. unfold drawn_cell.
  rewrite <- Qle_bool_iff. by destruct (Qle_bool _ _).
Qed.

Lemma bombs_around_le_8 (g : GameBoard) (p : Z * Z) :
  in_range p -> is_bomb_at g p = false -> 0 <= bombs_around g p <= 8.
Proof.
  intros Hp Hnb. rewrite (bombs_around_neighbours g p Hp Hnb). unfold bomb_neighbours.
  pose proof (List.filter_length_le
    (fun d : Z * Z => on_board (p.1 + d.1, p.2 + d.2) &&
                      cell_eqb (cell_at g (p.1 + d.1, p.2 + d.2)) Bomb) offsets8) as H.
  change (length offsets8) with 8%nat in H. lia.
Qed.

Lemma counted_le_8 (b : GameBoard) (p : Z * Z) (n : Z) :
  counted b -> in_range p -> cell_at b p = Num n -> 0 <= n <= 8.
Proof.
  intros Hcount Hp Hn.
  assert (cell_at b p <> Bomb) as Hnb by (by rewrite Hn).
  pose proof (Hcount p Hp Hnb) as Hc. rewrite Hn in Hc. injection Hc as ->.
  assert (is_bomb_at b p = false) as Hnb' by (by apply cell_eqb_neq).
  rewrite <- (bombs_around_neighbours b p Hp Hnb'). by apply bombs_around_le_8.
Qed.

(** X4.  On the board [generate_board] returns, every cell is a bomb or
    a number from 0 to 8. *)
Theorem generate_board_numbers (bomb_chance : Q) (w : World) :
  exists b w',
    generate_board bomb_chance w = Ok b w' /\
    forall p, in_range p ->
      cell_at b p = Bomb \/ exists n, cell_at b p = Num n /\ 0 <= n <= 8.
Proof.
  destruct (generate_board_exact bomb_chance w) as (b & Hrun & Hb & Hcount & _).
  exists b, (drawn 100 w). split; [exact Hrun|]. clear Hrun. intros p Hp.
  pose proof (is_board_value b p Hb Hp) as Hv.
  destruct (cell_at b p) as [| | | |n] eqn:E; try discriminate Hv; [by left|].
  right. exists n. split; [done|]. by apply (counted_le_8 b p).
Qed.

(** X5.  [bomb_chance] is used as it comes.  With draws in [0, 1), as
    [random()] gives them, a chance of 1 or more makes every cell a bomb
    and a negative chance makes every cell a 0. *)
Theorem bomb_chance_unchecked (bomb_chance : Q) (w : World) :
  (forall n, (0 <= draws w n)%Q /\ (draws w n < 1)%Q) ->
  exists b w',
    generate_board bomb_chance w = Ok b w' /\
    ((1 <= bomb_chance)%Q -> b = bomb_board) /\
    ((bomb_chance < 0)%Q -> b = zero_board).
Proof.
  intros Hdraws.
  destruct (generate_board_exact bomb_chance w) as (b & Hrun & Hb & _ & Hcells & _).
  exists b, (drawn 100 w). split; [exact Hrun|]. clear Hrun.
  pose proof (is_board_grid10 b Hb) as Hg. split.
  - intros Hchance. apply grid10_ext; [done..|].
    intros p Hp. rewrite (Hcells p Hp).
    destruct (in_range_nat p Hp) as (x & y & Hx & Hy & ->).
    unfold numbered. rewrite drawn_board_cell by done. unfold drawn_cell.
    assert (Qle_bool (draws w (cursor w + 10 * y + x)%nat) bomb_chance = true) as ->.
    { apply Qle_bool_iff. destruct (Hdraws (cursor w + 10 * y + x)%nat) as [_ H1].
      apply Qlt_le_weak in H1. by eapply Qle_trans. }
    simpl. symmetry.
    by apply (cell_at_lookup bomb_board y x (replicate 10 Bomb));
      apply lookup_replicate_2.
  - intros Hchance.
    assert (forall q, in_range q -> cell_at (drawn_board bomb_chance w) q = NumberTag)
      as Htag.
    { intros q (x & y & Hx & Hy & ->)%in_range_nat.
      rewrite drawn_board_cell by done. unfold drawn_cell.
      destruct (Qle_bool _ _) eqn:E; [|done]. apply Qle_bool_iff in E.
      destruct (Hdraws (cursor w + 10 * y + x)%nat) as [H0 _].
      exfalso. apply (Qlt_irrefl 0). eapply Qle_lt_trans; [|exact Hchance].
      by eapply Qle_trans. }
    apply grid10_ext; [done..|].
    intros p Hp. rewrite (Hcells p Hp). unfold numbered. rewrite (Htag p Hp). simpl.
    assert (bombs_around (drawn_board bomb_chance w) p = 0) as ->.
    { unfold bombs_around.
      assert (forall l, (forall q, q ∈ l -> in_range q) ->
                List.filter (is_bomb_at (drawn_board bomb_chance w)) l = []) as Hnone.
      { induction l as [|q l IH]; intros Hl; [done|]. simpl.
        unfold is_bomb_at at 1. rewrite (Htag q) by apply Hl, list_elem_of_here.
        simpl. apply IH. intros q' Hq'. by apply Hl, list_elem_of_further. }
      rewrite Hnone; [done|]. intros q Hq. by apply (neighbour_in_range p). }
    destruct (in_range_nat p Hp) as (x & y & Hx & Hy & ->). symmetry.
    by apply (cell_at_lookup zero_board y x (replicate 10 (Num 0)));
      apply lookup_replicate_2.
Qed.

Lemma bomb_chance_unchecked_witness :
  exists b w',
    generate_board 1 (initial (fun _ => (1 # 2)%Q)) = Ok b w' /\
    ((1 <= 1)%Q -> b = bomb_board) /\
    ((1 < 0)%Q -> b = zero_board).
Proof.
  apply (bomb_chance_unchecked 1 (initial (fun _ => (1 # 2)%Q))).
  intros n. split; [discriminate|reflexivity].
Defined.

(** ** CoordinateConverter: the exceptions *)

Lemma length_insert_sorted (c : ascii) (l : list ascii) :
  length (insert_sorted c l) = S (length l).
Proof.
  induction l as [|d l IH]; [done|]. simpl.
  destruct (ord c <=? ord d); simpl; by rewrite ?IH.
Qed.

Lemma length_sorted (l : list ascii) : length (sorted l) = length l.
Proof.
  induction l as [|c l IH]; [done|]. unfold sorted in *. simpl.
  by rewrite length_insert_sorted, IH.
Qed.

Lemma length_list_ascii_of_string (s : string) :
  length (list_ascii_of_string s) = String.length s.
Proof. induction s as [|c s IH]; [done|]. simpl. by rewrite IH. Qed.

Lemma length_lowered (s : string) :
  length (sorted (map lower (list_ascii_of_string s))) = String.length s.
Proof. by rewrite length_sorted, length_map, length_list_ascii_of_string. Qed.

Lemma ord_range (c : ascii) : 0 <= ord c < 256.
Proof. unfold ord. pose proof (N_ascii_bounded c). lia. Qed.

Lemma ord_lower (c : ascii) :
  ord (lower c) = if (65 <=? ord c) && (ord c <=? 90) then ord c + 32 else ord c.
Proof.
  unfold lower. destruct ((65 <=? ord c) && (ord c <=? 90)) eqn:E; [|done].
  apply andb_true_iff in E as [H1%Z.leb_le H2%Z.leb_le].
  unfold ord in *. rewrite N_ascii_embedding by lia. lia.
Qed.

Lemma isdigit_ord (c : ascii) : isdigit c = true <-> 48 <= ord c <= 57.
Proof. unfold isdigit. rewrite andb_true_iff, !Z.leb_le. done. Qed.

(** A lowered character is a digit, or is below the digits, exactly when
    the character is. *)
Lemma lower_low (c : ascii) :
  (isdigit (lower c) = true <-> isdigit c = true) /\
  (ord (lower c) < 48 <-> ord c < 48) /\
  (isdigit c = true \/ ord c < 48 -> lower c = c).
Proof.
  rewrite !isdigit_ord, ord_lower. unfold lower.
  destruct ((65 <=? ord c) && (ord c <=? 90)) eqn:E.
  - apply andb_true_iff in E as [H1%Z.leb_le H2%Z.leb_le]. lia.
  - done.
Qed.

(** What [convert] does with a token of two characters, by the smaller
    and the greater of the two as [sorted] orders them. *)
Lemma convert_two (a b : ascii) (e : exn) :
  convert (String a (String b "")) = inl e ->
  (e = ValueError \/ e = ArgumentParsingError) /\
  (e = ValueError <->
   (isdigit a = true /\ ord b < 48) \/ (isdigit b = true /\ ord a < 48)).
Proof.
  destruct (lower_low a) as (Hda & Hla & Hka). destruct (lower_low b) as (Hdb & Hlb & Hkb).
  pose proof (isdigit_ord a) as Ha. pose proof (isdigit_ord b) as Hb.
  pose proof (isdigit_ord (lower a)) as Ha'. pose proof (isdigit_ord (lower b)) as Hb'.
  unfold convert. cbn [String.length list_ascii_of_string map sorted foldr insert_sorted].
  change (negb ((2 <=? Z.of_nat 2) && (Z.of_nat 2 <=? 3))) with false. cbv iota.
  assert (forall digit letter : ascii,
            (isdigit letter = true -> ord (lower letter) - 97 < 0) ->
            (if negb (isdigit letter) then inl ArgumentParsingError
             else
               let x := ord (lower letter) - 97 in
               match int_of_char digit with
               | None => inl ValueError
               | Some d =>
                   let y := d - 1 in
                   if negb ((0 <=? x) && (x <=? 9)) || negb ((0 <=? y) && (y <=? 9))
                   then inl ArgumentParsingError else inr (x, y)
               end) = (inl e : exn + Z * Z) ->
            (e = ValueError \/ e = ArgumentParsingError) /\
            (e = ValueError <-> isdigit letter = true /\ isdigit digit = false)) as Hbody.
  { intros digit letter Hx. unfold int_of_char.
    destruct (isdigit letter) eqn:El; simpl; [|intros [= <-]; split; [by right|]; split;
      [done|by intros [? _]]].
    specialize (Hx eq_refl).
    destruct (isdigit digit) eqn:Ed; simpl.
    - assert ((0 <=? ord (lower letter) - 97) = false) as -> by (apply Z.leb_gt; lia).
      simpl. intros [= <-]. split; [by right|]. split; [done|by intros [_ ?]].
    - intros [= <-]. split; [by left|]. done. }
  assert (forall c : ascii, isdigit c = true -> ord (lower c) - 97 < 0) as Hneg.
  { intros c Hc. destruct (lower_low c) as (_ & _ & Hk). rewrite Hk by (by left).
    apply isdigit_ord in Hc. lia. }
  destruct (ord (lower a) <=? ord (lower b)) eqn:Ecmp.
  - apply Z.leb_le in Ecmp. intros Hrun.
    destruct (Hbody (lower a) (lower b) (fun H => Hneg _ H) Hrun) as [Hkind Hval].
    split; [exact Hkind|]. rewrite Hval. clear Hrun Hbody Hval Hkind.
    rewrite <- not_true_iff_false. rewrite Ha', Hb', Ha, Hb.
    rewrite Ha', Ha in Hda. rewrite Hb', Hb in Hdb. clear Ha Hb Ha' Hb' Hka Hkb. lia.
  - apply Z.leb_gt in Ecmp. intros Hrun.
    destruct (Hbody (lower b) (lower a) (fun H => Hneg _ H) Hrun) as [Hkind Hval].
    split; [exact Hkind|]. rewrite Hval. clear Hrun Hbody Hval Hkind.
    rewrite <- not_true_iff_false. rewrite Ha', Hb', Ha, Hb.
    rewrite Ha', Ha in Hda. rewrite Hb', Hb in Hdb. clear Ha Hb Ha' Hb' Hka Hkb. lia.
Qed.

(** X1.  On a token of ASCII characters [convert] raises, whatever the
    token, and never returns a coordinate.  The exception is the
    [ArgumentParsingError] of the length test when the token has fewer
    than 2 or more than 3 characters; it is the [ValueError] of the
    unpacking of [sorted(...)] into two names when it has 3; and when it
    has 2, it is the [ValueError] of [int(digit)] exactly when one of the
    two is a digit and the other a character below the digits, and an
    [ArgumentParsingError] otherwise. *)
Theorem convert_errors (coordinate : string) :
  ascii_token coordinate ->
  exists e,
    convert coordinate = inl e /\
    (e = ValueError \/ e = ArgumentParsingError) /\
    (String.length coordinate = 3%nat -> e = ValueError) /\
    ((String.length coordinate < 2)%nat \/ (3 < String.length coordinate)%nat ->
     e = ArgumentParsingError) /\
    (forall a b, coordinate = String a (String b "") ->
       (e = ValueError <->
        (isdigit a = true /\ ord b < 48) \/ (isdigit b = true /\ ord a < 48))).
Proof.
  intros _.
  destruct (convert coordinate) as [e|p] eqn:E;
    [|by destruct (convert_never_returns coordinate p)].
  exists e. split; [done|].
  pose proof (length_lowered coordinate) as Hlen.
  assert (String.length coordinate = 3%nat -> e = ValueError) as H3.
  { intros H3. unfold convert in E. rewrite H3 in E, Hlen. simpl in E.
    destruct (sorted _) as [|a [|b [|c l]]]; try discriminate Hlen. congruence. }
  assert ((String.length coordinate < 2)%nat \/ (3 < String.length coordinate)%nat ->
          e = ArgumentParsingError) as Hout.
  { intros Hout. unfold convert in E.
    destruct (negb _) eqn:Eneg; [congruence|].
    apply negb_false_iff, andb_true_iff in Eneg. lia. }
  split; [|split; [exact H3|split; [exact Hout|]]].
  - destruct coordinate as [|a [|b [|c [|d s]]]].
    + right. apply Hout. simpl. lia.
    + right. apply Hout. simpl. lia.
    + by destruct (convert_two a b e E).
    + left. by apply H3.
    + right. apply Hout. simpl. lia.
  - intros a b ->. by destruct (convert_two a b e E).
Qed.

Lemma convert_errors_witness :
  exists e,
    convert "5!" = inl e /\
    (e = ValueError \/ e = ArgumentParsingError) /\
    (String.length "5!" = 3%nat -> e = ValueError) /\
    ((String.length "5!" < 2)%nat \/ (3 < String.length "5!")%nat ->
     e = ArgumentParsingError) /\
    (forall a b, "5!"%string = String a (String b "") ->
       (e = ValueError <->
        (isdigit a = true /\ ord b < 48) \/ (isdigit b = true /\ ord a < 48))).
Proof.
  apply (convert_errors "5!").
  repeat (apply Forall_cons; split; [reflexivity|]). apply Forall_nil_2.
Defined.

(** ** get_neighbours on the board *)

Lemma block3_NoDup (x y : Z) : NoDup (block3 x y).
Proof.
  unfold block3. simpl.
  repeat (apply NoDup_cons; split;
    [rewrite ?elem_of_cons, elem_of_nil; intros H;
     repeat (destruct H as [H|H]; [injection H; lia|]); exact H|]).
  apply NoDup_nil_2.
Qed.

Lemma get_neighbours_NoDup (x y : Z) : NoDup (get_neighbours x y).
Proof.
  rewrite get_neighbours_block3.
  apply NoDup_ListNoDup, List.NoDup_filter, NoDup_ListNoDup, block3_NoDup.
Qed.

(** X2.  For a cell of the board, [get_neighbours] yields each cell of
    the board at distance at most 1 in both directions exactly once, the
    cell itself included, and no other cell; a cell is among the
    neighbours of another exactly when that one is among its own. *)
Theorem get_neighbours_on_board (x y : Z) :
  in_range (x, y) ->
  NoDup (get_neighbours x y) /\
  (x, y) ∈ get_neighbours x y /\
  (forall q, q ∈ get_neighbours x y <->
     in_range q /\ -1 <= q.1 - x <= 1 /\ -1 <= q.2 - y <= 1) /\
  (forall q, in_range q ->
     (q ∈ get_neighbours x y <-> (x, y) ∈ get_neighbours q.1 q.2)).
Proof.
  intros [Hx Hy]. simpl in Hx, Hy.
  assert (forall q, q ∈ get_neighbours x y <->
            in_range q /\ -1 <= q.1 - x <= 1 /\ -1 <= q.2 - y <= 1) as Hchar.
  { intros [qx qy]. rewrite get_neighbours_spec. unfold in_range. simpl. lia. }
  split; [apply get_neighbours_NoDup|]. split; [|split; [exact Hchar|]].
  - apply Hchar. unfold in_range. simpl. lia.
  - intros [qx qy] [Hqx Hqy]. simpl in Hqx, Hqy. simpl.
    rewrite !get_neighbours_spec. simpl. lia.
Qed.

Lemma get_neighbours_on_board_witness :
  NoDup (get_neighbours 0 9) /\
  (0, 9) ∈ get_neighbours 0 9 /\
  (forall q, q ∈ get_neighbours 0 9 <->
     in_range q /\ -1 <= q.1 - 0 <= 1 /\ -1 <= q.2 - 9 <= 1) /\
  (forall q, in_range q ->
     (q ∈ get_neighbours 0 9 <-> (0, 9) ∈ get_neighbours q.1 q.2)).
Proof. apply (get_neighbours_on_board 0 9). unfold in_range. simpl. lia. Defined.

(** ** MESSAGE_MAPPING and format_for_discord *)

(** Appending to a text that starts with known characters. *)
Ltac str_simpl := cbv beta iota fix delta [String.append].
Ltac str_simpl_in H := cbv beta iota fix delta [String.append] in H.

Lemma str_app_cons (c : ascii) (s t : string) :
  (String c s ++ t)%string = String c (s ++ t)%string.
Proof. reflexivity. Qed.

Lemma str_app_nil_r (s : string) : (s ++ "")%string = s.
Proof. induction s as [|c s IH]; [done|]. by rewrite str_app_cons, IH. Qed.

Lemma str_app_assoc (a b c : string) :
  ((a ++ b) ++ c)%string = (a ++ (b ++ c))%string.
Proof. induction a as [|x a IH]; [done|]. by rewrite !str_app_cons, IH. Qed.

Lemma str_app_inv_head (s a b : string) : (s ++ a)%string = (s ++ b)%string -> a = b.
Proof.
  induction s as [|c s IH]; [done|]. rewrite !str_app_cons. intros [= H]. by apply IH.
Qed.

Lemma concat_empty_cons (t : string) (ts : list string) :
  String.concat "" (t :: ts) = (t ++ String.concat "" ts)%string.
Proof. destruct ts; [by rewrite str_app_nil_r|reflexivity]. Qed.

(** What follows the first of the rows joined by line feeds. *)
Lemma concat_newline_cons (r : string) (rs : list string) :
  String.concat newline (r :: rs)
  = (r ++ match rs with
          | [] => ""
          | _ :: _ => newline ++ String.concat newline rs
          end)%string.
Proof. destruct rs; [by rewrite str_app_nil_r|reflexivity]. Qed.

Lemma MESSAGE_MAPPING_items (c : cell) (t : string) :
  MESSAGE_MAPPING c = Some t <-> In (c, t) MESSAGE_ITEMS.
Proof.
  split.
  - destruct c as [| | | |n]; simpl; try discriminate;
      try (intros [= <-]; auto 20).
    destruct n as [|p|p]; try discriminate; [intros [= <-]; auto 20|].
    do 4 (try destruct p as [p|p|]; try discriminate);
      intros [= <-]; auto 20.
  - simpl. intros H.
    repeat (destruct H as [H|H]; [by injection H as <- <-|]). done.
Qed.

Lemma MESSAGE_MAPPING_None (c : cell) : MESSAGE_MAPPING c = None <-> no_emoji c.
Proof.
  unfold no_emoji. split.
  - destruct c as [| | | |n]; simpl; try discriminate; [by left|].
    intros H. right. exists n. split; [done|].
    destruct n as [|p|p]; [discriminate H| |lia]. right.
    do 4 (try destruct p as [p|p|]; try discriminate H); lia.
  - intros [->|(n & -> & Hn)]; [done|].
    destruct n as [|p|p]; [lia| |done].
    do 4 (try destruct p as [p|p|]; try reflexivity); lia.
Qed.

Lemma MESSAGE_MAPPING_is_Some (c : cell) : is_Some (MESSAGE_MAPPING c) <-> ~ no_emoji c.
Proof.
  rewrite <- MESSAGE_MAPPING_None, <- not_eq_None_Some. done.
Qed.

(** The texts of the dictionary are a prefix code: each starts with a
    colon, and none continues into another. *)
Lemma emoji_colon (c : cell) (t : string) :
  In (c, t) MESSAGE_ITEMS -> exists t', t = String ":" t'.
Proof.
  simpl. intros H.
  repeat (destruct H as [H|H]; [injection H as <- <-; by eexists|]). done.
Qed.

Lemma emoji_prefix_free (c1 c2 : cell) (t1 t2 s1 s2 : string) :
  In (c1, t1) MESSAGE_ITEMS -> In (c2, t2) MESSAGE_ITEMS ->
  (t1 ++ s1)%string = (t2 ++ s2)%string -> c1 = c2 /\ s1 = s2.
Proof.
  simpl. intros H1 H2.
  repeat (destruct H1 as [H1|H1]; [injection H1 as <- <-|]); [..|done];
    (repeat (destruct H2 as [H2|H2]; [injection H2 as <- <-|]); [..|done]);
    str_simpl; intros E; (split; congruence).
Qed.

(** The texts of the cells of a row, followed by the end of the message or
    by a line feed, give the cells back. *)
Lemma cells_inj (row1 row2 : list cell) (ts1 ts2 : list string) (tl1 tl2 : string) :
  mapM MESSAGE_MAPPING row1 = Some ts1 -> mapM MESSAGE_MAPPING row2 = Some ts2 ->
  (tl1 = ""%string \/ exists t, tl1 = (newline ++ t)%string) ->
  (tl2 = ""%string \/ exists t, tl2 = (newline ++ t)%string) ->
  (String.concat "" ts1 ++ tl1)%string = (String.concat "" ts2 ++ tl2)%string ->
  row1 = row2 /\ tl1 = tl2.
Proof.
  intros H1%mapM_Some H2%mapM_Some Hend1 Hend2. revert row2 ts2 H2.
  assert (forall c t s tl, In (c, t) MESSAGE_ITEMS ->
            (tl = ""%string \/ exists t', tl = (newline ++ t')%string) ->
            tl <> (t ++ s)%string) as Hstop.
  { intros c t s tl [t' ->]%emoji_colon [->|[t'' ->]]; str_simpl; discriminate. }
  induction H1 as [|c1 t1 row1 ts1 Hc1 _ IH]; intros row2 ts2 H2;
    destruct H2 as [|c2 t2 row2 ts2 Hc2 H2]; rewrite ?concat_empty_cons, ?str_app_assoc.
  - done.
  - intros E. apply MESSAGE_MAPPING_items in Hc2. by destruct (Hstop _ _ _ _ Hc2 Hend1 E).
  - intros E. apply MESSAGE_MAPPING_items in Hc1.
    by destruct (Hstop _ _ _ _ Hc1 Hend2 (eq_sym E)).
  - intros E. apply MESSAGE_MAPPING_items in Hc1, Hc2.
    destruct (emoji_prefix_free _ _ _ _ _ _ Hc1 Hc2 E) as [-> E'].
    destruct (IH row2 ts2 H2 E') as [-> ->]. done.
Qed.

Lemma format_rows_cons (k : nat) (row : list cell) (rest : GameBoard)
    (rows : list string) :
  format_rows k (row :: rest) = Some rows <->
  exists label cells rows',
    MESSAGE_MAPPING (Num (Z.of_nat k + 1)) = Some label /\
    mapM MESSAGE_MAPPING row = Some cells /\
    format_rows (S k) rest = Some rows' /\
    rows = (label ++ "    " ++ String.concat "" cells)%string :: rows'.
Proof.
  cbn [format_rows]. unfold format_row. split.
  - destruct (MESSAGE_MAPPING (Num _)) as [label|]; [|done]. simpl.
    destruct (mapM MESSAGE_MAPPING row) as [cells|]; [|done]. simpl.
    destruct (format_rows (S k) rest) as [rows'|]; [|done]. simpl.
    intros [= <-]. by exists label, cells, rows'.
  - intros (label & cells & rows' & -> & -> & -> & ->). done.
Qed.

Lemma format_rows_nil (k : nat) (b : GameBoard) : format_rows k b = Some [] -> b = [].
Proof.
  destruct b as [|row rest]; [done|].
  by intros (? & ? & ? & _ & _ & _ & ?)%format_rows_cons.
Qed.

Lemma rows_inj (k : nat) (b1 b2 : GameBoard) (rows1 rows2 : list string) :
  format_rows k b1 = Some rows1 -> format_rows k b2 = Some rows2 ->
  String.concat newline rows1 = String.concat newline rows2 -> b1 = b2.
Proof.
  assert (forall k row rest rows, format_rows k (row :: rest) = Some rows ->
            String.concat newline rows <> ""%string) as Hrow.
  { intros k' row rest rows (label & cells & rows' & Hl & _ & _ & ->)%format_rows_cons.
    rewrite concat_newline_cons, !str_app_assoc.
    apply MESSAGE_MAPPING_items, emoji_colon in Hl as [t ->]. str_simpl. discriminate. }
  revert k b2 rows1 rows2.
  induction b1 as [|row1 rest1 IH]; intros k b2 rows1 rows2 H1 H2 E.
  - injection H1 as <-. destruct b2 as [|row2 rest2]; [done|].
    by destruct (Hrow _ _ _ _ H2).
  - destruct b2 as [|row2 rest2].
    { injection H2 as <-. by destruct (Hrow _ _ _ _ H1). }
    apply format_rows_cons in H1 as (label & cells1 & rs1 & Hl & Hc1 & Hr1 & ->).
    apply format_rows_cons in H2 as (label' & cells2 & rs2 & Hl' & Hc2 & Hr2 & ->).
    rewrite Hl in Hl'. injection Hl' as <-.
    rewrite !concat_newline_cons, !str_app_assoc in E.
    apply str_app_inv_head, str_app_inv_head in E.
    apply (cells_inj row1 row2) in E as [-> E]; [|done|done|..].
    + f_equal. destruct rs1 as [|r1 rs1], rs2 as [|r2 rs2].
      * apply format_rows_nil in Hr1, Hr2. by subst.
      * revert E. str_simpl. discriminate.
      * revert E. str_simpl. discriminate.
      * apply (str_app_inv_head newline) in E. by apply (IH (S k) _ _ _ Hr1 Hr2).
    + destruct rs1; [by left|right; by eexists].
    + destruct rs2; [by left|right; by eexists].
Qed.

(** X7.  Two grids that [format_for_discord] formats differ in their
    texts when they differ: the text shows every cell of the grid. *)
Theorem format_for_discord_injective (b1 b2 : GameBoard) (t1 t2 : string) :
  format_for_discord b1 = inr t1 -> format_for_discord b2 = inr t2 ->
  b1 <> b2 -> t1 <> t2.
Proof.
  unfold format_for_discord.
  destruct (format_rows 0 b1) as [rows1|] eqn:H1; [|done].
  destruct (format_rows 0 b2) as [rows2|] eqn:H2; [|done].
  intros [= <-] [= <-] Hne E. apply Hne.
  apply str_app_inv_head in E. by apply (rows_inj 0 b1 b2 rows1 rows2).
Qed.

Lemma format_for_discord_injective_witness :
  (column_letters ++ ":one:    :grey_question:")%string
  <> (column_letters ++ ":one:    :triangular_flag_on_post:")%string.
Proof.
  apply (format_for_discord_injective [[Hidden]] [[Flag]]);
    [reflexivity|reflexivity|discriminate].
Defined.

(** When [format_rows] finds every key. *)
Lemma format_rows_is_Some (k : nat) (b : GameBoard) :
  (k <= 10)%nat ->
  (is_Some (format_rows k b) <->
   (k + length b <= 10)%nat /\
   forall row c, row ∈ b -> c ∈ row -> ~ no_emoji c).
Proof.
  revert k. induction b as [|row rest IH]; intros k Hk.
  - simpl. split; [intros _|by eexists]. split; [lia|].
    intros row c Hrow. by apply elem_of_nil in Hrow.
  - assert (is_Some (MESSAGE_MAPPING (Num (Z.of_nat k + 1))) <-> (k < 10)%nat) as Hlabel.
    { rewrite MESSAGE_MAPPING_is_Some. unfold no_emoji. split.
      - intros Hn. destruct (decide (k < 10)%nat) as [|Hge]; [done|].
        destruct Hn. right. eexists. split; [done|]. lia.
      - intros Hlt [?|(n & [= <-] & Hn)]; [done|]. lia. }
    assert (is_Some (mapM MESSAGE_MAPPING row) <-> forall c, c ∈ row -> ~ no_emoji c)
      as Hcells.
    { rewrite mapM_is_Some, Forall_forall.
      split; intros H c Hc; apply MESSAGE_MAPPING_is_Some, H, Hc. }
    split.
    + intros [rows (label & cells & rows' & Hl & Hc & Hr & _)%format_rows_cons].
      assert (k < 10)%nat as Hlt by (apply Hlabel; by eexists).
      assert (is_Some (format_rows (S k) rest)) as Hrest by (by eexists).
      apply IH in Hrest as [Hlen Hall]; [|lia].
      split; [simpl; lia|]. intros row' c [->|Hin]%elem_of_cons Hc'.
      * apply Hcells; [by eexists|done].
      * by apply (Hall row').
    + intros [Hlen Hall]. simpl in Hlen.
      assert (k < 10)%nat as Hlt by lia.
      apply Hlabel in Hlt as [label Hl].
      assert (is_Some (mapM MESSAGE_MAPPING row)) as [cells Hc].
      { apply Hcells. intros c Hc. apply (Hall row); [apply list_elem_of_here|done]. }
      assert (is_Some (format_rows (S k) rest)) as [rows' Hr].
      { apply IH; [lia|]. split; [lia|].
        intros row' c Hrow'. apply Hall. by apply list_elem_of_further. }
      eexists. apply format_rows_cons. by exists label, cells, rows'.
Qed.

Lemma renders_iff (b : GameBoard) :
  renders b <->
  (length b <= 10)%nat /\ forall row c, row ∈ b -> c ∈ row -> ~ no_emoji c.
Proof.
  rewrite <- (format_rows_is_Some 0 b) by lia. unfold renders, format_for_discord.
  destruct (format_rows 0 b) as [rows|]; split.
  - by eexists.
  - intros _. by eexists.
  - by intros [text H].
  - by intros [rows H].
Qed.

Lemma mapM_None {A B} (f : A -> option B) (l : list A) :
  mapM f l = None -> exists a, a ∈ l /\ f a = None.
Proof.
  induction l as [|a l IH]; [done|]. cbn [mapM].
  destruct (f a) as [y|] eqn:E; [|intros _; exists a; split; [apply list_elem_of_here|done]].
  simpl. destruct (mapM f l) as [k|]; [done|]. intros _.
  destruct IH as (a' & Ha' & Hf); [done|]. exists a'. split; [|done].
  by apply list_elem_of_further.
Qed.

Lemma format_rows_None (k : nat) (b : GameBoard) :
  (k <= 10)%nat -> format_rows k b = None ->
  (10 < k + length b)%nat \/ exists row c, row ∈ b /\ c ∈ row /\ no_emoji c.
Proof.
  revert k. induction b as [|row rest IH]; intros k Hk; [done|].
  cbn [format_rows]. unfold format_row.
  destruct (MESSAGE_MAPPING (Num _)) as [label|] eqn:Hl.
  - assert (k < 10)%nat as Hlt.
    { destruct (decide (k < 10)%nat) as [|Hge]; [done|].
      assert (no_emoji (Num (Z.of_nat k + 1))) as Hn%MESSAGE_MAPPING_None
        by (right; eexists; split; [done|lia]).
      by rewrite Hn in Hl. }
    simpl. destruct (mapM MESSAGE_MAPPING row) as [cells|] eqn:Hc.
    + simpl. destruct (format_rows (S k) rest) as [rows|] eqn:Hr; [done|]. intros _.
      destruct (IH (S k)) as [Hlen|(row' & c & Hrow' & Hc' & Hbad)]; [lia|done|..].
      * left. simpl. lia.
      * right. exists row', c. split; [by apply list_elem_of_further|done].
    + intros _. right. apply mapM_None in Hc as (c & Hc & Hbad%MESSAGE_MAPPING_None).
      exists row, c. split; [apply list_elem_of_here|done].
  - intros _. left. apply MESSAGE_MAPPING_None in Hl as [?|(n & [= <-] & Hn)]; [done|].
    simpl. lia.
Qed.

(** X6.  [format_for_discord] raises [KeyError] exactly on a grid of more
    than 10 rows, whose eleventh row has no label in [MESSAGE_MAPPING],
    and on a grid with a cell that is no key of [MESSAGE_MAPPING]: the
    placeholder "number" or an integer outside 0 to 10.  On every other
    grid, of any shape, it returns a text. *)
Theorem format_for_discord_KeyError (b : GameBoard) :
  (format_for_discord b = inl KeyError <->
   (10 < length b)%nat \/
   exists row c, row ∈ b /\ c ∈ row /\
     (c = NumberTag \/ exists n, c = Num n /\ (n < 0 \/ 10 < n))) /\
  (format_for_discord b <> inl KeyError -> exists text, format_for_discord b = inr text).
Proof.
  pose proof (renders_iff b) as Hr. unfold renders, no_emoji in Hr.
  split.
  - split.
    + intros E. unfold format_for_discord in E.
      destruct (format_rows 0 b) as [rows|] eqn:Hrows; [done|].
      by apply (format_rows_None 0 b) in Hrows; [|lia].
    + intros Hbad.
      destruct (format_for_discord b) as [[]|text] eqn:E; try done;
        try (unfold format_for_discord in E; by destruct (format_rows 0 b)).
      destruct Hr as [Hr _]. destruct Hr as [Hlen Hall]; [by eexists|].
      destruct Hbad as [Hlong|(row & c & Hrow & Hc & Hbad)].
      * lia.
      * by destruct (Hall row c Hrow Hc).
  - intros Hne. unfold format_for_discord in *.
    destruct (format_rows 0 b); [by eexists|done].
Qed.

(** ** The commands in full *)

Lemma playing_total (w : World) (ctx : Ctx) (g : Game) (r b : GameBoard) :
  playing w ctx g r b -> heap w !!! revealed g = r /\ heap w !!! board g = b.
Proof. intros (_ & _ & Hr & Hb & _). split; by apply lookup_total_Some. Qed.

Lemma emit_two (e1 e2 : event) (w : World) :
  (emit e1 ;;; emit e2) w = Ok tt (say [e1; e2] w).
Proof. by rewrite (bind_Ok _ _ _ _ _ (emit_say e1 w)), emit_say, say_say. Qed.

(** [start_command] for a player who has no game. *)
Lemma start_command_fresh (ctx : Ctx) (bomb_chance : Q) (w : World) :
  games w !! author ctx = None ->
  exists b,
    generate_board bomb_chance w = Ok b (drawn 100 w) /\
    is_board b = true /\ counted b /\
    start_command ctx bomb_chance w = Ok tt (with_new_game ctx b w).
Proof.
  intros Hg.
  destruct (generate_board_exact bomb_chance w) as (b & Hgen & Hb & Hcount & _).
  exists b. split; [exact Hgen|]. split; [exact Hb|]. split; [exact Hcount|].
  unfold start_command. unfold bind at 1. unfold get_state at 1. rewrite Hg.
  rewrite (bind_Ok _ _ _ _ _ Hgen). clear Hgen.
  rewrite (bind_Ok _ _ _ _ _ (eq_refl : alloc b _ = Ok _ _)).
  rewrite (bind_Ok _ _ _ _ _ (eq_refl : alloc hidden_board _ = Ok _ _)).
  unfold with_new_game, start_messages. destruct (guild ctx).
  - rewrite (bind_Ok _ _ _ _ _ (emit_two _ _ _)).
    rewrite (bind_Ok _ _ _ _ _ (emit_say _ _)), say_say.
    rewrite (bind_Ok _ _ _ _ _ (emit_say _ _)), say_say.
    unfold modify, set_games, say, drawn.
    cbn [heap next_loc games draws cursor outbox app]. reflexivity.
  - rewrite (bind_Ok _ _ _ _ _ (eq_refl : ret tt _ = Ok tt _)).
    rewrite (bind_Ok _ _ _ _ _ (emit_say _ _)).
    rewrite (bind_Ok _ _ _ _ _ (emit_say _ _)), say_say.
    unfold modify, set_games, say, drawn.
    cbn [heap next_loc games draws cursor outbox app]. reflexivity.
Qed.

(** [start_command] for a player who has one. *)
Lemma start_command_running (ctx : Ctx) (bomb_chance : Q) (w : World) (g : Game) :
  games w !! author ctx = Some g ->
  start_command ctx bomb_chance w
  = Ok tt (say [SendChannel AlreadyRunning; DeleteCommand] w).
Proof.
  intros Hg. unfold start_command. unfold bind at 1. unfold get_state at 1.
  rewrite Hg. unfold bind, emit, say. simpl. by rewrite <- app_assoc.
Qed.

(** X8.  For a player who has no game, [start_command] never raises.  It
    stores a record whose board is a new grid holding the board that
    [generate_board] returns for the draws at hand, a board of bombs and
    of the counts of the bombs around each cell, and whose revealed grid
    is another new grid, all Hidden; it leaves the records of the other
    players and every grid allocated before as they were, consumes 100
    draws, and sends the instructions and the hidden grid to the player,
    after the announcement and the hidden grid to the channel when the
    command came from a guild. *)
Theorem start_command_new_game (ctx : Ctx) (bomb_chance : Q) (w : World) :
  games w !! author ctx = None ->
  exists b w',
    generate_board bomb_chance w = Ok b (drawn 100 w) /\
    is_board b = true /\ counted b /\
    start_command ctx bomb_chance w = Ok tt w' /\
    games w' = <[author ctx := mkGame (next_loc w) (S (next_loc w)) (guild ctx)]> (games w) /\
    next_loc w' = S (S (next_loc w)) /\
    heap w' = <[S (next_loc w) := hidden_board]> (<[next_loc w := b]> (heap w)) /\
    heap w' !! next_loc w = Some b /\
    heap w' !! S (next_loc w) = Some hidden_board /\
    (forall l, (l < next_loc w)%nat -> heap w' !! l = heap w !! l) /\
    draws w' = draws w /\ cursor w' = (cursor w + 100)%nat /\
    outbox w' = outbox w ++ start_messages ctx.
Proof.
  intros Hg.
  destruct (start_command_fresh ctx bomb_chance w Hg) as (b & Hgen & Hb & Hcount & Hrun).
  exists b, (with_new_game ctx b w). split; [exact Hgen|]. clear Hgen.
  split; [exact Hb|]. split; [exact Hcount|]. split; [exact Hrun|]. clear Hrun.
  split; [reflexivity|]. split; [reflexivity|]. split; [reflexivity|]. simpl.
  split; [by rewrite lookup_insert_ne, lookup_insert_eq by lia|].
  split; [by rewrite lookup_insert_eq|].
  split; [|done]. intros l Hl. by rewrite !lookup_insert_ne by lia.
Qed.

Lemma start_command_new_game_witness :
  exists b w',
    generate_board (1 # 5) (initial one_bomb_draws)
    = Ok b (drawn 100 (initial one_bomb_draws)) /\
    is_board b = true /\ counted b /\
    start_command player (1 # 5) (initial one_bomb_draws) = Ok tt w' /\
    games w' = <[author player := mkGame 0%nat 1%nat (guild player)]> ∅ /\
    next_loc w' = 2%nat /\
    heap w' = <[1%nat := hidden_board]> (<[0%nat := b]> ∅) /\
    heap w' !! 0%nat = Some b /\
    heap w' !! 1%nat = Some hidden_board /\
    (forall l, (l < 0)%nat -> heap w' !! l = (∅ : gmap loc GameBoard) !! l) /\
    draws w' = one_bomb_draws /\ cursor w' = 100%nat /\
    outbox w' = [] ++ start_messages player.
Proof.
  apply (start_command_new_game player (1 # 5) (initial one_bomb_draws)).
  reflexivity.
Defined.

(** X9.  Without a record of the player, [flag_command],
    [reveal_command] and [end_command] raise the [KeyError] of
    [self.games[ctx.author.id]] before they do anything: nothing is
    written and nothing is sent. *)
Theorem no_game_KeyError (fuel : nat) (ctx : Ctx) (coordinates : list (Z * Z))
    (w : World) :
  games w !! author ctx = None ->
  flag_command ctx coordinates w = Raise KeyError w /\
  reveal_command fuel ctx coordinates w = Raise KeyError w /\
  end_command ctx w = Raise KeyError w.
Proof.
  intros Hg. pose proof (the_game_None ctx w Hg) as Hraise.
  split; [|split].
  - unfold flag_command. by rewrite (bind_Raise _ _ _ _ _ Hraise).
  - unfold reveal_command. by rewrite (bind_Raise _ _ _ _ _ Hraise).
  - unfold end_command, disclose.
    by rewrite (bind_Raise _ _ _ _ _ (bind_Raise _ _ _ _ _ Hraise)).
Qed.

Lemma no_game_KeyError_witness :
  flag_command player [(0, 0)] (initial one_bomb_draws)
  = Raise KeyError (initial one_bomb_draws) /\
  reveal_command 101 player [(0, 0)] (initial one_bomb_draws)
  = Raise KeyError (initial one_bomb_draws) /\
  end_command player (initial one_bomb_draws) = Raise KeyError (initial one_bomb_draws).
Proof.
  apply (no_game_KeyError 101 player [(0, 0)] (initial one_bomb_draws)). reflexivity.
Defined.

(** [end_command] for a player who has a game. *)
Lemma end_command_exact (ctx : Ctx) (w : World) (g : Game) :
  games w !! author ctx = Some g ->
  end_command ctx w
  = Ok tt (set_games (delete (author ctx))
             (say (end_messages g (heap w !!! board g)) (disclosed ctx g w))).
Proof.
  intros Hg. unfold end_command.
  rewrite (bind_Ok _ _ _ _ _ (disclose_Some ctx w g Hg)).
  assert (games (disclosed ctx g w) !! author ctx
          = Some (mkGame (board g) (board g) (activated_on_server g))) as Hg1
    by apply lookup_insert_eq.
  rewrite (bind_Ok _ _ _ _ _ (update_boards_Some ctx _ _ Hg1)).
  unfold bind at 1. unfold deref at 1.
  rewrite (bind_Ok _ _ _ _ _ (emit_say _ _)), say_say.
  unfold end_messages.
  destruct (activated_on_server g) eqn:Ea.
  - rewrite (bind_Ok _ _ _ _ _ (emit_say _ _)), say_say.
    rewrite (del_game_Some ctx (say _ (disclosed ctx g w)) _ Hg1).
    rewrite <- app_assoc. reflexivity.
  - rewrite (bind_Ok _ _ _ _ _ (eq_refl : ret tt _ = Ok tt _)).
    rewrite (del_game_Some ctx (say _ (disclosed ctx g w)) _ Hg1). reflexivity.
Qed.

(** X18.  [end_command] succeeds for any record the player has: it shows
    the board, marks the messages as canceled, removes the record and
    writes to no grid.  The player can then start again: the next
    [start_command] makes a new game on two new grids. *)
Theorem end_then_start (ctx : Ctx) (bomb_chance : Q) (w : World) (g : Game) :
  games w !! author ctx = Some g ->
  exists w1 w2,
    end_command ctx w = Ok tt w1 /\
    games w1 = delete (author ctx) (games w) /\
    heap w1 = heap w /\
    outbox w1 = outbox w ++ end_messages g (heap w !!! board g) /\
    start_command ctx bomb_chance w1 = Ok tt w2 /\
    games w2 !! author ctx
    = Some (mkGame (next_loc w) (S (next_loc w)) (guild ctx)) /\
    forall l, (l < next_loc w)%nat -> heap w2 !! l = heap w !! l.
Proof.
  intros Hg.
  set (w1 := set_games (delete (author ctx))
               (say (end_messages g (heap w !!! board g)) (disclosed ctx g w))).
  assert (games w1 !! author ctx = None) as Hnone by apply lookup_delete_eq.
  destruct (start_command_fresh ctx bomb_chance w1 Hnone) as (b & _ & _ & _ & Hstart).
  exists w1, (with_new_game ctx b w1).
  split; [by apply end_command_exact|].
  split; [apply delete_insert_eq|].
  split; [reflexivity|]. split; [reflexivity|]. split; [exact Hstart|].
  split; [apply lookup_insert_eq|].
  intros l Hl. simpl. by rewrite !lookup_insert_ne by lia.
Qed.

Lemma end_then_start_witness :
  exists w1 w2,
    end_command player started = Ok tt w1 /\
    games w1 = delete (author player) (games started) /\
    heap w1 = heap started /\
    outbox w1
    = outbox started ++ end_messages (mkGame 0%nat 1%nat false) (heap started !!! 0%nat) /\
    start_command player (1 # 5) w1 = Ok tt w2 /\
    games w2 !! author player
    = Some (mkGame (next_loc started) (S (next_loc started)) (guild player)) /\
    forall l, (l < next_loc started)%nat -> heap w2 !! l = heap started !! l.
Proof.
  apply (end_then_start player (1 # 5) started (mkGame 0%nat 1%nat false)).
  vm_compute. reflexivity.
Defined.

Lemma bind_congr {S A B} (m m' : M S A) (k : A -> M S B) (s : S) :
  m s = m' s -> bind m k s = bind m' k s.
Proof. unfold bind. by intros ->. Qed.

(** ** Indices off the grid *)

Lemma py_index_out {A} (l : list A) (i : Z) :
  ~ (- Z.of_nat (length l) <= i < Z.of_nat (length l)) -> py_index l i = None.
Proof.
  intros Hi. unfold py_index.
  destruct ((0 <=? i) && (i <? Z.of_nat (length l))) eqn:E1.
  { apply andb_true_iff in E1 as [?%Z.leb_le ?%Z.ltb_lt]. lia. }
  destruct ((- Z.of_nat (length l) <=? i) && (i <? 0)) eqn:E2; [|done].
  apply andb_true_iff in E2 as [?%Z.leb_le ?%Z.ltb_lt]. lia.
Qed.

Lemma py_index_wrap {A} (l : list A) (i : Z) :
  0 <= i < Z.of_nat (length l) -> py_index l (i - Z.of_nat (length l)) = py_index l i.
Proof.
  intros Hi. rewrite (py_index_nonneg l i Hi). unfold py_index.
  assert ((0 <=? i - Z.of_nat (length l)) = false) as -> by (apply Z.leb_gt; lia).
  assert ((- Z.of_nat (length l) <=? i - Z.of_nat (length l)) = true) as ->
    by (apply Z.leb_le; lia).
  assert ((i - Z.of_nat (length l) <? 0) = true) as -> by (apply Z.ltb_lt; lia).
  simpl. do 2 f_equal. lia.
Qed.

Lemma py_index_is_Some {A} (l : list A) (i : Z) (k : nat) :
  py_index l i = Some k -> - Z.of_nat (length l) <= i < Z.of_nat (length l).
Proof.
  intros H. destruct (decide (- Z.of_nat (length l) <= i < Z.of_nat (length l)));
    [done|]. by rewrite py_index_out in H.
Qed.

(** Outside [-10, 9] an index of a 10x10 grid raises. *)
Lemma grid_get_out (g : GameBoard) (x y : Z) :
  is_grid10 g = true -> ~ (-10 <= x <= 9 /\ -10 <= y <= 9) -> grid_get g x y = None.
Proof.
  intros [Hl Hrows]%is_grid10_spec Hout. unfold grid_get, getitem.
  destruct (py_index g y) as [i|] eqn:Ey; [|done]. simpl.
  apply py_index_is_Some in Ey as Hy. rewrite Hl in Hy.
  destruct (g !! i) as [row|] eqn:Er; [|done]. simpl.
  rewrite py_index_out; [done|]. rewrite (Hrows _ _ Er). lia.
Qed.

(** A negative index from -10 on counts from the end. *)
Lemma grid_wrap (g : GameBoard) (x y x' y' : Z) (v : cell) :
  is_grid10 g = true -> in_range (x, y) ->
  x' = x \/ x' = x - 10 -> y' = y \/ y' = y - 10 ->
  grid_get g x' y' = grid_get g x y /\ grid_set g x' y' v = grid_set g x y v.
Proof.
  intros [Hl Hrows]%is_grid10_spec [Hx Hy] Hx' Hy'. simpl in Hx, Hy.
  assert (py_index g y' = py_index g y) as Ey.
  { destruct Hy' as [->| ->]; [done|].
    replace 10 with (Z.of_nat (length g)) by (rewrite Hl; done).
    apply py_index_wrap. rewrite Hl. lia. }
  unfold grid_get, grid_set, getitem, setitem. rewrite Ey.
  destruct (py_index g y) as [i|]; [|done]. simpl.
  destruct (g !! i) as [row|] eqn:Er; [|done]. simpl.
  assert (py_index row x' = py_index row x) as ->; [|done].
  destruct Hx' as [->| ->]; [done|].
  replace 10 with (Z.of_nat (length row)) by (rewrite (Hrows _ _ Er); done).
  apply py_index_wrap. rewrite (Hrows _ _ Er). lia.
Qed.

(** ** flag_command in full *)

(** The loop of [flag_command]: the cells it names that are Hidden become
    flags, every other cell stays. *)
Lemma flag_loop_exact (rv : loc) (coordinates : list (Z * Z)) (w : World)
    (r : GameBoard) :
  heap w !! rv = Some r -> is_grid10 r = true ->
  (forall c, c ∈ coordinates -> in_range c) ->
  exists r',
    for_each coordinates (fun '(x, y) =>
      let! c := read rv x y in
      if cell_eqb c Hidden then write rv x y Flag else ret tt) w
    = Ok tt (set_heap (insert rv r') w) /\
    is_grid10 r' = true /\
    forall q, in_range q ->
      (q ∈ coordinates -> cell_at r q = Hidden -> cell_at r' q = Flag) /\
      (~ (q ∈ coordinates /\ cell_at r q = Hidden) -> cell_at r' q = cell_at r q).
Proof.
  revert w r. induction coordinates as [|[x y] l IH]; intros w r Hr Hg Hl.
  { exists r. split; [|split; [done|]].
    - simpl. unfold ret. by rewrite set_heap_id.
    - intros q _. split; [by intros ?%elem_of_nil|done]. }
  assert (in_range (x, y)) as Hp by apply Hl, list_elem_of_here.
  assert (forall c, c ∈ l -> in_range c) as Hl'
    by (intros c Hc; by apply Hl, list_elem_of_further).
  rewrite for_each_cons.
  rewrite (bind_Ok _ _ _ _ _ (read_xy w rv r x y Hr Hg Hp)).
  destruct (cell_eqb (cell_at r (x, y)) Hidden) eqn:Eh.
  - apply cell_eqb_eq in Eh.
    rewrite (write_xy w rv r x y Flag Hr Hg Hp).
    destruct (IH _ (set_cell r (x, y) Flag) (heap_set_heap_eq w rv _)
                (set_cell_grid10 r (x, y) Flag Hg) Hl') as (r' & Hrun & Hg' & Hch).
    exists r'. rewrite Hrun, set_heap_twice. split; [done|]. split; [done|].
    intros q Hq. destruct (Hch q Hq) as [Hflag Hsame].
    rewrite cell_at_set_cell in Hflag, Hsame by done.
    destruct (decide ((x, y) = q)) as [<-|Hne].
    + split; [intros _ _; apply Hsame; by intros [_ ?]|].
      intros Hn. destruct Hn. split; [apply list_elem_of_here|done].
    + split.
      * intros [->|Hin]%elem_of_cons; [done|]. by apply Hflag.
      * intros Hn. apply Hsame. intros [Hin Hh]. apply Hn.
        split; [by apply list_elem_of_further|done].
  - apply cell_eqb_neq in Eh.
    destruct (IH w r Hr Hg Hl') as (r' & Hrun & Hg' & Hch).
    exists r'. split; [exact Hrun|]. split; [done|].
    intros q Hq. destruct (Hch q Hq) as [Hflag Hsame]. split.
    + intros [->|Hin]%elem_of_cons Hh; [done|]. by apply Hflag.
    + intros Hn. apply Hsame. intros [Hin Hh]. apply Hn.
      split; [by apply list_elem_of_further|done].
Qed.

Lemma flag_command_exact (ctx : Ctx) (w : World) (g : Game) (r b : GameBoard)
    (coordinates : list (Z * Z)) :
  playing w ctx g r b -> (forall c, c ∈ coordinates -> in_range c) ->
  exists r',
    flag_command ctx coordinates w
    = Ok tt (say (board_messages g r') (set_heap (insert (revealed g) r') w)) /\
    is_grid10 r' = true /\
    forall q, in_range q ->
      (q ∈ coordinates -> cell_at r q = Hidden -> cell_at r' q = Flag) /\
      (~ (q ∈ coordinates /\ cell_at r q = Hidden) -> cell_at r' q = cell_at r q).
Proof.
  intros (Hg & Hne & Hr & Hb & Hgr & Hbd) Hl.
  destruct (flag_loop_exact (revealed g) coordinates w r Hr Hgr Hl)
    as (r' & Hrun & Hg' & Hch).
  exists r'. split; [|done].
  unfold flag_command. rewrite (bind_Ok _ _ _ _ _ (the_game_Some ctx w g Hg)).
  rewrite (bind_Ok _ _ _ _ _ Hrun).
  rewrite (update_boards_Some ctx (set_heap (insert (revealed g) r') w) g Hg).
  by rewrite (lookup_total_Some _ _ _ (heap_set_heap_eq w (revealed g) r')).
Qed.

(** X10.  A coordinate outside [-10, 9] makes [flag_command] raise
    [IndexError] when its turn comes: the flags of the coordinates before
    it are placed and stay, those after it are not looked at, and no
    message is sent, so that the grid shown to the player is no longer
    the grid of the record. *)
Theorem flag_command_IndexError (ctx : Ctx) (w : World) (g : Game) (r b : GameBoard)
    (before : list (Z * Z)) (x y : Z) (rest : list (Z * Z)) :
  playing w ctx g r b -> (forall c, c ∈ before -> in_range c) ->
  ~ (-10 <= x <= 9 /\ -10 <= y <= 9) ->
  exists r',
    flag_command ctx (before ++ (x, y) :: rest) w
    = Raise IndexError (set_heap (insert (revealed g) r') w) /\
    forall q, in_range q ->
      (q ∈ before -> cell_at r q = Hidden -> cell_at r' q = Flag) /\
      (~ (q ∈ before /\ cell_at r q = Hidden) -> cell_at r' q = cell_at r q).
Proof.
  intros (Hg & Hne & Hr & Hb & Hgr & Hbd) Hl Hout.
  destruct (flag_loop_exact (revealed g) before w r Hr Hgr Hl)
    as (r' & Hrun & Hg' & Hch).
  exists r'. split; [|done].
  unfold flag_command. rewrite (bind_Ok _ _ _ _ _ (the_game_Some ctx w g Hg)).
  apply bind_Raise. rewrite for_each_app. rewrite (bind_Ok _ _ _ _ _ Hrun).
  rewrite for_each_cons. unfold bind at 1. unfold read at 1.
  rewrite (lookup_total_Some _ _ _ (heap_set_heap_eq w (revealed g) r')).
  by rewrite (grid_get_out r' x y Hg' Hout).
Qed.

Lemma flag_command_IndexError_witness :
  exists r',
    flag_command player ([(0, 0)] ++ (10, 0) :: [(1, 1)]) started
    = Raise IndexError (set_heap (insert 1%nat r') started) /\
    forall q, in_range q ->
      (q ∈ [(0, 0)] -> cell_at hidden_board q = Hidden -> cell_at r' q = Flag) /\
      (~ (q ∈ [(0, 0)] /\ cell_at hidden_board q = Hidden) ->
       cell_at r' q = cell_at hidden_board q).
Proof.
  assert (playing started player (mkGame 0%nat 1%nat false) hidden_board one_bomb_board)
    as Hplay by (repeat split; try (vm_compute; reflexivity); discriminate).
  assert (forall c, c ∈ [(0, 0)] -> in_range c) as Hl
    by (intros c ->%list_elem_of_singleton; unfold in_range; simpl; lia).
  assert (~ (-10 <= 10 <= 9 /\ -10 <= 0 <= 9)) as Hout by lia.
  exact (flag_command_IndexError player started (mkGame 0%nat 1%nat false)
           hidden_board one_bomb_board [(0, 0)] 10 0 [(1, 1)] Hplay Hl Hout).
Defined.

(** X11.  A coordinate from -10 to -1 is not rejected: as a Python index
    it counts from the end, so that [flag_command] treats [x - 10] as the
    column [x] and [y - 10] as the row [y]. *)
Theorem flag_command_negative_index (ctx : Ctx) (w : World) (g : Game)
    (r b : GameBoard) (x y x' y' : Z) :
  playing w ctx g r b -> in_range (x, y) ->
  x' = x \/ x' = x - 10 -> y' = y \/ y' = y - 10 ->
  flag_command ctx [(x', y')] w = flag_command ctx [(x, y)] w.
Proof.
  intros (Hg & Hne & Hr & Hb & Hgr & Hbd) Hp Hx Hy.
  destruct (grid_wrap r x y x' y' Flag Hgr Hp Hx Hy) as [Eget Eset].
  unfold flag_command. rewrite !(bind_Ok _ _ _ _ _ (the_game_Some ctx w g Hg)).
  apply bind_congr. rewrite !for_each_cons.
  assert (read (revealed g) x' y' w = Ok (cell_at r (x, y)) w) as Hread.
  { unfold read. by rewrite (lookup_total_Some _ _ _ Hr), Eget, (grid_get_xy r x y). }
  rewrite (bind_Ok _ _ _ _ _ Hread).
  rewrite (bind_Ok _ _ _ _ _ (read_xy w (revealed g) r x y Hr Hgr Hp)).
  destruct (cell_eqb (cell_at r (x, y)) Hidden); [|done].
  unfold write. by rewrite (lookup_total_Some _ _ _ Hr), Eset.
Qed.

Lemma flag_command_negative_index_witness :
  flag_command player [(-10, -1)] started = flag_command player [(0, 9)] started.
Proof.
  assert (playing started player (mkGame 0%nat 1%nat false) hidden_board one_bomb_board)
    as Hplay by (repeat split; try (vm_compute; reflexivity); discriminate).
  assert (in_range (0, 9)) as Hp by (unfold in_range; simpl; lia).
  exact (flag_command_negative_index player started (mkGame 0%nat 1%nat false)
           hidden_board one_bomb_board 0 9 (-10) (-1) Hplay Hp
           (or_intror eq_refl) (or_intror eq_refl)).
Defined.

(** X12.  Flagging is idempotent: a second [flag_command] with the same
    coordinates finds none of them Hidden, leaves every grid and the
    store as they are, and only sends the grid again. *)
Theorem flag_command_twice (ctx : Ctx) (w : World) (g : Game) (r b : GameBoard)
    (coordinates : list (Z * Z)) :
  playing w ctx g r b -> (forall c, c ∈ coordinates -> in_range c) ->
  exists w1 w2,
    flag_command ctx coordinates w = Ok tt w1 /\
    flag_command ctx coordinates w1 = Ok tt w2 /\
    heap w2 = heap w1 /\ games w2 = games w1 /\
    outbox w2 = outbox w1 ++ board_messages g (heap w1 !!! revealed g).
Proof.
  intros Hplay Hl.
  destruct (flag_command_exact ctx w g r b coordinates Hplay Hl)
    as (r1 & Hrun1 & Hg1 & Hch1).
  set (w1 := say (board_messages g r1) (set_heap (insert (revealed g) r1) w)).
  assert (playing w1 ctx g r1 b) as Hplay1
    by apply (playing_after_write w ctx g r r1 b Hplay Hg1).
  destruct (flag_command_exact ctx w1 g r1 b coordinates Hplay1 Hl)
    as (r2 & Hrun2 & Hg2 & Hch2).
  assert (r2 = r1) as ->.
  { apply grid10_ext; [done..|]. intros q Hq.
    destruct (Hch2 q Hq) as [_ Hsame]. apply Hsame. intros [Hin Hh].
    destruct (Hch1 q Hq) as [Hflag Hkept].
    destruct (decide (cell_at r q = Hidden)) as [Hr|Hr].
    - rewrite (Hflag Hin Hr) in Hh. discriminate Hh.
    - rewrite Hkept in Hh by (by intros [_ ?]). done. }
  destruct Hplay1 as (_ & _ & Hr1 & _).
  exists w1, (say (board_messages g r1) (set_heap (insert (revealed g) r1) w1)).
  split; [exact Hrun1|]. split; [exact Hrun2|].
  rewrite (set_heap_id w1 _ _ Hr1), (lookup_total_Some _ _ _ Hr1). done.
Qed.

Lemma flag_command_twice_witness :
  exists w1 w2,
    flag_command player [(0, 0); (3, 4)] started = Ok tt w1 /\
    flag_command player [(0, 0); (3, 4)] w1 = Ok tt w2 /\
    heap w2 = heap w1 /\ games w2 = games w1 /\
    outbox w2
    = outbox w1 ++ board_messages (mkGame 0%nat 1%nat false) (heap w1 !!! 1%nat).
Proof.
  assert (playing started player (mkGame 0%nat 1%nat false) hidden_board one_bomb_board)
    as Hplay by (repeat split; try (vm_compute; reflexivity); discriminate).
  assert (forall c, c ∈ [(0, 0); (3, 4)] -> in_range c) as Hl.
  { intros c Hc. apply elem_of_cons in Hc as [->|Hc];
      [|apply list_elem_of_singleton in Hc as ->]; unfold in_range; simpl; lia. }
  exact (flag_command_twice player started (mkGame 0%nat 1%nat false)
           hidden_board one_bomb_board [(0, 0); (3, 4)] Hplay Hl).
Defined.

(** ** reveal_command in full *)

(** Around a cell of value 0 there is no bomb. *)
Lemma zero_neighbours_safe (b : GameBoard) (e q : Z * Z) :
  counted b -> in_range e -> cell_at b e = Num 0 -> neighbour e q ->
  cell_at b q <> Bomb.
Proof.
  intros Hcount He H0 Hn.
  assert (cell_at b e <> Bomb) as Hnb by (by rewrite H0).
  pose proof (Hcount e He Hnb) as Hc. rewrite H0 in Hc. injection Hc as Hc.
  assert (is_bomb_at b e = false) as Hnb' by (by apply cell_eqb_neq).
  rewrite <- (bombs_around_neighbours b e He Hnb') in Hc. unfold bombs_around in Hc.
  intros Hq. assert (In q (List.filter (is_bomb_at b) (get_neighbours e.1 e.2))) as Hin.
  { apply List.filter_In. split; [by apply list_elem_of_In|].
    unfold is_bomb_at. by apply cell_eqb_eq. }
  destruct (List.filter _ _); [done|]. simpl in Hc. lia.
Qed.

(** A reveal of a cell that is no bomb shows no bomb: the fill opens only
    cells next to a cell of value 0. *)
Lemma reveal_grid_no_bomb (fuel : nat) (b r r' : GameBoard) (p : Z * Z) :
  is_board b = true -> counted b -> is_grid10 r = true -> no_bomb_shown r b ->
  in_range p -> cell_at b p <> Bomb ->
  reveal_grid fuel b p.1 p.2 r = Ok tt r' -> no_bomb_shown r' b.
Proof.
  intros Hb Hcount Hr Hshown Hp Hnb Hrun.
  rewrite reveal_grid_in_range in Hrun by (done || by apply is_board_grid10).
  set (r0 := set_cell r p (cell_at b p)) in *.
  assert (is_grid10 r0 = true) as Hr0 by (by apply set_cell_grid10).
  assert (no_bomb_shown r0 b) as Hshown0.
  { intros q Hq. unfold r0. rewrite cell_at_set_cell by done.
    destruct (decide (p = q)) as [<-|]; [by right; right|apply Hshown, Hq]. }
  destruct (cell_eqb (cell_at b p) (Num 0)) eqn:E0; [|by inversion Hrun; subst r'].
  apply cell_eqb_eq in E0.
  destruct (fill_fill_post b Hb fuel r0 p r' Hr0 Hp Hrun) as (_ & Hu & Hreach & _).
  intros q Hq. destruct (decide (cell_at r' q = cell_at r0 q)) as [E|Hne].
  { rewrite E. by apply Hshown0. }
  destruct (Hu q Hq) as [E|[_ E]]; [done|].
  right; right. split; [exact E|].
  destruct (Hreach q Hq Hne) as (e & Hexp & Hn).
  apply (zero_neighbours_safe b e q Hcount); [by apply (expands_in_range r0 b p)| |done].
  by destruct Hexp.
Qed.

(** With no Hidden cell around [p] the fill from [p] changes nothing. *)
Lemma fill_nothing_hidden (b : GameBoard) (fuel : nat) (r : GameBoard) (p : Z * Z) :
  is_grid10 b = true -> is_grid10 r = true -> in_range p ->
  (forall n, neighbour p n -> cell_at r n <> Hidden) ->
  fill (S fuel) b p.1 p.2 r = Ok tt r.
Proof.
  intros Hb Hr Hp Hnone. cbn [fill].
  assert (forall q, q ∈ get_neighbours p.1 p.2 ->
            in_range q /\ cell_at r q <> Hidden) as Hl.
  { intros q Hq. split; [by apply (neighbour_in_range p)|by apply Hnone]. }
  induction (get_neighbours p.1 p.2) as [|q l IH]; [done|].
  destruct (Hl q (list_elem_of_here _ _)) as [Hq Hh]. rewrite for_each_cons.
  rewrite (fill_neighbour_grid10 b _ q r Hb Hr Hq).
  apply cell_eqb_neq in Hh. rewrite Hh.
  apply IH. intros q' Hq'. by apply Hl, list_elem_of_further.
Qed.

(** The loop of [reveal_command] over [coordinates] followed by more: it
    goes on with what follows on the grid [r'] it has reached, or the
    game has ended and what follows is not looked at. *)
Lemma reveal_loop_exact (fuel : nat) (ctx : Ctx) (g : Game) (b : GameBoard)
    (coordinates : list (Z * Z)) (w : World) (r : GameBoard) :
  playing w ctx g r b -> (forall c, c ∈ coordinates -> in_range c) ->
  (100 < fuel)%nat ->
  exists r', is_grid10 r' = true /\
    (forall q, in_range q ->
       reveal_change coordinates q (cell_at b q) (cell_at r q) (cell_at r' q)) /\
    (((forall l,
         reveal_loop fuel ctx (revealed g) (board g) (coordinates ++ l) w
         = reveal_loop fuel ctx (revealed g) (board g) l
             (set_heap (insert (revealed g) r') w)) /\
      (counted b -> no_bomb_shown r b -> no_bomb_shown r' b)) \/
     (exists es,
        ((es = lost_messages g /\ exists c, c ∈ coordinates /\ cell_at b c = Bomb) \/
         (es = won_messages g /\ all_safe_shown r' b)) /\
        forall l,
          reveal_loop fuel ctx (revealed g) (board g) (coordinates ++ l) w
          = Ok tt (set_games (delete (author ctx))
                     (say (es ++ board_messages
                                   (mkGame (board g) (board g) (activated_on_server g)) b)
                        (disclosed ctx g (set_heap (insert (revealed g) r') w)))))).
Proof.
  intros Hplay Hl Hfuel. revert w r Hplay.
  induction coordinates as [|c rest IH]; intros w r Hplay.
  { pose proof Hplay as (Hg & Hne & Hr & Hb & Hgr & Hbd).
    exists r. split; [done|]. split; [intros q _; by left|]. left. split; [|done].
    intros l. by rewrite (set_heap_id w _ _ Hr). }
  assert (in_range c) as Hc by apply Hl, list_elem_of_here.
  assert (forall c', c' ∈ rest -> in_range c') as Hl'
    by (intros c' H'; by apply Hl, list_elem_of_further).
  pose proof Hplay as (Hg & Hne & Hr & Hb & Hgr & Hbd).
  pose proof (hidden_count_le_100 r Hgr) as Hle.
  destruct (reveal_one_spec fuel ctx w g r b c Hplay Hc) as (r1 & Hgrid & Hg1 & Hone); [lia|].
  destruct (reveal_grid_uncovers fuel b r r1 c Hbd Hgr Hc Hgrid) as (_ & Hc1 & Hu & _ & _).
  destruct c as [x y]. cbn [fst snd] in Hone.
  assert (forall q, in_range q ->
            reveal_change ((x, y) :: rest) q (cell_at b q) (cell_at r q) (cell_at r1 q))
    as Hch1.
  { intros q Hq. apply (reveal_change_step b r r1 r1 (x, y) rest q); try done. by left. }
  set (w1 := set_heap (insert (revealed g) r1) w) in *.
  assert (forall (es : list event) l,
            (let! ended := fun s => Ok true s in
             if ended then update_boards ctx ;;; del_game ctx
             else reveal_loop fuel ctx (revealed g) (board g) (rest ++ l))
              (say es (disclosed ctx g w1))
            = Ok tt (set_games (delete (author ctx))
                       (say (es ++ board_messages
                                     (mkGame (board g) (board g) (activated_on_server g)) b)
                          (disclosed ctx g w1)))) as Hend.
  { intros es l. unfold bind at 1.
    assert (games (say es (disclosed ctx g w1)) !! author ctx
            = Some (mkGame (board g) (board g) (activated_on_server g))) as Hgd
      by apply lookup_insert_eq.
    rewrite (bind_Ok _ _ _ _ _ (update_boards_Some ctx _ _ Hgd)).
    rewrite (del_game_Some ctx (say _ (say es _)) _ Hgd), say_say.
    assert (heap (say es (disclosed ctx g w1))
              !!! revealed (mkGame (board g) (board g) (activated_on_server g)) = b)
      as ->; [|done].
    apply lookup_total_Some. simpl. by rewrite lookup_insert_ne. }
  destruct (cell_eqb (cell_at b (x, y)) Bomb) eqn:Ebomb.
  { exists r1. split; [done|]. split; [exact Hch1|]. right. exists (lost_messages g). split.
    { left. split; [done|]. exists (x, y). split; [apply list_elem_of_here|].
      by apply cell_eqb_eq. }
    intros l. cbn [app reveal_loop]. rewrite (bind_Ok _ _ _ _ _ Hone).
    apply (Hend (lost_messages g) l). }
  destruct (existsb (pending r1 b) all_cells) eqn:Epend.
  - destruct (IH Hl' w1 r1 (playing_after_write w ctx g r r1 b Hplay Hg1))
      as (r' & Hg' & Hch & [[Hgo Hsafe]|(es & Hes & Hstop)]); exists r';
      (split; [done|]);
      (split; [intros q Hq;
               by apply (reveal_change_step b r r1 r' (x, y) rest q); try apply Hch|]).
    + left. split.
      * intros l. cbn [app reveal_loop]. rewrite (bind_Ok _ _ _ _ _ Hone).
        rewrite Hgo. unfold w1. by rewrite set_heap_twice.
      * intros Hcount Hshown. apply Hsafe; [done|].
        apply cell_eqb_neq in Ebomb.
        by apply (reveal_grid_no_bomb fuel b r r1 (x, y)).
    + right. exists es. split.
      { destruct Hes as [[-> (c & Hc' & Hcb)]|Hwon]; [left|by right].
        split; [done|]. exists c. split; [by apply list_elem_of_further|done]. }
      intros l. cbn [app reveal_loop]. rewrite (bind_Ok _ _ _ _ _ Hone).
      rewrite Hstop. unfold w1. by rewrite set_heap_twice.
  - exists r1. split; [done|]. split; [exact Hch1|]. right. exists (won_messages g). split.
    { right. split; [done|]. by apply pending_none. }
    intros l. cbn [app reveal_loop]. rewrite (bind_Ok _ _ _ _ _ Hone).
    apply (Hend (won_messages g) l).
Qed.

(** X13.  A coordinate outside [-10, 9] makes [reveal_command] raise
    [IndexError] when its turn comes, at the first [board[y][x]]: the
    cells revealed for the coordinates before it stay revealed, and no
    message is sent.  When the coordinates before it end the game, it is
    never looked at and the command ends as it does without it. *)
Theorem reveal_command_IndexError (fuel : nat) (ctx : Ctx) (w : World) (g : Game)
    (r b : GameBoard) (before : list (Z * Z)) (x y : Z) (rest : list (Z * Z)) :
  playing w ctx g r b -> (forall c, c ∈ before -> in_range c) ->
  (100 < fuel)%nat -> ~ (-10 <= x <= 9 /\ -10 <= y <= 9) ->
  (exists r',
     reveal_command fuel ctx before w
     = Ok tt (say (board_messages g r') (set_heap (insert (revealed g) r') w)) /\
     reveal_command fuel ctx (before ++ (x, y) :: rest) w
     = Raise IndexError (set_heap (insert (revealed g) r') w)) \/
  (exists w',
     reveal_command fuel ctx before w = Ok tt w' /\
     games w' !! author ctx = None /\
     reveal_command fuel ctx (before ++ (x, y) :: rest) w = Ok tt w').
Proof.
  intros Hplay Hl Hfuel Hout. pose proof Hplay as (Hg & Hne & Hr & Hb & Hgr & Hbd).
  unfold reveal_command. rewrite !(bind_Ok _ _ _ _ _ (the_game_Some ctx w g Hg)).
  destruct (reveal_loop_exact fuel ctx g b before w r Hplay Hl Hfuel)
    as (r' & Hg' & _ & [[Hgo _]|(es & _ & Hstop)]).
  - left. exists r'. split.
    + pose proof (Hgo []) as H0. rewrite app_nil_r in H0. rewrite H0.
      cbn [reveal_loop].
      rewrite (update_boards_Some ctx (set_heap (insert (revealed g) r') w) g Hg).
      by rewrite (lookup_total_Some _ _ _ (heap_set_heap_eq w (revealed g) r')).
    + rewrite Hgo. cbn [reveal_loop]. apply bind_Raise. unfold reveal_one.
      apply bind_Raise. unfold read.
      assert (heap (set_heap (insert (revealed g) r') w) !!! board g = b) as ->
        by (apply lookup_total_Some; by rewrite heap_set_heap_ne).
      by rewrite (grid_get_out b x y (is_board_grid10 b Hbd) Hout).
  - right. eexists. split; [|split].
    + pose proof (Hstop []) as H0. rewrite app_nil_r in H0. exact H0.
    + apply lookup_delete_eq.
    + apply Hstop.
Qed.

Lemma reveal_command_IndexError_witness :
  (exists r',
     reveal_command 101 player [(0, 0)] started
     = Ok tt (say (board_messages (mkGame 0%nat 1%nat false) r')
                (set_heap (insert 1%nat r') started)) /\
     reveal_command 101 player ([(0, 0)] ++ (0, 10) :: [(5, 5)]) started
     = Raise IndexError (set_heap (insert 1%nat r') started)) \/
  (exists w',
     reveal_command 101 player [(0, 0)] started = Ok tt w' /\
     games w' !! author player = None /\
     reveal_command 101 player ([(0, 0)] ++ (0, 10) :: [(5, 5)]) started = Ok tt w').
Proof.
  assert (playing started player (mkGame 0%nat 1%nat false) hidden_board one_bomb_board)
    as Hplay by (repeat split; try (vm_compute; reflexivity); discriminate).
  assert (forall c, c ∈ [(0, 0)] -> in_range c) as Hl
    by (intros c ->%list_elem_of_singleton; unfold in_range; simpl; lia).
  assert (100 < 101)%nat as Hfuel by lia.
  assert (~ (-10 <= 0 <= 9 /\ -10 <= 10 <= 9)) as Hout by lia.
  exact (reveal_command_IndexError 101 player started (mkGame 0%nat 1%nat false)
           hidden_board one_bomb_board [(0, 0)] 0 10 [(5, 5)] Hplay Hl Hfuel Hout).
Defined.

(** X14.  Revealing is idempotent: when the reveal of a cell leaves the
    game going, a second reveal of the same cell changes no grid and no
    record, and only sends the grid again. *)
Theorem reveal_command_twice (fuel : nat) (ctx : Ctx) (w w1 : World) (g : Game)
    (r b : GameBoard) (x y : Z) :
  playing w ctx g r b -> in_range (x, y) -> (100 < fuel)%nat ->
  reveal_command fuel ctx [(x, y)] w = Ok tt w1 ->
  games w1 !! author ctx = Some g ->
  exists w2,
    reveal_command fuel ctx [(x, y)] w1 = Ok tt w2 /\
    heap w2 = heap w1 /\ games w2 = games w1 /\
    outbox w2 = outbox w1 ++ board_messages g (heap w1 !!! revealed g).
Proof.
  intros Hplay Hp Hfuel Hrun Hgoes.
  pose proof Hplay as (Hg & Hne & Hr & Hb & Hgr & Hbd).
  pose proof (is_board_grid10 b Hbd) as Hgb.
  pose proof (hidden_count_le_100 r Hgr) as Hle.
  destruct (reveal_one_spec fuel ctx w g r b (x, y) Hplay Hp) as (r1 & Hgrid & Hg1 & Hone);
    [lia|]. cbn [fst snd] in Hone.
  destruct (reveal_grid_uncovers fuel b r r1 (x, y) Hbd Hgr Hp Hgrid)
    as (_ & Hc1 & _ & _ & Hzero).
  set (w0 := set_heap (insert (revealed g) r1) w) in *.
  assert (forall es,
            (update_boards ctx ;;; del_game ctx) (say es (disclosed ctx g w0)) = Ok tt w1 ->
            False) as Hended.
  { intros es H.
    assert (games (say es (disclosed ctx g w0)) !! author ctx
            = Some (mkGame (board g) (board g) (activated_on_server g))) as Hgd
      by apply lookup_insert_eq.
    rewrite (bind_Ok _ _ _ _ _ (update_boards_Some ctx _ _ Hgd)) in H.
    rewrite (del_game_Some ctx (say _ (say es _)) _ Hgd) in H.
    injection H as <-. simpl in Hgoes. by rewrite lookup_delete_eq in Hgoes. }
  unfold reveal_command in Hrun.
  rewrite (bind_Ok _ _ _ _ _ (the_game_Some ctx w g Hg)) in Hrun.
  cbn [reveal_loop] in Hrun.
  destruct (cell_eqb (cell_at b (x, y)) Bomb) eqn:Ebomb.
  { rewrite (bind_Ok _ _ _ _ _ Hone) in Hrun. by destruct (Hended _ Hrun). }
  destruct (existsb (pending r1 b) all_cells) eqn:Epend;
    [|rewrite (bind_Ok _ _ _ _ _ Hone) in Hrun; by destruct (Hended _ Hrun)].
  rewrite (bind_Ok _ _ _ _ _ Hone) in Hrun.
  assert (playing w0 ctx g r1 b) as Hplay0
    by apply (playing_after_write w ctx g r r1 b Hplay Hg1).
  pose proof Hplay0 as (Hg0 & _ & Hr0 & _).
  rewrite (update_boards_Some ctx w0 g Hg0) in Hrun. injection Hrun as <-.
  set (w1 := say (board_messages g (heap w0 !!! revealed g)) w0) in *.
  assert (playing w1 ctx g r1 b) as Hplay1 by exact Hplay0.
  pose proof (hidden_count_le_100 r1 Hg1) as Hle1.
  destruct (reveal_one_spec fuel ctx w1 g r1 b (x, y) Hplay1 Hp) as (r2 & Hgrid2 & Hg2 & Hone2);
    [lia|]. cbn [fst snd] in Hone2.
  assert (r2 = r1) as ->.
  { rewrite reveal_grid_in_range in Hgrid2 by done. cbn [fst snd] in Hgrid2.
    rewrite <- Hc1, set_cell_same in Hgrid2.
    destruct (cell_eqb (cell_at r1 (x, y)) (Num 0)) eqn:E0; [|by injection Hgrid2].
    apply cell_eqb_eq in E0. rewrite Hc1 in E0. destruct (Hzero E0) as [_ Hnone].
    destruct fuel as [|n]; [lia|].
    pose proof (fill_nothing_hidden b n r1 (x, y) Hgb Hg1 Hp Hnone) as Hfill.
    cbn [fst snd] in Hfill. rewrite Hfill in Hgrid2. by injection Hgrid2. }
  rewrite Ebomb, Epend in Hone2.
  assert (heap w1 !! revealed g = Some r1) as Hr1 by exact Hr0.
  rewrite (set_heap_id w1 _ _ Hr1) in Hone2.
  exists (say (board_messages g (heap w1 !!! revealed g)) w1).
  split; [|done].
  unfold reveal_command. rewrite (bind_Ok _ _ _ _ _ (the_game_Some ctx w1 g Hg0)).
  cbn [reveal_loop]. rewrite (bind_Ok _ _ _ _ _ Hone2).
  by rewrite (update_boards_Some ctx w1 g Hg0).
Qed.

Lemma reveal_command_twice_witness :
  exists w2,
    reveal_command 101 player [(0, 0)]
      (final_world (reveal_command 101 player [(0, 0)] started) started) = Ok tt w2 /\
    heap w2 = heap (final_world (reveal_command 101 player [(0, 0)] started) started) /\
    games w2 = games (final_world (reveal_command 101 player [(0, 0)] started) started) /\
    outbox w2
    = outbox (final_world (reveal_command 101 player [(0, 0)] started) started) ++
      board_messages (mkGame 0%nat 1%nat false)
        (heap (final_world (reveal_command 101 player [(0, 0)] started) started)
           !!! revealed (mkGame 0%nat 1%nat false)).
Proof.
  assert (playing started player (mkGame 0%nat 1%nat false) hidden_board one_bomb_board)
    as Hplay by (repeat split; try (vm_compute; reflexivity); discriminate).
  assert (in_range (0, 0)) as Hp by (unfold in_range; simpl; lia).
  assert (100 < 101)%nat as Hfuel by lia.
  assert (reveal_command 101 player [(0, 0)] started
          = Ok tt (final_world (reveal_command 101 player [(0, 0)] started) started))
    as Hrun by (vm_compute; reflexivity).
  assert (games (final_world (reveal_command 101 player [(0, 0)] started) started)
            !! author player = Some (mkGame 0%nat 1%nat false))
    as Hgoes by (vm_compute; reflexivity).
  exact (reveal_command_twice 101 player started _ (mkGame 0%nat 1%nat false)
           hidden_board one_bomb_board 0 0 Hplay Hp Hfuel Hrun Hgoes).
Defined.

(** ** What a command of one player leaves alone *)

Lemma effect_refl (ctx : Ctx) (w : World) : effect ctx w w.
Proof. split; [by left|done]. Qed.

Lemma frame_effect (ctx : Ctx) (g : Game) (w w' : World) :
  games w !! author ctx = Some g -> frame (revealed g) w w' ->
  games w' = games w \/ games w' = delete (author ctx) (games w) ->
  effect ctx w w'.
Proof.
  intros Hg (_ & _ & _ & H) Hgames. split.
  - destruct Hgames; [by left|by right; left].
  - intros l _ Hl. apply H. intros ->. by apply (Hl g).
Qed.

Lemma only_grid_effect (ctx : Ctx) (g : Game) (w w' : World) :
  games w !! author ctx = Some g -> only_grid (revealed g) w w' -> effect ctx w w'.
Proof. intros Hg [F G]. apply (frame_effect ctx g); auto. Qed.

Lemma run_command_effect (fuel : nat) (c : command) (w : World) :
  post (run_command fuel c w) (fun _ w' => effect (ctx_of c) w w') (effect (ctx_of c) w).
Proof.
  destruct c as [ctx bomb_chance|ctx coordinates|ctx coordinates|ctx]; simpl;
    destruct (games w !! author ctx) as [g|] eqn:Hg.
  - rewrite (start_command_running ctx bomb_chance w g Hg). simpl. split; [by left|done].
  - destruct (start_command_fresh ctx bomb_chance w Hg) as (b & _ & _ & _ & ->). simpl.
    split; [by right; right|].
    intros l Hl _. simpl. by rewrite !lookup_insert_ne by lia.
  - unfold flag_command. rewrite (bind_Ok _ _ _ _ _ (the_game_Some ctx w g Hg)).
    assert (keeps (only_grid (revealed g))
              (for_each coordinates (fun '(x, y) =>
                 let! c := read (revealed g) x y in
                 if cell_eqb c Hidden then write (revealed g) x y Flag else ret tt) ;;;
               update_boards ctx)) as Hk.
    { apply keeps_bind; [apply _| |intros _; apply keeps_update_boards].
      apply keeps_for_each; [apply _|]. intros [x y].
      apply keeps_bind; [apply _|apply keeps_read|]. intros c.
      destruct (cell_eqb c Hidden); [apply keeps_write|apply keeps_ret; apply _]. }
    apply (post_weaken _ _ _ _ _ (Hk w)).
    + intros _ w'. by apply (only_grid_effect ctx g).
    + intros w'. by apply (only_grid_effect ctx g).
  - unfold flag_command. rewrite (bind_Raise _ _ _ _ _ (the_game_None ctx w Hg)).
    apply effect_refl.
  - unfold reveal_command. rewrite (bind_Ok _ _ _ _ _ (the_game_Some ctx w g Hg)).
    apply (post_weaken _ _ _ _ _ (reveal_loop_post fuel ctx _ _ coordinates w)).
    + intros _ w' [F G]. by apply (frame_effect ctx g).
    + intros w'. by apply (only_grid_effect ctx g).
  - unfold reveal_command. rewrite (bind_Raise _ _ _ _ _ (the_game_None ctx w Hg)).
    apply effect_refl.
  - rewrite (end_command_exact ctx w g Hg). simpl.
    apply (frame_effect ctx g w _ Hg); [by repeat split|].
    right. simpl. apply delete_insert_eq.
  - unfold end_command, disclose.
    rewrite (bind_Raise _ _ _ _ _ (bind_Raise _ _ _ _ _ (the_game_None ctx w Hg))).
    apply effect_refl.
Qed.

Lemma step_effect (fuel : nat) (c : command) (w w' : World) :
  run_command fuel c w = Ok tt w' \/ (exists e, run_command fuel c w = Raise e w') ->
  effect (ctx_of c) w w'.
Proof.
  intros [H|[e H]]; pose proof (run_command_effect fuel c w) as P; by rewrite H in P.
Qed.

Lemma effect_own_grids (ctx : Ctx) (w w' : World) :
  separated w -> own_grids w -> effect ctx w w' -> own_grids w'.
Proof.
  intros Hsep Hown [[Hsame|[Hdel|[Hnone Hnew]]] _] i j g g' Hi Hj Hrev.
  - rewrite Hsame in Hi, Hj. by apply (Hown i j g g').
  - rewrite Hdel in Hi, Hj.
    apply lookup_delete_Some in Hi as [_ Hi]. apply lookup_delete_Some in Hj as [_ Hj].
    by apply (Hown i j g g').
  - rewrite Hnew in Hi, Hj.
    apply lookup_insert_Some in Hi as [[<- <-]|[Hia Hi]];
      apply lookup_insert_Some in Hj as [[<- <-]|[Hja Hj]].
    + done.
    + destruct (Hsep j g' Hj) as (_ & Hlt & _). simpl in Hrev. lia.
    + destruct (Hsep i g Hi) as (_ & Hlt & _). simpl in Hrev. lia.
    + by apply (Hown i j g g').
Qed.

Lemma reachable_own_grids (w : World) : reachable w -> own_grids w.
Proof.
  intros [d Hrtc]. revert w Hrtc. apply (rtc_ind_r own_grids (initial d)).
  - intros i j g g' Hi. simpl in Hi. by rewrite lookup_empty in Hi.
  - intros w1 w2 Hrtc (fuel & c & Hrun) IH.
    apply (effect_own_grids (ctx_of c) w1); [|done|by apply (step_effect fuel)].
    apply reachable_separated. by exists d.
Qed.

(** X19.  The games of two players do not touch: in every world the cog
    can reach, a command of one player, with any arguments, completed or
    ended by an exception, leaves the record of every other player, its
    revealed grid and its board as they were. *)
Theorem players_apart (fuel : nat) (c : command) (w w' : World) (j : Z) (g : Game) :
  reachable w -> games w !! j = Some g -> author (ctx_of c) <> j ->
  run_command fuel c w = Ok tt w' \/ (exists e, run_command fuel c w = Raise e w') ->
  games w' !! j = Some g /\
  heap w' !! revealed g = heap w !! revealed g /\
  heap w' !! board g = heap w !! board g.
Proof.
  intros Hreach Hj Hne Hrun.
  pose proof (reachable_separated w Hreach) as Hsep.
  pose proof (reachable_own_grids w Hreach) as Hown.
  destruct (step_effect fuel c w w' Hrun) as [Hstore Hheap].
  destruct (Hsep j g Hj) as (Hb & Hr & Hd). split; [|split].
  - destruct Hstore as [->|[->|[_ ->]]]; [done| |].
    + by rewrite lookup_delete_ne.
    + by rewrite lookup_insert_ne.
  - apply Hheap; [done|]. intros ga Ha Hrev. apply Hne.
    by apply (Hown _ _ ga g Ha Hj).
  - apply Hheap; [done|]. intros ga Ha. exact (Hd _ ga Ha).
Qed.

Lemma started_reachable : reachable started.
Proof.
  exists one_bomb_draws. apply rtc_once. exists 0%nat, (Start player (1 # 5)).
  left. vm_compute. reflexivity.
Qed.

Lemma players_apart_witness :
  games (final_world (start_command (mkCtx 8 true) (1 # 2) started) started) !! 7
  = Some (mkGame 0%nat 1%nat false) /\
  heap (final_world (start_command (mkCtx 8 true) (1 # 2) started) started)
    !! revealed (mkGame 0%nat 1%nat false)
  = heap started !! revealed (mkGame 0%nat 1%nat false) /\
  heap (final_world (start_command (mkCtx 8 true) (1 # 2) started) started)
    !! board (mkGame 0%nat 1%nat false)
  = heap started !! board (mkGame 0%nat 1%nat false).
Proof.
  assert (games started !! 7 = Some (mkGame 0%nat 1%nat false)) as Hg
    by (vm_compute; reflexivity).
  assert (author (ctx_of (Start (mkCtx 8 true) (1 # 2))) <> 7) as Hne by discriminate.
  assert (run_command 0 (Start (mkCtx 8 true) (1 # 2)) started
          = Ok tt (final_world (start_command (mkCtx 8 true) (1 # 2) started) started))
    as Hrun by (vm_compute; reflexivity).
  exact (players_apart 0 (Start (mkCtx 8 true) (1 # 2)) started _ 7
           (mkGame 0%nat 1%nat false) started_reachable Hg Hne (or_introl Hrun)).
Defined.

(** ** Games played with coordinates on the board *)

Lemma grid_cell_in (g : GameBoard) (row : list cell) (c : cell) :
  is_grid10 g = true -> row ∈ g -> c ∈ row ->
  exists p, in_range p /\ cell_at g p = c.
Proof.
  intros [Hl Hrows]%is_grid10_spec [i Hr]%list_elem_of_lookup [j Hc]%list_elem_of_lookup.
  exists (Z.of_nat j, Z.of_nat i). split; [|by apply (cell_at_lookup g i j row)].
  apply lookup_lt_Some in Hr as Hi. apply lookup_lt_Some in Hc as Hj.
  rewrite (Hrows _ _ Hr) in Hj. unfold in_range. simpl. lia.
Qed.

Lemma count_has_emoji (n : Z) : 0 <= n <= 8 -> ~ no_emoji (Num n).
Proof. intros Hn [?|(m & [= <-] & Hm)]; [done|lia]. Qed.

(** The grids of a game have a text. *)
Lemma board_renders (b : GameBoard) : is_board b = true -> counted b -> renders b.
Proof.
  intros Hb Hcount. pose proof (is_board_grid10 b Hb) as Hg.
  apply renders_iff. split; [apply is_grid10_spec in Hg as [-> _]; lia|].
  intros row c Hrow Hc. destruct (grid_cell_in b row c Hg Hrow Hc) as (p & Hp & <-).
  pose proof (is_board_value b p Hb Hp) as Hv.
  destruct (cell_at b p) as [| | | |n] eqn:E; try discriminate Hv.
  - by intros [?|(m & ? & _)].
  - by apply count_has_emoji, (counted_le_8 b p).
Qed.

Lemma display_renders (r b : GameBoard) :
  is_grid10 r = true -> is_board b = true -> counted b -> no_bomb_shown r b ->
  renders r.
Proof.
  intros Hg Hb Hcount Hshown.
  apply renders_iff. split; [apply is_grid10_spec in Hg as [-> _]; lia|].
  intros row c Hrow Hc. destruct (grid_cell_in r row c Hg Hrow Hc) as (p & Hp & <-).
  destruct (Hshown p Hp) as [->|[->|[-> Hnb]]].
  - by intros [?|(m & ? & _)].
  - by intros [?|(m & ? & _)].
  - pose proof (is_board_value b p Hb Hp) as Hv.
    destruct (cell_at b p) as [| | | |n] eqn:E; try discriminate Hv; [done|].
    by apply count_has_emoji, (counted_le_8 b p).
Qed.

Lemma hidden_board_cell (p : Z * Z) : in_range p -> cell_at hidden_board p = Hidden.
Proof.
  intros (x & y & Hx & Hy & ->)%in_range_nat.
  by apply (cell_at_lookup hidden_board y x (replicate 10 Hidden));
    apply lookup_replicate_2.
Qed.

Lemma hidden_board_renders : renders hidden_board.
Proof. eexists. vm_compute. reflexivity. Qed.

Lemma all_render_app (es es' : list event) :
  all_render es -> all_render es' -> all_render (es ++ es').
Proof. intros H H' e g [?|?]%elem_of_app; [by apply H|by apply H']. Qed.

Lemma board_messages_render (g : Game) (shown : GameBoard) :
  renders shown -> all_render (board_messages g shown).
Proof.
  intros Hr e v He Hv. unfold board_messages in He.
  apply elem_of_cons in He as [->|He]; [discriminate Hv|].
  apply elem_of_cons in He as [->|He]; [by injection Hv as <-|].
  destruct (activated_on_server g); [|by apply elem_of_nil in He].
  apply list_elem_of_singleton in He as ->. by injection Hv as <-.
Qed.

Lemma outcome_messages_render (g : Game) :
  all_render (lost_messages g) /\ all_render (won_messages g).
Proof.
  unfold lost_messages, won_messages.
  split; intros e v He Hv;
    (apply elem_of_cons in He as [->|He]; [discriminate Hv|]);
    (destruct (activated_on_server g); [|by apply elem_of_nil in He]);
    apply list_elem_of_singleton in He as ->; discriminate Hv.
Qed.

Lemma end_messages_render (g : Game) (b : GameBoard) :
  renders b -> all_render (end_messages g b).
Proof.
  intros Hr. unfold end_messages.
  apply all_render_app; [by apply board_messages_render|].
  intros e v He Hv.
  apply elem_of_cons in He as [->|He]; [by injection Hv as <-|].
  destruct (activated_on_server g); [|by apply elem_of_nil in He].
  apply list_elem_of_singleton in He as ->. by injection Hv as <-.
Qed.

Lemma start_messages_render (ctx : Ctx) : all_render (start_messages ctx).
Proof.
  unfold start_messages. intros e v He Hv.
  assert (v = hidden_board) as ->; [|apply hidden_board_renders].
  destruct (guild ctx).
  - repeat (apply elem_of_cons in He as [->|He]; [try discriminate Hv; by injection Hv|]).
    by apply elem_of_nil in He.
  - repeat (apply elem_of_cons in He as [->|He]; [try discriminate Hv; by injection Hv|]).
    by apply elem_of_nil in He.
Qed.

Lemma game_ok_playing (w : World) (ctx : Ctx) (g : Game) :
  games w !! author ctx = Some g -> game_ok w g ->
  exists r b, playing w ctx g r b /\ counted b /\ no_bomb_shown r b.
Proof.
  intros Hg (r & b & Hne & Hr & Hb & Hgr & Hbd & Hcount & Hshown).
  exists r, b. by repeat split.
Qed.

(** The records other than the one of the player at work stay good. *)
Lemma others_kept (ctx : Ctx) (w w' : World) :
  separated w -> own_grids w -> effect ctx w w' ->
  (forall i g, games w !! i = Some g -> game_ok w g) ->
  forall i g, i <> author ctx -> games w' !! i = Some g -> game_ok w' g.
Proof.
  intros Hsep Hown [Hstore Hheap] Hok i g Hi Hg'.
  assert (games w !! i = Some g) as Hg.
  { destruct Hstore as [E|[E|[_ E]]]; rewrite E in Hg'; [done| |].
    - by apply lookup_delete_Some in Hg' as [_ ?].
    - by rewrite lookup_insert_ne in Hg'. }
  destruct (Hok i g Hg) as (r & b & Hne & Hr & Hb & Hrest).
  destruct (Hsep i g Hg) as (Hbl & Hrl & Hd).
  exists r, b. split; [done|].
  assert (heap w' !! revealed g = heap w !! revealed g) as Er.
  { apply Hheap; [done|]. intros ga Ha Hrev. apply Hi. symmetry.
    by apply (Hown _ _ ga g Ha Hg). }
  assert (heap w' !! board g = heap w !! board g) as Eb.
  { apply Hheap; [done|]. intros ga Ha. exact (Hd _ ga Ha). }
  by rewrite Er, Eb.
Qed.

Lemma game_ok_heap (w w' : World) (g : Game) :
  heap w' = heap w -> game_ok w g -> game_ok w' g.
Proof. intros E (r & b & H). exists r, b. by rewrite E. Qed.

Lemma game_ok_written (w : World) (ctx : Ctx) (g : Game) (r r' b : GameBoard)
    (es : list event) :
  playing w ctx g r b -> counted b -> is_grid10 r' = true -> no_bomb_shown r' b ->
  game_ok (say es (set_heap (insert (revealed g) r') w)) g.
Proof.
  intros (Hg & Hne & Hr & Hb & Hgr & Hbd) Hcount Hg' Hshown.
  exists r', b. split; [done|]. simpl.
  rewrite lookup_insert_eq, lookup_insert_ne by done. done.
Qed.

(** What a command leaves on a world that is well kept: a good record of
    its player, if any, and events that all have a text; the only
    exception is the [KeyError] of a player who has no game. *)
Lemma run_command_good (fuel : nat) (c : command) (w : World) :
  well_kept w -> (100 < fuel)%nat ->
  (forall q, q ∈ coordinates_of c -> in_range q) ->
  (exists w',
     run_command fuel c w = Ok tt w' /\
     (forall g', games w' !! author (ctx_of c) = Some g' -> game_ok w' g') /\
     all_render (outbox w')) \/
  (games w !! author (ctx_of c) = None /\ run_command fuel c w = Raise KeyError w /\
   forall ctx bomb_chance, c <> Start ctx bomb_chance).
Proof.
  intros [Hok Hbox] Hfuel Hl.
  destruct c as [ctx bomb_chance|ctx coordinates|ctx coordinates|ctx]; simpl in *;
    destruct (games w !! author ctx) as [g|] eqn:Hg.
  - left. eexists. split; [apply (start_command_running ctx bomb_chance w g Hg)|].
    split.
    + intros g' Hg'. simpl in Hg'. rewrite Hg in Hg'. injection Hg' as <-.
      apply (game_ok_heap w); [done|]. by apply (Hok _ _ Hg).
    + apply all_render_app; [done|]. intros e v He Hv.
      repeat (apply elem_of_cons in He as [->|He]; [discriminate Hv|]).
      by apply elem_of_nil in He.
  - left. destruct (start_command_fresh ctx bomb_chance w Hg) as (b & _ & Hb & Hcount & Hrun).
    eexists. split; [exact Hrun|]. split.
    + intros g' Hg'. simpl in Hg'. rewrite lookup_insert_eq in Hg'. injection Hg' as <-.
      exists hidden_board, b. simpl. split; [lia|].
      split; [apply lookup_insert_eq|].
      split; [by rewrite lookup_insert_ne, lookup_insert_eq by lia|].
      split; [reflexivity|]. split; [done|]. split; [done|].
      intros p Hp. left. by apply hidden_board_cell.
    + apply all_render_app; [done|apply start_messages_render].
  - left. destruct (game_ok_playing w ctx g Hg (Hok _ _ Hg)) as (r & b & Hplay & Hcount & Hshown).
    destruct (flag_command_exact ctx w g r b coordinates Hplay Hl) as (r' & Hrun & Hg' & Hch).
    assert (no_bomb_shown r' b) as Hshown'.
    { intros q Hq. destruct (Hch q Hq) as [Hflag Hsame].
      destruct (decide (q ∈ coordinates /\ cell_at r q = Hidden)) as [[Hin Hh]|Hn].
      - right; left. by apply Hflag.
      - rewrite (Hsame Hn). by apply Hshown. }
    pose proof Hplay as (_ & _ & _ & _ & _ & Hbd).
    eexists. split; [exact Hrun|]. split.
    + intros g'' Hg''. simpl in Hg''. rewrite Hg in Hg''. injection Hg'' as <-.
      by apply (game_ok_written w ctx g r r' b).
    + apply all_render_app; [done|].
      by apply board_messages_render, (display_renders r' b).
  - right. split; [done|]. split; [|done]. unfold flag_command.
    by rewrite (bind_Raise _ _ _ _ _ (the_game_None ctx w Hg)).
  - left. destruct (game_ok_playing w ctx g Hg (Hok _ _ Hg)) as (r & b & Hplay & Hcount & Hshown).
    pose proof Hplay as (_ & _ & _ & _ & _ & Hbd).
    unfold reveal_command. rewrite (bind_Ok _ _ _ _ _ (the_game_Some ctx w g Hg)).
    destruct (reveal_loop_exact fuel ctx g b coordinates w r Hplay Hl Hfuel)
      as (r' & Hg' & _ & [[Hgo Hsafe]|(es & Hes & Hstop)]).
    + pose proof (Hgo []) as Hrun. rewrite app_nil_r in Hrun. cbn [reveal_loop] in Hrun.
      rewrite (update_boards_Some ctx (set_heap (insert (revealed g) r') w) g Hg) in Hrun.
      rewrite (lookup_total_Some _ _ _ (heap_set_heap_eq w (revealed g) r')) in Hrun.
      eexists. split; [exact Hrun|]. split.
      * intros g'' Hg''. simpl in Hg''. rewrite Hg in Hg''. injection Hg'' as <-.
        apply (game_ok_written w ctx g r r' b); auto.
      * apply all_render_app; [done|].
        apply board_messages_render, (display_renders r' b); auto.
    + pose proof (Hstop []) as Hrun. rewrite app_nil_r in Hrun.
      eexists. split; [exact Hrun|]. split.
      * intros g'' Hg''. simpl in Hg''. by rewrite lookup_delete_eq in Hg''.
      * apply all_render_app; [done|]. apply all_render_app.
        -- destruct (outcome_messages_render g) as [Hlost Hwon].
           by destruct Hes as [[-> _]|[-> _]].
        -- by apply board_messages_render, board_renders.
  - right. split; [done|]. split; [|done]. unfold reveal_command.
    by rewrite (bind_Raise _ _ _ _ _ (the_game_None ctx w Hg)).
  - left. destruct (game_ok_playing w ctx g Hg (Hok _ _ Hg)) as (r & b & Hplay & Hcount & Hshown).
    pose proof Hplay as (_ & _ & _ & Hb & _ & Hbd).
    eexists. split; [apply (end_command_exact ctx w g Hg)|]. split.
    + intros g'' Hg''. simpl in Hg''. by rewrite lookup_delete_eq in Hg''.
    + apply all_render_app; [done|]. rewrite (lookup_total_Some _ _ _ Hb).
      by apply end_messages_render, board_renders.
  - right. split; [done|]. split; [|done]. unfold end_command, disclose.
    by rewrite (bind_Raise _ _ _ _ _ (bind_Raise _ _ _ _ _ (the_game_None ctx w Hg))).
Qed.

Lemma play_step (w w' : World) : play w w' -> step w w'.
Proof. intros (fuel & c & _ & _ & H). by exists fuel, c. Qed.

Lemma in_play_reachable (w : World) : in_play w -> reachable w.
Proof. intros [d H]. exists d. eapply rtc_subrel; [|exact H]. apply play_step. Qed.

Lemma play_well_kept (w w' : World) :
  reachable w -> well_kept w -> play w w' -> well_kept w'.
Proof.
  intros Hreach Hkept (fuel & c & Hfuel & Hl & Hrun).
  pose proof (step_effect fuel c w w' Hrun) as Heff.
  destruct (run_command_good fuel c w Hkept Hfuel Hl)
    as [(w1 & Hrun1 & Hown & Hbox)|(_ & Hraise & _)].
  - assert (w' = w1) as ->.
    { destruct Hrun as [H|[e H]]; rewrite Hrun1 in H; [by injection H|discriminate H]. }
    split; [|done]. intros i g Hi.
    destruct (decide (i = author (ctx_of c))) as [->|Hne]; [by apply Hown|].
    exact (others_kept (ctx_of c) w w1 (reachable_separated w Hreach)
             (reachable_own_grids w Hreach) Heff (proj1 Hkept) i g Hne Hi).
  - assert (w' = w) as ->; [|done].
    destruct Hrun as [H|[e H]]; rewrite Hraise in H; [discriminate H|by injection H].
Qed.

Lemma in_play_well_kept (w : World) : in_play w -> well_kept w.
Proof.
  intros [d Hrtc]. revert w Hrtc. apply (rtc_ind_r well_kept (initial d)).
  - split.
    + intros i g Hi. simpl in Hi. by rewrite lookup_empty in Hi.
    + intros e g He. simpl in He. by apply elem_of_nil in He.
  - intros w1 w2 Hrtc Hplay IH. apply (play_well_kept w1); [|done..].
    apply in_play_reachable. by exists d.
Qed.

Lemma started_in_play : in_play started.
Proof.
  exists one_bomb_draws. apply rtc_once. exists 101%nat, (Start player (1 # 5)).
  split; [lia|]. split; [by intros q ?%elem_of_nil|].
  left. vm_compute. reflexivity.
Qed.

Lemma revealed_in_play :
  in_play (final_world (reveal_command 101 player [(5, 5)] started) started).
Proof.
  destruct started_in_play as [d Hrtc]. exists d.
  eapply rtc_r; [exact Hrtc|]. exists 101%nat, (Reveal player [(5, 5)]).
  split; [lia|]. split.
  - intros q ->%list_elem_of_singleton. unfold in_range. simpl. lia.
  - left. vm_compute. reflexivity.
Qed.

(** X20.  While a game is in the store, no bomb is on display.  In every
    world reached by commands with coordinates on the board, the record
    of every player has two distinct grids: its board, a generated board
    on which every number is the count of the bombs around the cell, and
    its revealed grid, a 10x10 grid of which every cell is Hidden, a flag,
    or the number the board has there. *)
Theorem in_play_no_bomb_shown (w : World) (i : Z) (g : Game) :
  in_play w -> games w !! i = Some g ->
  exists r b,
    revealed g <> board g /\
    heap w !! revealed g = Some r /\ heap w !! board g = Some b /\
    is_grid10 r = true /\ is_board b = true /\
    counted b /\ no_bomb_shown r b.
Proof.
  intros Hplay Hg. destruct (in_play_well_kept w Hplay) as [Hok _].
  exact (Hok i g Hg).
Qed.

Lemma in_play_no_bomb_shown_witness :
  exists r b,
    revealed (mkGame 0%nat 1%nat false) <> board (mkGame 0%nat 1%nat false) /\
    heap (final_world (reveal_command 101 player [(5, 5)] started) started)
      !! revealed (mkGame 0%nat 1%nat false) = Some r /\
    heap (final_world (reveal_command 101 player [(5, 5)] started) started)
      !! board (mkGame 0%nat 1%nat false) = Some b /\
    is_grid10 r = true /\ is_board b = true /\
    counted b /\ no_bomb_shown r b.
Proof.
  assert (games (final_world (reveal_command 101 player [(5, 5)] started) started) !! 7
          = Some (mkGame 0%nat 1%nat false)) as Hg by (vm_compute; reflexivity).
  exact (in_play_no_bomb_shown _ 7 (mkGame 0%nat 1%nat false) revealed_in_play Hg).
Defined.

(** X21.  In a world reached by commands with coordinates on the board,
    a command with coordinates on the board runs to its end: no index is
    out of range, the fill ends within the recursion bound, and the only
    exception is the [KeyError] of [flag_command], [reveal_command] and
    [end_command] for a player who has no game, which leaves the world as
    it is. *)
Theorem in_play_completes (fuel : nat) (c : command) (w : World) :
  in_play w -> (100 < fuel)%nat ->
  (forall q, q ∈ coordinates_of c -> in_range q) ->
  (exists w', run_command fuel c w = Ok tt w') \/
  (games w !! author (ctx_of c) = None /\ run_command fuel c w = Raise KeyError w /\
   forall ctx bomb_chance, c <> Start ctx bomb_chance).
Proof.
  intros Hplay Hfuel Hl.
  destruct (run_command_good fuel c w (in_play_well_kept w Hplay) Hfuel Hl)
    as [(w' & Hrun & _)|Hraise]; [left; by exists w'|by right].
Qed.

Lemma in_play_completes_witness :
  (exists w', run_command 101 (Reveal player [(0, 0); (9, 9)]) started = Ok tt w') \/
  (games started !! author (ctx_of (Reveal player [(0, 0); (9, 9)])) = None /\
   run_command 101 (Reveal player [(0, 0); (9, 9)]) started = Raise KeyError started /\
   forall ctx bomb_chance, Reveal player [(0, 0); (9, 9)] <> Start ctx bomb_chance).
Proof.
  assert (100 < 101)%nat as Hfuel by lia.
  assert (forall q, q ∈ coordinates_of (Reveal player [(0, 0); (9, 9)]) -> in_range q)
    as Hl.
  { intros q Hq. apply elem_of_cons in Hq as [->|Hq];
      [|apply list_elem_of_singleton in Hq as ->]; unfold in_range; simpl; lia. }
  exact (in_play_completes 101 (Reveal player [(0, 0); (9, 9)]) started
           started_in_play Hfuel Hl).
Defined.

(** X22.  [format_for_discord] never raises in play: in a world reached
    by commands with coordinates on the board, every grid the cog has
    sent or edited into a message is one that [format_for_discord]
    returns a text for. *)
Theorem in_play_renders (w : World) (e : event) (g : GameBoard) :
  in_play w -> e ∈ outbox w -> view_of e = Some g ->
  exists text, format_for_discord g = inr text.
Proof.
  intros Hplay He Hv. destruct (in_play_well_kept w Hplay) as [_ Hbox].
  exact (Hbox e g He Hv).
Qed.

Lemma in_play_renders_witness :
  exists text, format_for_discord hidden_board = inr text.
Proof.
  assert (SendDm (BoardView hidden_board) ∈ outbox started) as He.
  { change (outbox started) with [SendDm HowToPlay; SendDm (BoardView hidden_board)].
    apply list_elem_of_further, list_elem_of_here. }
  exact (in_play_renders started (SendDm (BoardView hidden_board)) hidden_board
           started_in_play He eq_refl).
Defined.

(** ** One reveal *)

(** [reveal_command] with one coordinate, in full. *)
Lemma reveal_command_single (fuel : nat) (ctx : Ctx) (w : World) (g : Game)
    (r b : GameBoard) (p : Z * Z) :
  playing w ctx g r b -> in_range p -> (100 < fuel)%nat ->
  exists r1,
    reveal_grid fuel b p.1 p.2 r = Ok tt r1 /\ is_grid10 r1 = true /\
    reveal_command fuel ctx [p] w
    = Ok tt
        (if cell_eqb (cell_at b p) Bomb
         then set_games (delete (author ctx))
                (say (lost_messages g ++
                      board_messages (mkGame (board g) (board g) (activated_on_server g)) b)
                   (disclosed ctx g (set_heap (insert (revealed g) r1) w)))
         else if existsb (pending r1 b) all_cells
         then say (board_messages g r1) (set_heap (insert (revealed g) r1) w)
         else set_games (delete (author ctx))
                (say (won_messages g ++
                      board_messages (mkGame (board g) (board g) (activated_on_server g)) b)
                   (disclosed ctx g (set_heap (insert (revealed g) r1) w)))).
Proof.
  intros Hplay Hp Hfuel. pose proof Hplay as (Hg & Hne & Hr & Hb & Hgr & Hbd).
  pose proof (hidden_count_le_100 r Hgr) as Hle.
  destruct (reveal_one_spec fuel ctx w g r b p Hplay Hp) as (r1 & Hgrid & Hg1 & Hone); [lia|].
  exists r1. split; [exact Hgrid|]. split; [exact Hg1|].
  unfold reveal_command. rewrite (bind_Ok _ _ _ _ _ (the_game_Some ctx w g Hg)).
  destruct p as [x y]. cbn [fst snd] in Hone. cbn [reveal_loop].
  set (w1 := set_heap (insert (revealed g) r1) w) in *.
  assert (forall es : list event,
            (update_boards ctx ;;; del_game ctx) (say es (disclosed ctx g w1))
            = Ok tt (set_games (delete (author ctx))
                       (say (es ++ board_messages
                                     (mkGame (board g) (board g) (activated_on_server g)) b)
                          (disclosed ctx g w1)))) as Hend.
  { intros es.
    assert (games (say es (disclosed ctx g w1)) !! author ctx
            = Some (mkGame (board g) (board g) (activated_on_server g))) as Hgd
      by apply lookup_insert_eq.
    rewrite (bind_Ok _ _ _ _ _ (update_boards_Some ctx _ _ Hgd)).
    rewrite (del_game_Some ctx (say _ (say es _)) _ Hgd), say_say.
    assert (heap (say es (disclosed ctx g w1))
              !!! revealed (mkGame (board g) (board g) (activated_on_server g)) = b)
      as ->; [|done].
    apply lookup_total_Some. simpl. by rewrite lookup_insert_ne. }
  destruct (cell_eqb (cell_at b (x, y)) Bomb);
    [rewrite (bind_Ok _ _ _ _ _ Hone); apply Hend|].
  destruct (existsb (pending r1 b) all_cells);
    [|rewrite (bind_Ok _ _ _ _ _ Hone); apply Hend].
  rewrite (bind_Ok _ _ _ _ _ Hone).
  rewrite (update_boards_Some ctx w1 g Hg). unfold w1.
  by rewrite (lookup_total_Some _ _ _ (heap_set_heap_eq w (revealed g) r1)).
Qed.

(** X15.  The reveal of a cell whose value is not 0, a number or a bomb,
    writes that one cell of the revealed grid and nothing else: no fill
    starts, and every other grid is as it was. *)
Theorem reveal_number_only (fuel : nat) (ctx : Ctx) (w : World) (g : Game)
    (r b : GameBoard) (x y : Z) :
  playing w ctx g r b -> in_range (x, y) -> (100 < fuel)%nat ->
  cell_at b (x, y) <> Num 0 ->
  exists w',
    reveal_command fuel ctx [(x, y)] w = Ok tt w' /\
    heap w' = <[revealed g := set_cell r (x, y) (cell_at b (x, y))]> (heap w).
Proof.
  intros Hplay Hp Hfuel Hnz. pose proof Hplay as (Hg & Hne & Hr & Hb & Hgr & Hbd).
  destruct (reveal_command_single fuel ctx w g r b (x, y) Hplay Hp Hfuel)
    as (r1 & Hgrid & Hg1 & Hrun).
  destruct (reveal_grid_uncovers fuel b r r1 (x, y) Hbd Hgr Hp Hgrid)
    as (_ & _ & _ & Hone & _).
  rewrite (Hone Hnz) in Hrun. eexists. split; [exact Hrun|]. clear Hrun.
  destruct (cell_eqb _ Bomb); [reflexivity|].
  destruct (existsb _ all_cells); reflexivity.
Qed.

Lemma reveal_number_only_witness :
  exists w',
    reveal_command 101 player [(0, 0)] started = Ok tt w' /\
    heap w'
    = <[revealed (mkGame 0%nat 1%nat false)
        := set_cell hidden_board (0, 0) (cell_at one_bomb_board (0, 0))]> (heap started).
Proof.
  assert (playing started player (mkGame 0%nat 1%nat false) hidden_board one_bomb_board)
    as Hplay by (repeat split; try (vm_compute; reflexivity); discriminate).
  assert (in_range (0, 0)) as Hp by (unfold in_range; simpl; lia).
  assert (100 < 101)%nat as Hfuel by lia.
  assert (cell_at one_bomb_board (0, 0) <> Num 0) as Hnz by discriminate.
  exact (reveal_number_only 101 player started (mkGame 0%nat 1%nat false)
           hidden_board one_bomb_board 0 0 Hplay Hp Hfuel Hnz).
Defined.

(** ** A flag on a cell that is no bomb *)

Lemma board_messages_no_win (g : Game) (shown : GameBoard) :
  SendDm YouWon ∉ board_messages g shown.
Proof.
  unfold board_messages. intros H.
  apply elem_of_cons in H as [H|H]; [discriminate H|].
  apply elem_of_cons in H as [H|H]; [discriminate H|].
  destruct (activated_on_server g); [|by apply elem_of_nil in H].
  apply list_elem_of_singleton in H. discriminate H.
Qed.

Lemma lost_messages_no_win (g : Game) : SendDm YouWon ∉ lost_messages g.
Proof.
  unfold lost_messages. intros H.
  apply elem_of_cons in H as [H|H]; [discriminate H|].
  destruct (activated_on_server g); [|by apply elem_of_nil in H].
  apply list_elem_of_singleton in H. discriminate H.
Qed.

(** X16.  A flag on a cell that is no bomb keeps the game from being
    won: as long as no reveal names the cell, a [reveal_command] ends
    normally without the message of a win, whatever else it reveals. *)
Theorem flag_on_safe_cell_blocks_win (fuel : nat) (ctx : Ctx) (w : World) (g : Game)
    (r b : GameBoard) (coordinates : list (Z * Z)) (q : Z * Z) :
  playing w ctx g r b -> (forall c, c ∈ coordinates -> in_range c) ->
  (100 < fuel)%nat ->
  in_range q -> cell_at r q = Flag -> cell_at b q <> Bomb -> q ∉ coordinates ->
  exists w' es,
    reveal_command fuel ctx coordinates w = Ok tt w' /\
    outbox w' = outbox w ++ es /\ SendDm YouWon ∉ es.
Proof.
  intros Hplay Hl Hfuel Hq Hflag Hsafe Hnot.
  pose proof Hplay as (Hg & Hne & Hr & Hb & Hgr & Hbd).
  unfold reveal_command. rewrite (bind_Ok _ _ _ _ _ (the_game_Some ctx w g Hg)).
  destruct (reveal_loop_exact fuel ctx g b coordinates w r Hplay Hl Hfuel)
    as (r' & Hg' & Hch & [[Hgo _]|(es & Hes & Hstop)]).
  - pose proof (Hgo []) as Hrun. rewrite app_nil_r in Hrun. cbn [reveal_loop] in Hrun.
    rewrite (update_boards_Some ctx (set_heap (insert (revealed g) r') w) g Hg) in Hrun.
    eexists _, _. split; [exact Hrun|]. split; [reflexivity|].
    apply board_messages_no_win.
  - pose proof (Hstop []) as Hrun. rewrite app_nil_r in Hrun.
    eexists _, _. split; [exact Hrun|]. split; [reflexivity|].
    destruct Hes as [[-> _]|[-> Hall]].
    + intros [H|H]%elem_of_app; [by apply (lost_messages_no_win g)|].
      by apply (board_messages_no_win _ _ H).
    + exfalso. pose proof (Hall q Hq Hsafe) as Hshown.
      destruct (Hch q Hq) as [E|[[E _]|[E _]]].
      * rewrite E, Hflag in Hshown. discriminate Hshown.
      * rewrite Hflag in E. discriminate E.
      * done.
Qed.

Lemma flag_on_safe_cell_blocks_win_witness :
  exists w' es,
    reveal_command 101 player [(5, 5)]
      (final_world (flag_command player [(0, 0)] started) started) = Ok tt w' /\
    outbox w'
    = outbox (final_world (flag_command player [(0, 0)] started) started) ++ es /\
    SendDm YouWon ∉ es.
Proof.
  assert (playing (final_world (flag_command player [(0, 0)] started) started) player
            (mkGame 0%nat 1%nat false) (set_cell hidden_board (0, 0) Flag) one_bomb_board)
    as Hplay by (repeat split; try (vm_compute; reflexivity); discriminate).
  assert (forall c, c ∈ [(5, 5)] -> in_range c) as Hl
    by (intros c ->%list_elem_of_singleton; unfold in_range; simpl; lia).
  assert (100 < 101)%nat as Hfuel by lia.
  assert (in_range (0, 0)) as Hq by (unfold in_range; simpl; lia).
  assert (cell_at (set_cell hidden_board (0, 0) Flag) (0, 0) = Flag) as Hflag
    by reflexivity.
  assert (cell_at one_bomb_board (0, 0) <> Bomb) as Hsafe by discriminate.
  assert ((0, 0) ∉ [(5, 5)]) as Hnot by (intros H%list_elem_of_singleton; discriminate H).
  exact (flag_on_safe_cell_blocks_win 101 player _ (mkGame 0%nat 1%nat false) _
           one_bomb_board [(5, 5)] (0, 0) Hplay Hl Hfuel Hq Hflag Hsafe Hnot).
Defined.

(** ** A board without bombs *)

(** On a grid that was all Hidden, the fill from a cell of a board of
    zeros leaves no cell Hidden: it opens the cells around every cell it
    opens, and every cell is at some number of steps from the first. *)
Lemma fill_opens_all (fuel : nat) (b r1 : GameBoard) (p : Z * Z) :
  is_board b = true -> (forall q, in_range q -> cell_at b q = Num 0) ->
  in_range p ->
  reveal_grid fuel b p.1 p.2 hidden_board = Ok tt r1 ->
  r1 = b.
Proof.
  intros Hb Hzero Hp Hrun.
  assert (is_grid10 hidden_board = true) as Hgh by reflexivity.
  destruct (reveal_grid_uncovers fuel b hidden_board r1 p Hb Hgh Hp Hrun)
    as (Hg1 & Hp1 & Hu & _ & Hfill).
  destruct (Hfill (Hzero p Hp)) as [Hopen Hnear].
  set (r0 := set_cell hidden_board p (cell_at b p)) in *.
  assert (forall q, in_range q -> q <> p -> cell_at r0 q = Hidden) as Hr0.
  { intros q Hq Hne. unfold r0. rewrite cell_at_set_cell_ne by done.
    by apply hidden_board_cell. }
  assert (forall (n : nat) q, in_range q ->
            Z.abs (q.1 - p.1) + Z.abs (q.2 - p.2) <= Z.of_nat n ->
            cell_at r1 q <> Hidden) as Hall.
  { induction n as [|n IH]; intros [qx qy] Hq Hd;
      destruct p as [px py]; destruct Hp as [Hpx Hpy]; pose proof Hq as [Hqx Hqy];
      simpl in *.
    - assert (qx = px /\ qy = py) as [-> ->] by lia. rewrite Hp1.
      rewrite (Hzero (px, py)) by (unfold in_range; simpl; lia). discriminate.
    - destruct (decide ((qx, qy) = (px, py))) as [E|Hne].
      { rewrite E, Hp1. rewrite (Hzero (px, py)) by (unfold in_range; simpl; lia).
        discriminate. }
      set (q' := (qx + Z.sgn (px - qx), qy + Z.sgn (py - qy))).
      assert (in_range q') as Hq' by (unfold in_range, q'; simpl; lia).
      assert (neighbour q' (qx, qy)) as Hn.
      { apply get_neighbours_spec. unfold q'. simpl. lia. }
      assert (cell_at r1 q' <> Hidden) as Hopen'.
      { apply IH; [done|]. unfold q'. simpl.
        assert (qx <> px \/ qy <> py) by (destruct (decide (qx = px)); [right|left];
          congruence). lia. }
      destruct (decide (q' = (px, py))) as [E|Hne'].
      + apply Hnear. by rewrite <- E.
      + apply (Hopen q' Hq'); [by apply Hr0|done|by apply Hzero|done]. }
  apply grid10_ext; [done|by apply is_board_grid10|].
  intros q Hq.
  destruct (decide (q = p)) as [->|Hne]; [done|].
  destruct (Hu q Hq) as [E|[_ E]]; [|done].
  rewrite (Hr0 q Hq Hne) in E.
  destruct (Hall (Z.to_nat (Z.abs (q.1 - p.1) + Z.abs (q.2 - p.2))) q Hq); [lia|done].
Qed.

(** X17.  On a board without bombs the first reveal wins, whatever cell
    it names: the fill opens the whole grid, the player is told of the
    win, the board is shown and the record is removed. *)
Theorem first_reveal_wins_without_bombs (fuel : nat) (ctx : Ctx) (w : World)
    (g : Game) (b : GameBoard) (x y : Z) :
  playing w ctx g hidden_board b ->
  (forall q, in_range q -> cell_at b q = Num 0) ->
  in_range (x, y) -> (100 < fuel)%nat ->
  exists w',
    reveal_command fuel ctx [(x, y)] w = Ok tt w' /\
    games w' = delete (author ctx) (games w) /\
    heap w' !! revealed g = Some b /\
    outbox w'
    = outbox w ++ won_messages g ++
      board_messages (mkGame (board g) (board g) (activated_on_server g)) b.
Proof.
  intros Hplay Hzero Hp Hfuel. pose proof Hplay as (Hg & Hne & Hr & Hb & Hgr & Hbd).
  destruct (reveal_command_single fuel ctx w g hidden_board b (x, y) Hplay Hp Hfuel)
    as (r1 & Hgrid & Hg1 & Hrun).
  rewrite (fill_opens_all fuel b r1 (x, y) Hbd Hzero Hp Hgrid) in Hrun.
  rewrite (Hzero (x, y) Hp) in Hrun.
  assert (existsb (pending b b) all_cells = false) as Hnone.
  { apply pending_none. intros q Hq _. by rewrite (Hzero q Hq). }
  rewrite Hnone in Hrun. cbn [cell_eqb] in Hrun.
  eexists. split; [exact Hrun|]. simpl.
  split; [apply delete_insert_eq|]. split; [apply lookup_insert_eq|reflexivity].
Qed.

Lemma first_reveal_wins_without_bombs_witness :
  exists w',
    reveal_command 101 player [(4, 7)] (world_of zero_board hidden_board (fun _ => 1%Q))
    = Ok tt w' /\
    games w'
    = delete (author player) (games (world_of zero_board hidden_board (fun _ => 1%Q))) /\
    heap w' !! revealed (mkGame 0%nat 1%nat false) = Some zero_board /\
    outbox w'
    = outbox (world_of zero_board hidden_board (fun _ => 1%Q)) ++
      won_messages (mkGame 0%nat 1%nat false) ++
      board_messages (mkGame (board (mkGame 0%nat 1%nat false))
                        (board (mkGame 0%nat 1%nat false))
                        (activated_on_server (mkGame 0%nat 1%nat false))) zero_board.
Proof.
  assert (playing (world_of zero_board hidden_board (fun _ => 1%Q)) player
            (mkGame 0%nat 1%nat false) hidden_board zero_board)
    as Hplay by (repeat split; try (vm_compute; reflexivity); discriminate).
  assert (forall q, in_range q -> cell_at zero_board q = Num 0) as Hzero.
  { intros q (x & y & Hx & Hy & ->)%in_range_nat.
    by apply (cell_at_lookup zero_board y x (replicate 10 (Num 0)));
      apply lookup_replicate_2. }
  assert (in_range (4, 7)) as Hp by (unfold in_range; simpl; lia).
  assert (100 < 101)%nat as Hfuel by lia.
  exact (first_reveal_wins_without_bombs 101 player _ (mkGame 0%nat 1%nat false)
           zero_board 4 7 Hplay Hzero Hp Hfuel).
Defined.

(** ** Batched reveals *)

(** The end of the loop of [reveal_command] once [reveal_one] has
    disclosed the record: the board is shown and the record removed. *)
Lemma reveal_loop_end (ctx : Ctx) (g : Game) (b : GameBoard) (es : list event)
    (w : World) :
  revealed g <> board g -> heap w !! board g = Some b ->
  (update_boards ctx ;;; del_game ctx) (say es (disclosed ctx g w))
  = Ok tt (set_games (delete (author ctx))
             (say (es ++ board_messages
                           (mkGame (board g) (board g) (activated_on_server g)) b)
                (disclosed ctx g w))).
Proof.
  intros Hne Hb.
  assert (games (say es (disclosed ctx g w)) !! author ctx
          = Some (mkGame (board g) (board g) (activated_on_server g))) as Hgd
    by apply lookup_insert_eq.
  rewrite (bind_Ok _ _ _ _ _ (update_boards_Some ctx _ _ Hgd)).
  rewrite (del_game_Some ctx (say _ (say es _)) _ Hgd), say_say.
  assert (heap (say es (disclosed ctx g w))
            !!! revealed (mkGame (board g) (board g) (activated_on_server g)) = b)
    as ->; [|done].
  by apply lookup_total_Some.
Qed.

(** C5.  In a batched reveal on a game in play, take a coordinate
    [(x, y)] that the coordinates before it reach with the game still
    going, on the revealed grid [r1]; the reveal of [(x, y)] makes that
    grid [r2].  When the cell is a bomb the outcome is Lost, and when it
    is no bomb and [r2] shows every cell that is no bomb the outcome is
    Won.  In both cases [reveal_one] returns True with the messages of
    the outcome and with the record disclosed, its revealed field naming
    the board; the command then shows the board, removes the record of
    the player from the store, and ends in the same world whatever
    coordinates follow: they are discarded, and the grids are those the
    reveal of [(x, y)] left.  In every other case the command goes on
    with the coordinates that follow. *)
Theorem batched_reveal_ends (fuel : nat) (ctx : Ctx) (w w1 : World) (g : Game)
    (r b : GameBoard) (before : list (Z * Z)) (x y : Z) :
  playing w ctx g r b ->
  (forall c, c ∈ before -> in_range c) -> in_range (x, y) -> (100 < fuel)%nat ->
  reveal_command fuel ctx before w = Ok tt w1 ->
  games w1 !! author ctx = Some g ->
  exists r1 r2,
    heap w1 !! revealed g = Some r1 /\
    reveal_grid fuel b x y r1 = Ok tt r2 /\
    (cell_at b (x, y) = Bomb \/ all_safe_shown r2 b ->
     exists es w2 w_end,
       (cell_at b (x, y) = Bomb -> es = lost_messages g) /\
       (cell_at b (x, y) <> Bomb -> es = won_messages g) /\
       reveal_one fuel ctx (revealed g) (board g) x y
         (set_heap (insert (revealed g) r1) w) = Ok true w2 /\
       outbox w2 = outbox w ++ es /\
       games w2 !! author ctx
       = Some (mkGame (board g) (board g) (activated_on_server g)) /\
       (forall after,
          reveal_command fuel ctx (before ++ (x, y) :: after) w = Ok tt w_end) /\
       games w_end = delete (author ctx) (games w) /\
       heap w_end !! revealed g = Some r2 /\
       heap w_end !! board g = Some b /\
       outbox w_end
       = outbox w ++ es ++
         board_messages (mkGame (board g) (board g) (activated_on_server g)) b) /\
    (cell_at b (x, y) <> Bomb -> ~ all_safe_shown r2 b ->
     forall after,
       reveal_command fuel ctx (before ++ (x, y) :: after) w
       = reveal_command fuel ctx after (set_heap (insert (revealed g) r2) w)).
Proof.
  intros Hplay Hl Hp Hfuel Hrun Hgoes.
  pose proof Hplay as (Hg & Hne & Hr & Hb & Hgr & Hbd).
  unfold reveal_command in Hrun.
  rewrite (bind_Ok _ _ _ _ _ (the_game_Some ctx w g Hg)) in Hrun.
  destruct (reveal_loop_exact fuel ctx g b before w r Hplay Hl Hfuel)
    as (r1 & Hg1 & _ & [[Hgo _]|(es0 & _ & Hstop)]).
  2:{ pose proof (Hstop []) as H0. rewrite app_nil_r in H0. rewrite H0 in Hrun.
      injection Hrun as <-. simpl in Hgoes. by rewrite lookup_delete_eq in Hgoes. }
  pose proof (Hgo []) as H0. rewrite app_nil_r in H0. rewrite H0 in Hrun. clear H0.
  cbn [reveal_loop] in Hrun.
  rewrite (update_boards_Some ctx (set_heap (insert (revealed g) r1) w) g Hg) in Hrun.
  injection Hrun as <-. clear Hgoes.
  assert (playing (set_heap (insert (revealed g) r1) w) ctx g r1 b) as Hplay1
    by apply (playing_after_write w ctx g r r1 b Hplay Hg1).
  pose proof (hidden_count_le_100 r1 Hg1) as Hle.
  destruct (reveal_one_spec fuel ctx _ g r1 b (x, y) Hplay1 Hp) as (r2 & Hgrid & Hg2 & Hone);
    [lia|]. cbn [fst snd] in Hone, Hgrid. rewrite set_heap_twice in Hone.
  set (w0 := set_heap (insert (revealed g) r1) w) in *.
  set (w2 := set_heap (insert (revealed g) r2) w) in *.
  assert (heap w2 !! board g = Some b) as Hb2 by (unfold w2; by rewrite heap_set_heap_ne).
  assert (forall after,
            reveal_command fuel ctx (before ++ (x, y) :: after) w
            = (let! ended := reveal_one fuel ctx (revealed g) (board g) x y in
               if ended then update_boards ctx ;;; del_game ctx
               else reveal_loop fuel ctx (revealed g) (board g) after) w0) as Hbatch.
  { intros after. unfold reveal_command.
    rewrite (bind_Ok _ _ _ _ _ (the_game_Some ctx w g Hg)). by rewrite Hgo. }
  exists r1, r2. split; [apply heap_set_heap_eq|]. split; [exact Hgrid|].
  assert (forall es,
            reveal_one fuel ctx (revealed g) (board g) x y w0
            = Ok true (say es (disclosed ctx g w2)) ->
            exists w' w_end,
              reveal_one fuel ctx (revealed g) (board g) x y w0 = Ok true w' /\
              outbox w' = outbox w ++ es /\
              games w' !! author ctx
              = Some (mkGame (board g) (board g) (activated_on_server g)) /\
              (forall after,
                 reveal_command fuel ctx (before ++ (x, y) :: after) w = Ok tt w_end) /\
              games w_end = delete (author ctx) (games w) /\
              heap w_end !! revealed g = Some r2 /\
              heap w_end !! board g = Some b /\
              outbox w_end
              = outbox w ++ es ++
                board_messages (mkGame (board g) (board g) (activated_on_server g)) b)
    as Hended.
  { intros es Hone'. eexists _, _. split; [exact Hone'|].
    split; [reflexivity|]. split; [apply lookup_insert_eq|].
    split.
    { intros after. rewrite Hbatch, (bind_Ok _ _ _ _ _ Hone').
      apply (reveal_loop_end ctx g b es w2 Hne Hb2). }
    split; [apply delete_insert_eq|]. split; [apply heap_set_heap_eq|].
    split; [exact Hb2|reflexivity]. }
  split.
  - intros Hend. destruct (cell_eqb (cell_at b (x, y)) Bomb) eqn:Ebomb.
    + apply cell_eqb_eq in Ebomb.
      destruct (Hended (lost_messages g) Hone) as (w' & w_end & H).
      exists (lost_messages g), w', w_end. split; [done|]. split; [done|exact H].
    + apply cell_eqb_neq in Ebomb.
      destruct Hend as [Hbomb|Hall]; [done|].
      apply pending_none in Hall. rewrite Hall in Hone.
      destruct (Hended (won_messages g) Hone) as (w' & w_end & H).
      exists (won_messages g), w', w_end. split; [done|]. split; [done|exact H].
  - intros Hnb Hnot after. apply cell_eqb_neq in Hnb. rewrite Hnb in Hone.
    destruct (existsb (pending r2 b) all_cells) eqn:Epend;
      [|by destruct Hnot; apply pending_none].
    rewrite Hbatch, (bind_Ok _ _ _ _ _ Hone).
    unfold reveal_command. by rewrite (bind_Ok _ _ _ _ _ (the_game_Some ctx w2 g Hg)).
Qed.

Lemma batched_reveal_ends_witness :
  exists r1 r2,
    heap (final_world (reveal_command 101 player [(0, 0)] started) started)
      !! revealed (mkGame 0%nat 1%nat false) = Some r1 /\
    reveal_grid 101 one_bomb_board 1 0 r1 = Ok tt r2 /\
    (cell_at one_bomb_board (1, 0) = Bomb \/ all_safe_shown r2 one_bomb_board ->
     exists es w2 w_end,
       (cell_at one_bomb_board (1, 0) = Bomb ->
        es = lost_messages (mkGame 0%nat 1%nat false)) /\
       (cell_at one_bomb_board (1, 0) <> Bomb ->
        es = won_messages (mkGame 0%nat 1%nat false)) /\
       reveal_one 101 player (revealed (mkGame 0%nat 1%nat false))
         (board (mkGame 0%nat 1%nat false)) 1 0
         (set_heap (insert (revealed (mkGame 0%nat 1%nat false)) r1) started)
       = Ok true w2 /\
       outbox w2 = outbox started ++ es /\
       games w2 !! author player
       = Some (mkGame (board (mkGame 0%nat 1%nat false))
                 (board (mkGame 0%nat 1%nat false))
                 (activated_on_server (mkGame 0%nat 1%nat false))) /\
       (forall after,
          reveal_command 101 player ([(0, 0)] ++ (1, 0) :: after) started = Ok tt w_end) /\
       games w_end = delete (author player) (games started) /\
       heap w_end !! revealed (mkGame 0%nat 1%nat false) = Some r2 /\
       heap w_end !! board (mkGame 0%nat 1%nat false) = Some one_bomb_board /\
       outbox w_end
       = outbox started ++ es ++
         board_messages (mkGame (board (mkGame 0%nat 1%nat false))
                           (board (mkGame 0%nat 1%nat false))
                           (activated_on_server (mkGame 0%nat 1%nat false)))
           one_bomb_board) /\
    (cell_at one_bomb_board (1, 0) <> Bomb -> ~ all_safe_shown r2 one_bomb_board ->
     forall after,
       reveal_command 101 player ([(0, 0)] ++ (1, 0) :: after) started
       = reveal_command 101 player after
           (set_heap (insert (revealed (mkGame 0%nat 1%nat false)) r2) started)).
Proof.
  assert (playing started player (mkGame 0%nat 1%nat false) hidden_board one_bomb_board)
    as Hplay by (repeat split; try (vm_compute; reflexivity); discriminate).
  assert (forall c, c ∈ [(0, 0)] -> in_range c) as Hl
    by (intros c ->%list_elem_of_singleton; unfold in_range; simpl; lia).
  assert (in_range (1, 0)) as Hp by (unfold in_range; simpl; lia).
  assert (100 < 101)%nat as Hfuel by lia.
  assert (reveal_command 101 player [(0, 0)] started
          = Ok tt (final_world (reveal_command 101 player [(0, 0)] started) started))
    as Hrun by (vm_compute; reflexivity).
  assert (games (final_world (reveal_command 101 player [(0, 0)] started) started)
            !! author player = Some (mkGame 0%nat 1%nat false))
    as Hgoes by (vm_compute; reflexivity).
  exact (batched_reveal_ends 101 player started _ (mkGame 0%nat 1%nat false)
           hidden_board one_bomb_board [(0, 0)] 1 0 Hplay Hl Hp Hfuel Hrun Hgoes).
Defined.
